(** * Devil Run: a shallow embedding of the physics and hazard core

    The development follows the Python sources module by module:
    [config.py], the part of pygame's [Rect] the game relies on,
    [hazards.py], [level_manager.py] and the [Player] and [Game] classes of
    [main.py].  Python [float]s are IEEE-754 binary64 numbers and are
    modelled by Rocq's primitive floats, which implement the same format
    with round-to-nearest-even; Python [int]s are unbounded and are
    modelled by [Z].  A call that can raise ([int] of a non-finite float,
    a list index out of range) returns [option]. *)

From Stdlib Require Import ZArith List Bool String Floats Lia.
Import ListNotations.

Set Warnings "-inexact-float".

Local Open Scope Z_scope.

(** ** Python built-ins *)

Module Py.

(** The exception monad: [None] stands for a raised exception. *)
Definition bind {A B : Type} (m : option A) (k : A -> option B) : option B :=
  match m with
  | Some a => k a
  | None => None
  end.

(** [[f(x) for x in xs]] where [f] may raise: the first exception aborts
    the loop. *)
Fixpoint mapM {A B : Type} (f : A -> option B) (xs : list A) : option (list B) :=
  match xs with
  | [] => Some []
  | x :: rest =>
      match f x with
      | None => None
      | Some y =>
          match mapM f rest with
          | None => None
          | Some ys => Some (y :: ys)
          end
      end
  end.

(** [int(f)]: truncation toward zero; [ValueError] on a NaN and
    [OverflowError] on an infinity. *)
Definition int (f : float) : option Z :=
  match Prim2SF f with
  | S754_zero _ => Some 0
  | S754_finite s m e =>
      let mag := Z.shiftl (Zpos m) e in
      Some (if s then - mag else mag)
  | S754_infinity _ => None
  | S754_nan => None
  end.

(** [float(n)] as applied implicitly when an [int] meets a [float] in an
    arithmetic operation: the nearest binary64 number (ties to even).
    Every integer the game converts is a pixel coordinate or a blueprint
    constant, far below the overflow threshold of the format. *)
Definition float (n : Z) : PrimFloat.float :=
  SF2Prim (binary_normalize prec emax n 0 false).

(** [min(a, b)] and [max(a, b)] on floats: the first argument is kept
    unless the second compares strictly smaller (larger). *)
Definition fmin (a b : PrimFloat.float) : PrimFloat.float :=
  if (b <? a)%float then b else a.
Definition fmax (a b : PrimFloat.float) : PrimFloat.float :=
  if (a <? b)%float then b else a.

(** [x in xs] and [xs.remove(x)] for a list whose elements compare with
    [eqb]: [remove] deletes the first equal element. *)
Fixpoint contains {A : Type} (eqb : A -> A -> bool) (x : A) (xs : list A) : bool :=
  match xs with
  | [] => false
  | y :: rest => if eqb y x then true else contains eqb x rest
  end.

Fixpoint remove {A : Type} (eqb : A -> A -> bool) (x : A) (xs : list A) : list A :=
  match xs with
  | [] => []
  | y :: rest => if eqb y x then rest else y :: remove eqb x rest
  end.

(** [a % b] on ints: the result has the sign of [b]; [ZeroDivisionError]
    when [b] is 0. *)
Definition mod_ (a b : Z) : option Z :=
  if b =? 0 then None else Some (a mod b).

(** [d.get(key, default)] on an optional blueprint key. *)
Definition get {A : Type} (o : option A) (default : A) : A :=
  match o with
  | Some a => a
  | None => default
  end.

End Py.

Notation "x <- m ;; k" := (Py.bind m (fun x => k))
  (at level 61, m at next level, right associativity).

(** ** config.py *)

Module config.

Definition SCREEN_WIDTH : Z := 960.
Definition SCREEN_HEIGHT : Z := 700.
Definition TILE_SIZE : Z := 40.
Definition LEVEL_SCROLL_LENGTH : Z := 4.

Definition PLAYER_SPEED : Z := 8.
Definition JUMP_FORCE : Z := -22.
Definition GRAVITY : float := 0.8%float.
Definition MAX_FALL_SPEED : Z := 14.
Definition COYOTE_TIME : float := 0.15%float.
Definition JUMP_BUFFER_TIME : float := 0.15%float.

Definition DEFAULT_LEVEL_ID : Z := 1.
Definition TOTAL_LEVELS : Z := 12.
Definition BOSS_UNLOCK_STARS : Z := 22.

Definition DIALOGUE_DISPLAY_MS : Z := 2500.
Definition MAX_TOXICITY_TIER : Z := 4.

(** Colours are RGB triples. *)
Definition PEACH_DARK : Z * Z * Z := (60, 35, 20).
Definition PEACH_MED : Z * Z * Z := (95, 55, 35).
Definition ACCENT_YELLOW : Z * Z * Z := (255, 215, 0).

Definition RANKS : list (Z * string) :=
  [(0, "Noob (Pure Shame)"%string);
   (5, "Amateur (Just Stop)"%string);
   (10, "Rookie (Barely Competent)"%string);
   (15, "Veteran (Moderately Hated)"%string);
   (22, "Elite (Toxic Master)"%string);
   (28, "GOD (The Narrator's Equal)"%string)].

End config.

(** ** pygame.Rect and pygame.Vector2

    A [Rect] holds four integers.  Only the attributes and methods the
    game uses are modelled, with pygame 2 semantics: rectangles compare by
    value, a rectangle of zero width or height is falsy and collides with
    nothing, and [inflate] halves its arguments with C division.  pygame
    keeps the four fields in C [int]s and refuses values beyond their
    range; the model leaves the coordinates unbounded. *)

Module pygame.

Definition RectTuple : Type := Z * Z * Z * Z.

Record Rect : Type := mkRect { x : Z; y : Z; width : Z; height : Z }.

(** [pygame.Rect(t)] and [pygame.Rect( *t)]. *)
Definition Rect_ (t : RectTuple) : Rect :=
  let '(a, b, c, d) := t in mkRect a b c d.

Definition left (r : Rect) : Z := x r.
Definition top (r : Rect) : Z := y r.
Definition right (r : Rect) : Z := x r + width r.
Definition bottom (r : Rect) : Z := y r + height r.
Definition centerx (r : Rect) : Z := x r + Z.shiftr (width r) 1.
Definition centery (r : Rect) : Z := y r + Z.shiftr (height r) 1.
Definition center (r : Rect) : Z * Z := (centerx r, centery r).

(** Attribute assignments: each one moves the rectangle, keeping its size. *)
Definition set_x (r : Rect) (v : Z) : Rect := mkRect v (y r) (width r) (height r).
Definition set_y (r : Rect) (v : Z) : Rect := mkRect (x r) v (width r) (height r).
Definition set_left (r : Rect) (v : Z) : Rect := set_x r v.
Definition set_top (r : Rect) (v : Z) : Rect := set_y r v.
Definition set_right (r : Rect) (v : Z) : Rect := set_x r (v - width r).
Definition set_bottom (r : Rect) (v : Z) : Rect := set_y r (v - height r).
Definition set_topleft (r : Rect) (p : Z * Z) : Rect :=
  mkRect (fst p) (snd p) (width r) (height r).
Definition set_center (r : Rect) (p : Z * Z) : Rect :=
  mkRect (fst p - Z.shiftr (width r) 1) (snd p - Z.shiftr (height r) 1)
         (width r) (height r).

(** [r == s]. *)
Definition Rect_eqb (r s : Rect) : bool :=
  (x r =? x s) && (y r =? y s) && (width r =? width s) && (height r =? height s).

(** [bool(r)]. *)
Definition truthy (r : Rect) : bool :=
  negb (width r =? 0) && negb (height r =? 0).

(** [r.inflate(dx, dy)]. *)
Definition inflate (r : Rect) (dx dy : Z) : Rect :=
  mkRect (x r - Z.quot dx 2) (y r - Z.quot dy 2) (width r + dx) (height r + dy).

(** [r.move(dx, dy)]. *)
Definition move (r : Rect) (dx dy : Z) : Rect :=
  mkRect (x r + dx) (y r + dy) (width r) (height r).

(** [a.colliderect(b)]. *)
Definition colliderect (a b : Rect) : bool :=
  if (width a =? 0) || (height a =? 0) || (width b =? 0) || (height b =? 0)
  then false
  else (Z.min (x a) (x a + width a) <? Z.max (x b) (x b + width b))
    && (Z.min (y a) (y a + height a) <? Z.max (y b) (y b + height b))
    && (Z.min (x b) (x b + width b) <? Z.max (x a) (x a + width a))
    && (Z.min (y b) (y b + height b) <? Z.max (y a) (y a + height a)).

(** [r.collidepoint(p)]: the right and bottom edges are outside. *)
Definition collidepoint (r : Rect) (p : Z * Z) : bool :=
  (x r <=? fst p) && (fst p <? x r + width r)
  && (y r <=? snd p) && (snd p <? y r + height r).

(** No two rectangles of the list are equal. *)
Fixpoint distinct (rs : list Rect) : bool :=
  match rs with
  | [] => true
  | r :: rest => negb (Py.contains Rect_eqb r rest) && distinct rest
  end.

(** [pygame.Vector2]: a pair of floats. *)
Record Vector2 : Type := mkVector2 { vx : float; vy : float }.

(** [pygame.Vector2(p)] for a pair of ints. *)
Definition Vector2_ (p : Z * Z) : Vector2 :=
  mkVector2 (Py.float (fst p)) (Py.float (snd p)).

End pygame.

(** ** The math module

    [math.sin] and [math.cos] come from the platform's C library; the
    model takes them as an interface.  They raise [ValueError] on an
    infinite argument, hence the [option]. *)

Module math.

Class Libm : Type := {
  sin : float -> option float;
  cos : float -> option float
}.

Definition pi : float := 3.141592653589793%float.

(** [math.radians(d)] for an integer number of degrees. *)
Definition radians (d : Z) : float := (Py.float d * (pi / 180))%float.

(** An executable instance, built from Taylor polynomials, on which the
    model can be run frame by frame.  Every statement below quantifies
    over all instances. *)
Definition sin_series (t : float) : float :=
  let t2 := (t * t)%float in
  (t * (1 - t2 / 6 * (1 - t2 / 20 * (1 - t2 / 42 * (1 - t2 / 72)))))%float.
Definition cos_series (t : float) : float :=
  let t2 := (t * t)%float in
  (1 - t2 / 2 * (1 - t2 / 12 * (1 - t2 / 30 * (1 - t2 / 56))))%float.

Definition series : Libm := {|
  sin := fun t => if is_infinity t then None else Some (sin_series t);
  cos := fun t => if is_infinity t then None else Some (cos_series t)
|}.

End math.

(** ** hazards.py *)

Module hazards.

Import pygame.

(** [player_rect and player_rect.colliderect(zone)] for an optional
    rectangle: [None] and empty rectangles are falsy. *)
Definition player_in (player_rect : option Rect) (zone : Rect) : bool :=
  match player_rect with
  | None => false
  | Some r => truthy r && colliderect r zone
  end.

Module OscillatingHazard.
Section Methods.
Context {libm : math.Libm}.

Record t : Type := mk {
  base_rect : Rect;
  rect : Rect;
  axis : string;
  amplitude : Z;
  speed : float;
  timer : float
}.

Definition __init__ (rect_tuple : RectTuple) (axis : string)
           (amplitude : Z) (speed : float) : t :=
  mk (Rect_ rect_tuple) (Rect_ rect_tuple) axis amplitude speed 0%float.

Definition update (self : t) (dt : float) (player_rect : option Rect) : option t :=
  let timer' := (timer self + dt)%float in
  s <- math.sin (timer' * speed self)%float ;;
  let offset := (s * Py.float (amplitude self))%float in
  if String.eqb (axis self) "x" then
    v <- Py.int (Py.float (x (base_rect self)) + offset)%float ;;
    Some (mk (base_rect self) (set_x (rect self) v) (axis self)
             (amplitude self) (speed self) timer')
  else
    v <- Py.int (Py.float (y (base_rect self)) + offset)%float ;;
    Some (mk (base_rect self) (set_y (rect self) v) (axis self)
             (amplitude self) (speed self) timer').

Definition collides (self : t) (r : Rect) : bool :=
  let generous_rect := inflate r (-8) (-8) in
  colliderect (rect self) generous_rect.
End Methods.
End OscillatingHazard.

Module TriggerSpike.
Record t : Type := mk {
  trigger_rect : Rect;
  rest_rect : Rect;
  rect : Rect;
  hidden_y : Z;
  target_y : Z;
  rise_speed : float;
  active : bool
}.

Definition __init__ (trigger_rect spike_rect : RectTuple)
           (rise_pixels : Z) (rise_speed : float) : t :=
  let rest := Rect_ spike_rect in
  let hidden := y (Rect_ spike_rect) + rise_pixels in
  mk (Rect_ trigger_rect) rest (set_y (Rect_ spike_rect) hidden)
     hidden (y rest) rise_speed false.

Definition default_rise_pixels : Z := 40.
Definition default_rise_speed : float := 140.0%float.

Definition update (self : t) (dt : float) (player_rect : option Rect) : option t :=
  let active' :=
    if negb (active self) && player_in player_rect (trigger_rect self)
    then true else active self in
  if active' && (y (rect self) >? target_y self) then
    k <- Py.int (rise_speed self * dt)%float ;;
    Some (mk (trigger_rect self) (rest_rect self)
             (set_y (rect self) (Z.max (target_y self) (y (rect self) - k)))
             (hidden_y self) (target_y self) (rise_speed self) active')
  else
    Some (mk (trigger_rect self) (rest_rect self) (rect self)
             (hidden_y self) (target_y self) (rise_speed self) active').

Definition collides (self : t) (r : Rect) : bool :=
  let generous_rect := inflate r (-8) (-8) in
  active self && colliderect (rect self) generous_rect.
End TriggerSpike.

Module SwingingAxe.
Section Methods.
Context {libm : math.Libm}.

Record t : Type := mk {
  pivot : Vector2;
  length : Z;
  blade_size : Z * Z;
  swing_radians : float;
  speed : float;
  time : float;
  rect : Rect
}.

Definition default_blade_size : Z * Z := (30, 60).

Definition __init__ (pivot : Z * Z) (length : Z) (blade_size : Z * Z)
           (swing_degrees : Z) (speed : float) : t :=
  mk (Vector2_ pivot) length blade_size (math.radians swing_degrees) speed
     0%float (mkRect 0 0 (fst blade_size) (snd blade_size)).

Definition update (self : t) (dt : float) (player_rect : option Rect) : option t :=
  let time' := (time self + dt)%float in
  s <- math.sin (time' * speed self)%float ;;
  let angle := (s * swing_radians self)%float in
  sa <- math.sin angle ;;
  let blade_center_x := (vx (pivot self) + sa * Py.float (length self))%float in
  ca <- math.cos angle ;;
  let blade_center_y := (vy (pivot self) + ca * Py.float (length self))%float in
  cx <- Py.int blade_center_x ;;
  cy <- Py.int blade_center_y ;;
  Some (mk (pivot self) (length self) (blade_size self) (swing_radians self)
           (speed self) time' (set_center (rect self) (cx, cy))).

Definition collides (self : t) (r : Rect) : bool :=
  let generous_rect := inflate r (-8) (-8) in
  colliderect (rect self) generous_rect.
End Methods.
End SwingingAxe.

Module ChasingHazard.
Record t : Type := mk {
  pos : Vector2;
  speed : float;
  max_time : float;
  timer : float;
  is_active : bool;
  rect : Rect
}.

Definition __init__ (spawn_pos : Z * Z) (speed max_time : float) : t :=
  mk (Vector2_ spawn_pos) speed max_time max_time true
     (mkRect 0 0 config.TILE_SIZE config.TILE_SIZE).

Definition update (self : t) (dt : float) (player_rect : option Rect) : option t :=
  if negb (is_active self) then Some self
  else
    let timer' := (timer self - dt)%float in
    if (timer' <=? 0)%float then
      Some (mk (pos self) (speed self) (max_time self) timer' false (rect self))
    else
      match player_rect with
      | Some pr =>
          if truthy pr then
            let target_x := centerx pr in
            let direction_x := (Py.float target_x - vx (pos self))%float in
            let pos_x :=
              if (0 <? direction_x)%float then
                (vx (pos self) + Py.fmin direction_x (speed self * dt))%float
              else if (direction_x <? 0)%float then
                (vx (pos self) + Py.fmax direction_x (- speed self * dt))%float
              else vx (pos self) in
            a <- Py.int (pos_x - Py.float (width (rect self)) / 2)%float ;;
            b <- Py.int (vy (pos self)) ;;
            Some (mk (mkVector2 pos_x (vy (pos self))) (speed self) (max_time self)
                     timer' true (set_topleft (rect self) (a, b)))
          else
            Some (mk (pos self) (speed self) (max_time self) timer' true (rect self))
      | None =>
          Some (mk (pos self) (speed self) (max_time self) timer' true (rect self))
      end.

Definition collides (self : t) (r : Rect) : bool :=
  let generous_rect := inflate r (-8) (-8) in
  is_active self && colliderect (rect self) generous_rect.
End ChasingHazard.

Module DisappearingPlatform.
Record t : Type := mk {
  trigger_rect : Rect;
  target_platform_rect : Rect;
  is_removed : bool
}.

Definition __init__ (trigger_rect_tuple : RectTuple) (target_platform_rect : Rect) : t :=
  mk (Rect_ trigger_rect_tuple) target_platform_rect false.

Definition update (self : t) (dt : float) (player_rect : option Rect) : t :=
  if negb (is_removed self) && player_in player_rect (trigger_rect self)
  then mk (trigger_rect self) (target_platform_rect self) true
  else self.
End DisappearingPlatform.

Module CrushingHazard.
Inductive State : Type := IDLE | SLAMMING | RETURNING.

Record t : Type := mk {
  base_rect : Rect;
  rect : Rect;
  slam_height : Z;
  speed : float;
  return_speed : float;
  state : State;
  target_y : Z
}.

Definition default_speed : float := 600.0%float.
Definition default_return_speed : float := 100.0%float.

Definition __init__ (rect_tuple : RectTuple) (slam_height : Z)
           (speed return_speed : float) : t :=
  mk (Rect_ rect_tuple) (Rect_ rect_tuple) slam_height speed return_speed IDLE
     (y (Rect_ rect_tuple) + slam_height).

Definition with_rect_state (self : t) (r : Rect) (s : State) : t :=
  mk (base_rect self) r (slam_height self) (speed self) (return_speed self)
     s (target_y self).

Definition update (self : t) (dt : float) (player_rect : option Rect) : option t :=
  match state self with
  | IDLE =>
      match player_rect with
      | Some pr =>
          if truthy pr && (Z.abs (centerx pr - centerx (rect self)) <? 100)
          then Some (with_rect_state self (rect self) SLAMMING)
          else Some self
      | None => Some self
      end
  | SLAMMING =>
      k <- Py.int (speed self * dt)%float ;;
      let r := set_y (rect self) (y (rect self) + k) in
      if y r >=? target_y self
      then Some (with_rect_state self (set_y r (target_y self)) RETURNING)
      else Some (with_rect_state self r SLAMMING)
  | RETURNING =>
      k <- Py.int (return_speed self * dt)%float ;;
      let r := set_y (rect self) (y (rect self) - k) in
      if y r <=? y (base_rect self)
      then Some (with_rect_state self (set_y r (y (base_rect self))) IDLE)
      else Some (with_rect_state self r RETURNING)
  end.

Definition collides (self : t) (r : Rect) : bool :=
  colliderect (rect self) r.
End CrushingHazard.

(** A hazard driven through successive frames: each call carries the time
    step and the player rectangle of its frame. *)
Fixpoint run {S : Type} (update : S -> float -> option Rect -> option S)
    (calls : list (float * option Rect)) (self : S) : option S :=
  match calls with
  | [] => Some self
  | (dt, player_rect) :: rest =>
      match update self dt player_rect with
      | None => None
      | Some self' => run update rest self'
      end
  end.

End hazards.

(** ** level_manager.py *)

Module level_manager.

Import pygame.

Definition TILE : Z := config.TILE_SIZE.
Definition GROUND_Y : Z := config.SCREEN_HEIGHT - TILE.
Definition LEVEL_LENGTH : Z := config.SCREEN_WIDTH * config.LEVEL_SCROLL_LENGTH.

Definition R (x y w h : Z) : RectTuple :=
  (TILE * x, GROUND_Y - TILE * y, TILE * w, TILE * h).

(** [t[0:2]] on a rectangle tuple. *)
Definition slice02 (t : RectTuple) : Z * Z :=
  let '(a, b, _, _) := t in (a, b).

(** *** Level blueprints

    A blueprint is a dictionary; the entries of its hazard lists are
    dictionaries too.  Keys read with [entry.get(key, default)] are
    optional. *)

Record OscEntry : Type := OscEntry_ {
  o_rect : RectTuple; o_axis : option string;
  o_amplitude : option Z; o_speed : option float }.
Record TrigEntry : Type := TrigEntry_ {
  t_trigger : RectTuple; t_spike : RectTuple }.
Record AxeEntry : Type := AxeEntry_ {
  a_pivot : Z * Z; a_length : option Z;
  a_swing_degrees : option Z; a_speed : option float }.
Record ChaserEntry : Type := ChaserEntry_ {
  c_spawn : Z * Z; c_speed : option float; c_max_time : option float }.
Record DisEntry : Type := DisEntry_ {
  d_trigger : RectTuple; d_platform : RectTuple }.
Record CrushEntry : Type := CrushEntry_ {
  k_rect : RectTuple; k_slam_height : option Z }.

Module Blueprint.
Record t : Type := mk {
  id : Z;
  name : string;
  spawn : Z * Z;
  goal : RectTuple;
  platforms : list RectTuple;
  static_traps : list RectTuple;
  oscillators : list OscEntry;
  triggers : list TrigEntry;
  axes : list AxeEntry;
  chasers : list ChaserEntry;
  disappear : list DisEntry;
  crushers : list CrushEntry
}.
End Blueprint.

Section Blueprints.
Import Blueprint.
Let Blueprint := Blueprint.t.
Let OscEntry := OscEntry_.
Let TrigEntry := TrigEntry_.
Let AxeEntry := AxeEntry_.
Let ChaserEntry := ChaserEntry_.
Let DisEntry := DisEntry_.
Let CrushEntry := CrushEntry_.

Definition level_1 : Blueprint := {|
  id := 1; name := "Level 1: The Descent";
  spawn := (TILE * 2, GROUND_Y - TILE * 2);
  goal := R 75 2 2 3;
  platforms := [R 0 1 10 1; R 12 3 3 1; R 18 5 3 1; R 24 7 5 1; R 35 4 5 1;
    R 45 2 10 1; R 60 1 15 1];
  static_traps := [R 10 1 2 1; R 30 1 5 1; R 55 1 5 1];
  oscillators := [OscEntry (R 40 6 2 1) (Some "y"%string) (Some 100) (Some 3.0%float);
    OscEntry (R 15 5 2 1) (Some "x"%string) (Some 60) (Some 2.5%float)];
  triggers := [TrigEntry (R 24 8 2 2) (R 26 7 1 1);
    TrigEntry (R 68 2 2 2) (R 70 1 1 1)];
  axes := [AxeEntry (slice02 (R 30 10 1 1)) (Some 120) (Some 60) (Some 1.5%float);
    AxeEntry (slice02 (R 50 8 1 1)) (Some 100) (Some 45) (Some 2.0%float)];
  chasers := [ChaserEntry (slice02 (R 45 8 1 1)) (Some 100.0%float) (Some 3.0%float);
    ChaserEntry (slice02 (R 65 5 1 1)) (Some 120.0%float) (Some 4.0%float)];
  disappear := [DisEntry (R 35 5 2 2) (R 35 4 5 1)];
  crushers := [CrushEntry (R 50 12 2 2) (Some 380);
    CrushEntry (R 10 10 2 2) (Some 300)]
|}.

Definition level_2 : Blueprint := {|
  id := 2; name := "Level 2: The Grinder";
  spawn := (TILE * 2, GROUND_Y - TILE * 2);
  goal := R 85 8 2 3;
  platforms := [R 0 1 10 1; R 15 3 5 1; R 25 5 4 1; R 35 7 4 1; R 45 1 15 1;
    R 65 4 5 1; R 75 6 12 1];
  static_traps := [R 10 1 35 1; R 60 1 15 1];
  oscillators := [OscEntry (R 20 4 2 1) (Some "y"%string) (Some 80) (Some 4.0%float);
    OscEntry (R 40 6 2 1) (Some "x"%string) (Some 120) (Some 2.5%float)];
  triggers := [TrigEntry (R 45 2 5 2) (R 47 2 1 1);
    TrigEntry (R 75 7 3 2) (R 78 6 1 1)];
  axes := [AxeEntry (slice02 (R 55 10 1 1)) (Some 150) (Some 90) (Some 2.0%float);
    AxeEntry (slice02 (R 35 12 1 1)) (Some 120) (Some 60) (Some 2.5%float)];
  chasers := [ChaserEntry (slice02 (R 70 7 1 1)) (Some 180.0%float) (Some 3.0%float);
    ChaserEntry (slice02 (R 10 6 1 1)) (Some 150.0%float) (Some 5.0%float)];
  disappear := [DisEntry (R 25 6 2 2) (R 25 5 4 1)];
  crushers := [CrushEntry (R 30 12 3 2) (Some 380);
    CrushEntry (R 50 12 2 2) (Some 400);
    CrushEntry (R 80 10 2 2) (Some 200)]
|}.

Definition level_3 : Blueprint := {|
  id := 3; name := "Level 3: Trust Issues";
  spawn := (TILE * 2, GROUND_Y - TILE * 2);
  goal := R 100 1 3 3;
  platforms := [R 0 1 15 1; R 20 3 10 1; R 40 5 10 1; R 60 3 10 1; R 80 1 20 1];
  static_traps := [R 15 1 5 1; R 30 1 10 1; R 50 1 10 1; R 70 1 10 1];
  oscillators := [OscEntry (R 25 6 2 1) (Some "y"%string) (Some 120) (Some 3.5%float);
    OscEntry (R 55 4 2 1) (Some "x"%string) (Some 80) (Some 2.2%float)];
  triggers := [TrigEntry (R 40 6 3 2) (R 43 5 1 1);
    TrigEntry (R 85 2 3 2) (R 88 1 1 1);
    TrigEntry (R 10 3 2 2) (R 12 1 1 1)];
  axes := [AxeEntry (slice02 (R 50 10 1 1)) (Some 140) (Some 80) (Some 2.0%float);
    AxeEntry (slice02 (R 75 12 1 1)) (Some 120) (Some 60) (Some 2.5%float)];
  chasers := [ChaserEntry (slice02 (R 20 10 1 1)) (Some 120.0%float) (Some 3.0%float);
    ChaserEntry (slice02 (R 90 5 1 1)) (Some 150.0%float) (Some 4.0%float)];
  disappear := [DisEntry (R 40 0 10 10) (R 40 5 10 1);
    DisEntry (R 60 0 10 10) (R 60 3 10 1)];
  crushers := [CrushEntry (R 10 12 2 2) (Some 400)]
|}.

Definition level_4 : Blueprint := {|
  id := 4; name := "Level 4: The Gauntlet";
  spawn := (TILE * 2, GROUND_Y - TILE * 2);
  goal := R 130 2 2 3;
  platforms := [R 0 1 10 1; R 25 7 6 1; R 50 6 35 1; R 95 3 12 1; R 115 1 20 1];
  static_traps := [R 10 1 5 1; R 41 1 9 1; R 85 6 10 1; R 107 3 8 1];
  oscillators := [OscEntry (R 20 8 2 1) (Some "y"%string) (Some 60) (Some 5.0%float);
    OscEntry (R 70 10 2 1) (Some "y"%string) (Some 80) (Some 4.0%float);
    OscEntry (R 105 5 2 1) (Some "x"%string) (Some 100) (Some 3.0%float)];
  triggers := [TrigEntry (R 50 7 2 2) (R 52 6 1 1);
    TrigEntry (R 65 7 2 2) (R 67 6 1 1);
    TrigEntry (R 80 7 2 2) (R 82 6 1 1);
    TrigEntry (R 110 2 2 2) (R 112 1 1 1)];
  axes := [AxeEntry (slice02 (R 45 13 1 1)) (Some 160) (Some 80) (Some 2.5%float);
    AxeEntry (slice02 (R 90 11 1 1)) (Some 140) (Some 60) (Some 3.0%float);
    AxeEntry (slice02 (R 120 10 1 1)) (Some 120) (Some 90) (Some 3.5%float)];
  chasers := [ChaserEntry (slice02 (R 55 12 1 1)) (Some 220.0%float) (Some 4.0%float);
    ChaserEntry (slice02 (R 100 6 1 1)) (Some 240.0%float) (Some 3.0%float);
    ChaserEntry (slice02 (R 20 5 1 1)) (Some 200.0%float) (Some 4.0%float);
    ChaserEntry (slice02 (R 125 8 1 1)) (Some 260.0%float) (Some 5.0%float)];
  disappear := [DisEntry (R 12 4 3 2) (R 15 4 6 1);
    DisEntry (R 32 9 3 2) (R 35 9 6 1)];
  crushers := [CrushEntry (R 60 16 2 2) (Some 550);
    CrushEntry (R 75 16 2 2) (Some 550);
    CrushEntry (R 95 14 2 2) (Some 400)]
|}.

Definition level_5 : Blueprint := {|
  id := 5; name := "Level 5: Crushing Depths";
  spawn := (TILE * 2, GROUND_Y - TILE * 2);
  goal := R 110 1 3 5;
  platforms := [R 0 1 10 1; R 15 3 8 1; R 28 6 8 1; R 42 9 8 1; R 55 6 8 1;
    R 70 3 8 1; R 85 1 30 1];
  static_traps := [R 10 1 5 1; R 23 1 5 1; R 36 1 6 1; R 50 1 5 1; R 63 1 7 1; R 78 1 7 1];
  oscillators := [OscEntry (R 28 8 2 1) (Some "y"%string) (Some 80) (Some 4.0%float);
    OscEntry (R 65 10 3 1) (Some "x"%string) (Some 120) (Some 3.0%float);
    OscEntry (R 42 11 2 1) (Some "y"%string) (Some 60) (Some 4.5%float)];
  triggers := [TrigEntry (R 35 7 2 2) (R 37 6 1 1);
    TrigEntry (R 70 4 2 2) (R 72 3 1 1);
    TrigEntry (R 90 2 3 2) (R 93 1 1 1)];
  axes := [AxeEntry (slice02 (R 50 14 1 1)) (Some 180) (Some 90) (Some 2.5%float);
    AxeEntry (slice02 (R 90 12 1 1)) (Some 140) (Some 100) (Some 3.0%float);
    AxeEntry (slice02 (R 20 10 1 1)) (Some 100) (Some 60) (Some 4.0%float)];
  chasers := [ChaserEntry (slice02 (R 105 10 1 1)) (Some 240.0%float) (Some 4.0%float);
    ChaserEntry (slice02 (R 5 5 1 1)) (Some 180.0%float) (Some 5.0%float);
    ChaserEntry (slice02 (R 60 8 1 1)) (Some 210.0%float) (Some 3.0%float)];
  disappear := [DisEntry (R 50 8 2 2) (R 55 6 8 1);
    DisEntry (R 15 4 2 2) (R 15 3 8 1)];
  crushers := [CrushEntry (R 45 14 2 2) (Some 450);
    CrushEntry (R 100 14 2 2) (Some 500);
    CrushEntry (R 115 12 2 2) (Some 300)]
|}.

Definition level_6 : Blueprint := {|
  id := 6; name := "Level 6: The Climb";
  spawn := (TILE * 2, GROUND_Y - TILE * 2);
  goal := R 65 14 2 4;
  platforms := [R 0 1 10 1; R 12 3 3 1; R 18 6 3 1; R 24 9 3 1; R 32 12 3 1;
    R 45 10 4 1; R 55 14 15 1];
  static_traps := [R 10 1 55 1];
  oscillators := [OscEntry (R 16 8 1 1) (Some "y"%string) (Some 120) (Some 4.5%float);
    OscEntry (R 30 10 1 1) (Some "x"%string) (Some 140) (Some 3.0%float);
    OscEntry (R 40 12 1 2) (Some "y"%string) (Some 150) (Some 5.0%float)];
  triggers := [TrigEntry (R 32 13 2 2) (R 34 12 1 1);
    TrigEntry (R 55 15 3 2) (R 58 14 1 1);
    TrigEntry (R 5 2 5 2) (R 8 1 1 1)];
  axes := [AxeEntry (slice02 (R 42 16 1 1)) (Some 180) (Some 120) (Some 2.2%float);
    AxeEntry (slice02 (R 20 18 1 1)) (Some 150) (Some 90) (Some 3.0%float);
    AxeEntry (slice02 (R 58 18 1 1)) (Some 130) (Some 45) (Some 4.0%float)];
  chasers := [ChaserEntry (slice02 (R 60 10 1 1)) (Some 250.0%float) (Some 4.0%float);
    ChaserEntry (slice02 (R 15 12 1 1)) (Some 200.0%float) (Some 6.0%float)];
  disappear := [DisEntry (R 18 7 2 2) (R 18 6 3 1);
    DisEntry (R 32 14 2 2) (R 32 12 3 1)];
  crushers := [CrushEntry (R 35 18 2 2) (Some 500);
    CrushEntry (R 55 18 2 2) (Some 400)]
|}.

Definition level_7 : Blueprint := {|
  id := 7; name := "Level 7: Panic";
  spawn := (TILE * 2, GROUND_Y - TILE * 2);
  goal := R 130 4 2 4;
  platforms := [R 0 1 10 1; R 15 3 4 1; R 25 5 4 1; R 35 7 4 1; R 45 5 4 1;
    R 55 3 4 1; R 65 1 70 1];
  static_traps := [R 10 1 120 1];
  oscillators := [OscEntry (R 12 5 1 2) (Some "x"%string) (Some 120) (Some 5.0%float);
    OscEntry (R 42 8 1 2) (Some "x"%string) (Some 150) (Some 4.5%float);
    OscEntry (R 72 3 1 2) (Some "x"%string) (Some 180) (Some 5.5%float);
    OscEntry (R 100 5 2 1) (Some "y"%string) (Some 100) (Some 4.0%float)];
  triggers := [TrigEntry (R 65 2 5 2) (R 68 1 1 1);
    TrigEntry (R 85 2 5 2) (R 88 1 1 1);
    TrigEntry (R 105 2 5 2) (R 108 1 1 1)];
  axes := [AxeEntry (slice02 (R 80 12 1 1)) (Some 160) (Some 90) (Some 2.5%float)];
  chasers := [ChaserEntry (slice02 (R 90 7 1 1)) (Some 260.0%float) (Some 4.5%float);
    ChaserEntry (slice02 (R 110 7 1 1)) (Some 280.0%float) (Some 4.0%float);
    ChaserEntry (slice02 (R 40 10 1 1)) (Some 200.0%float) (Some 5.0%float)];
  disappear := [DisEntry (R 25 6 2 2) (R 25 5 4 1);
    DisEntry (R 45 6 2 2) (R 45 5 4 1);
    DisEntry (R 80 2 2 2) (R 65 1 10 1)];
  crushers := [CrushEntry (R 50 14 2 2) (Some 450);
    CrushEntry (R 100 14 2 2) (Some 500)]
|}.

Definition level_8 : Blueprint := {|
  id := 8; name := "Level 8: Precision";
  spawn := (TILE * 2, GROUND_Y - TILE * 2);
  goal := R 85 6 2 4;
  platforms := [R 0 1 5 1; R 12 3 2 1; R 22 6 2 1; R 32 9 2 1; R 42 6 2 1;
    R 52 3 2 1; R 65 5 25 1];
  static_traps := [R 5 1 80 1];
  oscillators := [OscEntry (R 15 8 1 1) (Some "y"%string) (Some 100) (Some 4.0%float);
    OscEntry (R 35 12 1 1) (Some "y"%string) (Some 120) (Some 4.5%float);
    OscEntry (R 22 10 1 1) (Some "x"%string) (Some 80) (Some 3.0%float)];
  triggers := [TrigEntry (R 65 6 3 2) (R 67 5 1 1);
    TrigEntry (R 75 6 3 2) (R 77 5 1 1);
    TrigEntry (R 40 1 5 1) (R 42 1 1 1)];
  axes := [AxeEntry (slice02 (R 28 14 1 1)) (Some 180) (Some 60) (Some 3.0%float);
    AxeEntry (slice02 (R 48 14 1 1)) (Some 180) (Some 60) (Some 3.0%float);
    AxeEntry (slice02 (R 65 12 1 1)) (Some 140) (Some 100) (Some 2.5%float)];
  chasers := [ChaserEntry (slice02 (R 80 10 1 1)) (Some 220.0%float) (Some 4.0%float);
    ChaserEntry (slice02 (R 20 12 1 1)) (Some 180.0%float) (Some 8.0%float)];
  disappear := [DisEntry (R 32 10 2 2) (R 32 9 2 1);
    DisEntry (R 12 5 2 2) (R 12 3 2 1)];
  crushers := [CrushEntry (R 28 14 2 2) (Some 400);
    CrushEntry (R 52 14 2 2) (Some 400)]
|}.

Definition level_9 : Blueprint := {|
  id := 9; name := "Level 9: The Gauntlet";
  spawn := (TILE * 2, GROUND_Y - TILE * 2);
  goal := R 125 4 3 5;
  platforms := [R 0 1 10 1; R 15 3 8 1; R 30 6 8 1; R 45 9 8 1; R 60 6 8 1;
    R 75 3 8 1; R 90 1 40 1];
  static_traps := [R 10 1 10 1; R 23 1 15 1; R 38 1 15 1; R 53 1 15 1; R 68 1 15 1;
    R 83 1 15 1];
  oscillators := [OscEntry (R 45 12 2 1) (Some "y"%string) (Some 100) (Some 4.0%float);
    OscEntry (R 85 12 2 1) (Some "y"%string) (Some 120) (Some 3.5%float);
    OscEntry (R 60 15 2 1) (Some "x"%string) (Some 100) (Some 2.5%float)];
  triggers := [TrigEntry (R 30 7 3 2) (R 33 6 1 1);
    TrigEntry (R 100 2 5 2) (R 105 1 1 1)];
  axes := [AxeEntry (slice02 (R 25 15 1 1)) (Some 180) (Some 90) (Some 2.5%float);
    AxeEntry (slice02 (R 65 15 1 1)) (Some 180) (Some 120) (Some 2.0%float);
    AxeEntry (slice02 (R 105 15 1 1)) (Some 180) (Some 180) (Some 2.8%float)];
  chasers := [ChaserEntry (slice02 (R 110 14 1 1)) (Some 260.0%float) (Some 4.5%float);
    ChaserEntry (slice02 (R 20 10 1 1)) (Some 200.0%float) (Some 6.0%float);
    ChaserEntry (slice02 (R 70 12 1 1)) (Some 240.0%float) (Some 4.0%float)];
  disappear := [DisEntry (R 45 10 2 2) (R 45 9 8 1);
    DisEntry (R 75 4 2 2) (R 75 3 8 1)];
  crushers := [CrushEntry (R 50 16 2 2) (Some 550);
    CrushEntry (R 80 16 2 2) (Some 500);
    CrushEntry (R 110 16 2 2) (Some 600)]
|}.

Definition level_10 : Blueprint := {|
  id := 10; name := "Level 10: Betrayal";
  spawn := (TILE * 2, GROUND_Y - TILE * 2);
  goal := R 140 8 2 4;
  platforms := [R 0 1 12 1; R 18 3 4 1; R 28 5 4 1; R 38 7 4 1; R 50 4 10 1;
    R 70 6 10 1; R 90 8 10 1; R 110 3 10 1; R 130 8 20 1];
  static_traps := [R 12 1 128 1];
  oscillators := [OscEntry (R 15 6 1 1) (Some "y"%string) (Some 80) (Some 4.0%float);
    OscEntry (R 45 9 1 1) (Some "x"%string) (Some 100) (Some 3.0%float);
    OscEntry (R 110 12 2 1) (Some "y"%string) (Some 150) (Some 5.0%float)];
  triggers := [TrigEntry (R 50 5 3 2) (R 52 4 1 1);
    TrigEntry (R 90 9 3 2) (R 92 8 1 1);
    TrigEntry (R 130 9 3 2) (R 135 8 1 1)];
  axes := [AxeEntry (slice02 (R 60 15 1 1)) (Some 140) (Some 180) (Some 1.8%float);
    AxeEntry (slice02 (R 100 15 1 1)) (Some 140) (Some 180) (Some 2.2%float);
    AxeEntry (slice02 (R 30 12 1 1)) (Some 120) (Some 90) (Some 3.0%float)];
  chasers := [ChaserEntry (slice02 (R 120 10 1 1)) (Some 280.0%float) (Some 3.0%float);
    ChaserEntry (slice02 (R 10 5 1 1)) (Some 220.0%float) (Some 5.0%float)];
  disappear := [DisEntry (R 38 8 2 2) (R 38 7 4 1);
    DisEntry (R 70 7 2 2) (R 70 6 10 1);
    DisEntry (R 110 4 2 2) (R 110 3 10 1)];
  crushers := [CrushEntry (R 50 16 2 2) (Some 550);
    CrushEntry (R 90 16 2 2) (Some 500)]
|}.

Definition level_11 : Blueprint := {|
  id := 11; name := "Level 11: Chaos";
  spawn := (TILE * 2, GROUND_Y - TILE * 2);
  goal := R 160 10 2 5;
  platforms := [R 0 1 12 1; R 15 4 10 1; R 35 7 10 1; R 55 10 10 1; R 75 13 10 1;
    R 95 10 10 1; R 115 7 10 1; R 135 4 10 1; R 155 10 20 1];
  static_traps := [R 10 1 150 1];
  oscillators := [OscEntry (R 20 12 2 1) (Some "y"%string) (Some 120) (Some 5.0%float);
    OscEntry (R 60 15 2 1) (Some "x"%string) (Some 150) (Some 4.0%float);
    OscEntry (R 100 12 2 1) (Some "y"%string) (Some 120) (Some 5.0%float);
    OscEntry (R 140 15 2 1) (Some "x"%string) (Some 120) (Some 4.5%float)];
  triggers := [TrigEntry (R 35 8 3 2) (R 37 7 1 1);
    TrigEntry (R 135 5 3 2) (R 137 4 1 1);
    TrigEntry (R 75 14 3 2) (R 78 13 1 1);
    TrigEntry (R 95 11 3 2) (R 98 10 1 1)];
  axes := [AxeEntry (slice02 (R 45 16 1 1)) (Some 180) (Some 180) (Some 2.0%float);
    AxeEntry (slice02 (R 85 18 1 1)) (Some 200) (Some 360) (Some 3.0%float);
    AxeEntry (slice02 (R 125 16 1 1)) (Some 180) (Some 180) (Some 2.0%float);
    AxeEntry (slice02 (R 160 15 1 1)) (Some 150) (Some 90) (Some 4.0%float)];
  chasers := [ChaserEntry (slice02 (R 50 15 1 1)) (Some 280.0%float) (Some 4.0%float);
    ChaserEntry (slice02 (R 140 15 1 1)) (Some 300.0%float) (Some 3.5%float);
    ChaserEntry (slice02 (R 5 10 1 1)) (Some 250.0%float) (Some 6.0%float)];
  disappear := [DisEntry (R 75 14 2 2) (R 75 13 10 1);
    DisEntry (R 55 11 2 2) (R 55 10 10 1)];
  crushers := [CrushEntry (R 35 18 2 2) (Some 500);
    CrushEntry (R 115 18 2 2) (Some 500)]
|}.

Definition level_12 : Blueprint := {|
  id := 12; name := "Level 12: The Gatekeeper";
  spawn := (TILE * 2, GROUND_Y - TILE * 2);
  goal := R 180 8 3 5;
  platforms := [R 0 1 10 1; R 15 5 2 1; R 25 8 2 1; R 35 11 2 1; R 45 14 2 1;
    R 55 17 2 1; R 80 15 3 1; R 105 12 3 1; R 130 9 3 1; R 155 6 3 1;
    R 175 8 30 1];
  static_traps := [R 10 1 170 1];
  oscillators := [OscEntry (R 17 10 2 4) (Some "y"%string) (Some 150) (Some 4.0%float);
    OscEntry (R 47 16 2 4) (Some "y"%string) (Some 150) (Some 4.5%float);
    OscEntry (R 90 18 5 1) (Some "x"%string) (Some 250) (Some 3.0%float);
    OscEntry (R 110 20 2 1) (Some "y"%string) (Some 200) (Some 3.5%float)];
  triggers := [TrigEntry (R 175 9 5 2) (R 180 8 1 1);
    TrigEntry (R 80 16 3 2) (R 83 15 1 1)];
  axes := [AxeEntry (slice02 (R 140 18 1 1)) (Some 250) (Some 360) (Some 5.0%float);
    AxeEntry (slice02 (R 160 15 1 1)) (Some 200) (Some 360) (Some 4.0%float);
    AxeEntry (slice02 (R 60 20 1 1)) (Some 180) (Some 360) (Some 3.0%float)];
  chasers := [ChaserEntry (slice02 (R 5 6 1 1)) (Some 350.0%float) (Some 4.0%float);
    ChaserEntry (slice02 (R 85 15 1 1)) (Some 380.0%float) (Some 3.5%float);
    ChaserEntry (slice02 (R 150 10 1 1)) (Some 300.0%float) (Some 4.0%float)];
  disappear := [DisEntry (R 35 12 2 2) (R 35 11 2 1);
    DisEntry (R 130 10 2 2) (R 130 9 3 1);
    DisEntry (R 15 6 2 2) (R 15 5 2 1)];
  crushers := [CrushEntry (R 70 20 2 2) (Some 650);
    CrushEntry (R 150 18 2 2) (Some 600);
    CrushEntry (R 100 18 2 2) (Some 550)]
|}.

Definition level_13 : Blueprint := {|
  id := 13; name := "BOSS: The Devil's Throne";
  spawn := (TILE * 2, GROUND_Y - TILE * 2);
  goal := R 200 5 4 8;
  platforms := [R 0 1 15 1; R 20 4 6 1; R 35 8 6 1; R 50 12 6 1; R 70 15 20 1;
    R 100 12 10 1; R 125 8 10 1; R 150 4 10 1; R 175 1 40 1];
  static_traps := [R 15 1 185 1];
  oscillators := [OscEntry (R 30 13 2 3) (Some "y"%string) (Some 200) (Some 5.0%float);
    OscEntry (R 110 16 4 1) (Some "x"%string) (Some 300) (Some 4.0%float);
    OscEntry (R 160 5 2 1) (Some "y"%string) (Some 150) (Some 6.0%float);
    OscEntry (R 10 6 2 1) (Some "y"%string) (Some 40) (Some 3.0%float)];
  triggers := [TrigEntry (R 75 16 5 2) (R 78 15 1 1);
    TrigEntry (R 185 2 5 2) (R 190 1 1 1);
    TrigEntry (R 50 13 3 2) (R 53 12 1 1);
    TrigEntry (R 120 10 3 2) (R 125 8 1 1)];
  axes := [AxeEntry (slice02 (R 120 20 1 1)) (Some 250) (Some 360) (Some 2.5%float);
    AxeEntry (slice02 (R 150 18 1 1)) (Some 220) (Some 360) (Some 3.0%float);
    AxeEntry (slice02 (R 40 20 1 1)) (Some 180) (Some 180) (Some 2.0%float);
    AxeEntry (slice02 (R 180 15 1 1)) (Some 140) (Some 90) (Some 5.0%float)];
  chasers := [ChaserEntry (slice02 (R 60 20 1 1)) (Some 320.0%float) (Some 6.0%float);
    ChaserEntry (slice02 (R 180 5 1 1)) (Some 400.0%float) (Some 4.0%float);
    ChaserEntry (slice02 (R 10 10 1 1)) (Some 350.0%float) (Some 8.0%float);
    ChaserEntry (slice02 (R 120 15 1 1)) (Some 380.0%float) (Some 5.0%float)];
  disappear := [DisEntry (R 50 13 2 2) (R 50 12 6 1);
    DisEntry (R 125 9 2 2) (R 125 8 10 1);
    DisEntry (R 175 2 2 2) (R 175 1 10 1);
    DisEntry (R 35 10 2 2) (R 35 8 6 1)];
  crushers := [CrushEntry (R 40 22 2 2) (Some 700);
    CrushEntry (R 90 22 2 2) (Some 750);
    CrushEntry (R 160 22 2 2) (Some 700);
    CrushEntry (R 190 20 2 2) (Some 600);
    CrushEntry (R 20 22 2 2) (Some 500)]
|}.

Definition LEVEL_BLUEPRINTS : list Blueprint :=
  [level_1; level_2; level_3; level_4; level_5; level_6; level_7;
   level_8; level_9; level_10; level_11; level_12; level_13].
End Blueprints.

(** [xs[i]]: a negative index counts from the end; [IndexError] outside. *)
Definition getitem {A : Type} (xs : list A) (i : Z) : option A :=
  let n := Z.of_nat (List.length xs) in
  if (0 <=? i) && (i <? n) then nth_error xs (Z.to_nat i)
  else if (- n <=? i) && (i <? 0) then nth_error xs (Z.to_nat (n + i))
  else None.

(** *** class LevelManager

    The [decorations] list, filled with random cosmetic sprites, is read by
    the renderer only and is left out. *)

Module LevelManager.
Import hazards.

Record t : Type := mk {
  current_level_index : Z;
  level_id : Z;
  platforms : list Rect;
  static_traps : list Rect;
  goal_rect : option Rect;
  spawn_point : Vector2;
  current_attempts : Z;
  level_length : Z;
  oscillators : list OscillatingHazard.t;
  trigger_spikes : list TriggerSpike.t;
  swing_axes : list SwingingAxe.t;
  chasers : list ChasingHazard.t;
  disappearing_platforms : list DisappearingPlatform.t;
  crushing_hazards : list CrushingHazard.t
}.

Definition len_blueprints : Z := Z.of_nat (List.length LEVEL_BLUEPRINTS).

Definition __init__ (level_id : Z) : option t :=
  let current_level_index := (Z.max 0 (level_id - 1)) mod len_blueprints in
  bp <- getitem LEVEL_BLUEPRINTS current_level_index ;;
  Some (mk current_level_index (Blueprint.id bp) [] [] None
           (mkVector2 0%float 0%float) 0 LEVEL_LENGTH [] [] [] [] [] []).

(** The loop over [blueprint.get("disappear", [])]: one
    [DisappearingPlatform] per entry, whose target rectangle joins the
    platforms unless an equal rectangle is already there. *)
Definition add_disappearing
    (acc : list DisappearingPlatform.t * list Rect) (entry : DisEntry)
    : list DisappearingPlatform.t * list Rect :=
  let '(dps, plats) := acc in
  let target_rect := Rect_ (d_platform entry) in
  let dps' := dps ++ [DisappearingPlatform.__init__ (d_trigger entry) target_rect] in
  if negb (Py.contains Rect_eqb target_rect plats)
  then (dps', plats ++ [target_rect])
  else (dps', plats).

(** The body of [load_level] once the blueprint is selected. *)
Definition load_blueprint (self : t) (current_level_index : Z) (blueprint : Blueprint.t) : t :=
  let platforms0 := map Rect_ (Blueprint.platforms blueprint) in
  let static_traps := map Rect_ (Blueprint.static_traps blueprint) in
  let goal_rect := Rect_ (Blueprint.goal blueprint) in
  let level_length := Z.max (right goal_rect + TILE) LEVEL_LENGTH in
  let '(disappearing_platforms, platforms) :=
    fold_left add_disappearing (Blueprint.disappear blueprint) ([], platforms0) in
  let oscillators :=
    map (fun entry =>
           OscillatingHazard.__init__ (o_rect entry) (Py.get (o_axis entry) "y"%string)
             (Py.get (o_amplitude entry) 40) (Py.get (o_speed entry) 2.0%float))
        (Blueprint.oscillators blueprint) in
  let trigger_spikes :=
    map (fun entry =>
           TriggerSpike.__init__ (t_trigger entry) (t_spike entry)
             TriggerSpike.default_rise_pixels TriggerSpike.default_rise_speed)
        (Blueprint.triggers blueprint) in
  let swing_axes :=
    map (fun entry =>
           SwingingAxe.__init__ (a_pivot entry) (Py.get (a_length entry) 130)
             SwingingAxe.default_blade_size (Py.get (a_swing_degrees entry) 45)
             (Py.get (a_speed entry) 1.8%float))
        (Blueprint.axes blueprint) in
  let chasers :=
    map (fun entry =>
           ChasingHazard.__init__ (c_spawn entry) (Py.get (c_speed entry) 120.0%float)
             (Py.get (c_max_time entry) 3.0%float))
        (Blueprint.chasers blueprint) in
  let crushing_hazards :=
    map (fun entry =>
           CrushingHazard.__init__ (k_rect entry) (Py.get (k_slam_height entry) 400)
             CrushingHazard.default_speed CrushingHazard.default_return_speed)
        (Blueprint.crushers blueprint) in
  mk current_level_index (Blueprint.id blueprint) platforms static_traps
     (Some goal_rect) (Vector2_ (Blueprint.spawn blueprint))
     (current_attempts self) level_length
     oscillators trigger_spikes swing_axes chasers disappearing_platforms
     crushing_hazards.

(** [load_level] reads the module-level list [LEVEL_BLUEPRINTS]; the list
    is made an argument here so that the method can be studied on any
    blueprint data. *)
Definition load_level_in (blueprints : list Blueprint.t) (index : option Z) (self : t)
    : option t :=
  current_level_index <-
    match index with
    | Some i => Py.mod_ i (Z.of_nat (List.length blueprints))
    | None => Some (current_level_index self)
    end ;;
  blueprint <- getitem blueprints current_level_index ;;
  Some (load_blueprint self current_level_index blueprint).

Definition load_level (index : option Z) (self : t) : option t :=
  load_level_in LEVEL_BLUEPRINTS index self.

Section GameLoopHelpers.
Context {libm : math.Libm}.

(** The second loop of [update_hazards]: each disappearing platform is
    updated and, when it is marked removed, the first platform equal to
    its target is taken out of the platforms list. *)
Definition update_disappearing (dt : float) (player_rect : Rect)
    (acc : list DisappearingPlatform.t * list Rect) (dp : DisappearingPlatform.t)
    : list DisappearingPlatform.t * list Rect :=
  let '(dps, plats) := acc in
  let dp' := DisappearingPlatform.update dp dt (Some player_rect) in
  if DisappearingPlatform.is_removed dp' then
    if Py.contains Rect_eqb (DisappearingPlatform.target_platform_rect dp') plats
    then (dps ++ [dp'],
          Py.remove Rect_eqb (DisappearingPlatform.target_platform_rect dp') plats)
    else (dps ++ [dp'], plats)
  else (dps ++ [dp'], plats).

Definition update_hazards (dt : float) (player_rect : Rect) (self : t) : option t :=
  oscillators' <-
    Py.mapM (fun osc => OscillatingHazard.update osc dt (Some player_rect))
            (oscillators self) ;;
  trigger_spikes' <-
    Py.mapM (fun trig => TriggerSpike.update trig dt (Some player_rect))
            (trigger_spikes self) ;;
  swing_axes' <-
    Py.mapM (fun axe => SwingingAxe.update axe dt (Some player_rect))
            (swing_axes self) ;;
  chasers' <-
    Py.mapM (fun chaser => ChasingHazard.update chaser dt (Some player_rect))
            (chasers self) ;;
  crushing_hazards' <-
    Py.mapM (fun crush => CrushingHazard.update crush dt (Some player_rect))
            (crushing_hazards self) ;;
  let '(disappearing_platforms', platforms') :=
    fold_left (update_disappearing dt player_rect)
              (disappearing_platforms self) ([], platforms self) in
  Some (mk (current_level_index self) (level_id self) platforms'
           (static_traps self) (goal_rect self) (spawn_point self)
           (current_attempts self) (level_length self)
           oscillators' trigger_spikes' swing_axes' chasers'
           disappearing_platforms' crushing_hazards').

Definition check_hazard_collision (self : t) (rect : Rect) : bool :=
  existsb (fun trap => colliderect trap rect) (static_traps self)
  || existsb (fun osc => OscillatingHazard.collides osc rect) (oscillators self)
  || existsb (fun trig => TriggerSpike.collides trig rect) (trigger_spikes self)
  || existsb (fun axe => SwingingAxe.collides axe rect) (swing_axes self)
  || existsb (fun chaser => ChasingHazard.collides chaser rect) (chasers self)
  || existsb (fun crush => CrushingHazard.collides crush rect) (crushing_hazards self).

(** Successive calls of [update_hazards], one per frame. *)
Fixpoint run_hazards (calls : list (float * Rect)) (self : t) : option t :=
  match calls with
  | [] => Some self
  | (dt, player_rect) :: rest =>
      match update_hazards dt player_rect self with
      | None => None
      | Some self' => run_hazards rest self'
      end
  end.

End GameLoopHelpers.

Definition with_attempts (self : t) (n : Z) : t :=
  mk (current_level_index self) (level_id self) (platforms self)
     (static_traps self) (goal_rect self) (spawn_point self) n
     (level_length self) (oscillators self) (trigger_spikes self)
     (swing_axes self) (chasers self) (disappearing_platforms self)
     (crushing_hazards self).

Definition reset_attempts (self : t) : t := with_attempts self 0.

Definition increment_attempts (self : t) : t * Z :=
  (with_attempts self (current_attempts self + 1), current_attempts self + 1).

Definition calculate_star_rating (self : t) : Z :=
  if current_attempts self <=? 3 then 3
  else if current_attempts self <=? 5 then 2
  else 1.

Definition advance_level (self : t) : option t :=
  let idx := (current_level_index self + 1) mod len_blueprints in
  load_level None
    (mk idx (level_id self) (platforms self) (static_traps self) (goal_rect self)
        (spawn_point self) (current_attempts self) (level_length self)
        (oscillators self) (trigger_spikes self) (swing_axes self) (chasers self)
        (disappearing_platforms self) (crushing_hazards self)).

Definition level_number (self : t) : Z := current_level_index self + 1.

Definition level_name (self : t) : option string :=
  bp <- getitem LEVEL_BLUEPRINTS (current_level_index self) ;;
  Some (Blueprint.name bp).

Definition total_levels (self : t) : Z := len_blueprints.

End LevelManager.

End level_manager.

(** ** dialogue_manager.py

    A Python [str] is the sequence of its code points, here a list of
    integers.  The phrases of [TOXIC_TIERS] are left out: the phrase that
    [random.choice] picks is an argument of [trigger], and the clock read
    by [pygame.time.get_ticks()] is an argument too. *)

Module dialogue_manager.

Module DialogueManager.

Definition str : Type := list Z.

(** The code points of an ASCII literal. *)
Definition str_ (s : string) : str :=
  map (fun c => Z.of_nat (Ascii.nat_of_ascii c)) (list_ascii_of_string s).

(** [TOXIC_TIERS]: each tier with the bounds of its [range]. *)
Definition TOXIC_TIERS : list (Z * (Z * Z)) :=
  [(1, (1, 4)); (2, (4, 7)); (3, (7, 11)); (4, (11, 10000))].

(** [n in range(lo, hi)]. *)
Definition in_range (n : Z) (r : Z * Z) : bool :=
  (fst r <=? n) && (n <? snd r).

Definition _determine_tier (attempts : Z) : Z :=
  match find (fun entry => in_range attempts (snd entry)) TOXIC_TIERS with
  | Some (tier, _) => tier
  | None => config.MAX_TOXICITY_TIER
  end.

Record t : Type := mk {
  active : bool;
  locked : bool;
  end_time : Z;
  current_phrase : str;
  current_tier : Z;
  has_sound : bool;
  displayed_text : str;
  displayed_hint : str;
  text_timer : float;
  char_index : Z;
  hint_index : Z;
  typing_speed : float;
  hint_text : str
}.

Definition __init__ (has_sound : bool) : t :=
  mk false false 0 [] 1 has_sound [] [] 0.0%float 0 0 0.04%float
     (str_ "Press Any Key to Retry (If you dare)").

(** [trigger]: [phrase] is what [random.choice] returns, [now] the tick
    count.  The second component tells whether the blip was played. *)
Definition trigger (self : t) (attempts : Z) (phrase : str) (now : Z) : t * bool :=
  (mk true true (now + config.DIALOGUE_DISPLAY_MS) phrase (_determine_tier attempts)
      (has_sound self) [] [] (Py.float 0) 0 0 (typing_speed self) (hint_text self),
   has_sound self).

(** [s[i]] on a string, as on any sequence. *)
Definition char_at (s : str) (i : Z) : option Z :=
  let n := Z.of_nat (List.length s) in
  if (0 <=? i) && (i <? n) then nth_error s (Z.to_nat i)
  else if (- n <=? i) && (i <? 0) then nth_error s (Z.to_nat (n + i))
  else None.

Definition update (self : t) (dt : float) (now : Z) : option (t * bool) :=
  let locked' :=
    if locked self && (end_time self <=? now) then false else locked self in
  if active self then
    let timer := (text_timer self + dt)%float in
    if (char_index self <? Z.of_nat (List.length (current_phrase self)))
       && (typing_speed self <=? timer)%float then
      char <- char_at (current_phrase self) (char_index self) ;;
      Some (mk (active self) locked' (end_time self) (current_phrase self)
               (current_tier self) (has_sound self)
               (displayed_text self ++ [char]) (displayed_hint self)
               (Py.float 0) (char_index self + 1) (hint_index self)
               (typing_speed self) (hint_text self),
            negb (char =? 32) && has_sound self)
    else if negb locked'
            && (hint_index self <? Z.of_nat (List.length (hint_text self)))
            && (typing_speed self <=? timer)%float then
      char <- char_at (hint_text self) (hint_index self) ;;
      Some (mk (active self) locked' (end_time self) (current_phrase self)
               (current_tier self) (has_sound self)
               (displayed_text self) (displayed_hint self ++ [char])
               (Py.float 0) (char_index self) (hint_index self + 1)
               (typing_speed self) (hint_text self),
            negb (char =? 32) && has_sound self)
    else
      Some (mk (active self) locked' (end_time self) (current_phrase self)
               (current_tier self) (has_sound self)
               (displayed_text self) (displayed_hint self)
               timer (char_index self) (hint_index self)
               (typing_speed self) (hint_text self),
            false)
  else
    Some (mk (active self) locked' (end_time self) (current_phrase self)
             (current_tier self) (has_sound self)
             (displayed_text self) (displayed_hint self)
             (text_timer self) (char_index self) (hint_index self)
             (typing_speed self) (hint_text self),
          false).

Definition end_dialogue (self : t) : t :=
  mk false false (end_time self) (current_phrase self) (current_tier self)
     (has_sound self) (displayed_text self) (displayed_hint self)
     (text_timer self) (char_index self) (hint_index self)
     (typing_speed self) (hint_text self).

Definition is_locked (self : t) : bool := active self && locked self.

(** Successive frames of [update]: each carries its time step and the
    tick count read in it; the result counts the blips played. *)
Fixpoint run (frames : list (float * Z)) (self : t) : option (t * nat) :=
  match frames with
  | [] => Some (self, O)
  | (dt, now) :: rest =>
      match update self dt now with
      | None => None
      | Some (self', blip) =>
          match run rest self' with
          | None => None
          | Some (last, blips) => Some (last, ((if blip then 1 else 0) + blips)%nat)
          end
      end
  end.

End DialogueManager.

End dialogue_manager.

(** ** database_manager.py

    The gameplay queries of [DatabaseManager], read as operations on the
    three tables.  A query that fails raises [RuntimeError] after a
    rollback; the model describes the calls that go through.  The [id] and
    timestamp columns of [Level_Attempts] and [Deaths], which no query
    reads, are left out, and integer columns are unbounded.  Account
    creation and authentication, which rest on SHA-256 and on the
    collation of the database, are not modelled. *)

Module database_manager.

Module Players.
Record row : Type := mk {
  id : Z;
  username : string;
  password_hash : string;
  name : option string;
  dob : option string;
  total_stars : Z
}.
End Players.

Module Level_Attempts.
Record row : Type := mk {
  user_id : Z;
  level_id : Z;
  attempts : Z;
  stars_earned : Z
}.
End Level_Attempts.

Module Deaths.
Record row : Type := mk {
  level_id : Z;
  coord_x : Z;
  coord_y : Z
}.
End Deaths.

Module DatabaseManager.

Record t : Type := mk {
  players : list Players.row;
  level_attempts : list Level_Attempts.row;
  deaths : list Deaths.row
}.

(** SQL [MAX] over a column: [NULL] when no row is selected. *)
Definition sql_max (values : list Z) : option Z :=
  match values with
  | [] => None
  | v :: rest => Some (fold_left Z.max rest v)
  end.

(** SQL [ISNULL(v, d)]. *)
Definition ISNULL (v : option Z) (d : Z) : Z :=
  match v with
  | Some a => a
  | None => d
  end.

(** [SELECT ISNULL(MAX(stars_earned), 0) FROM Level_Attempts
     WHERE user_id = ? AND level_id = ?]. *)
Definition _get_max_stars_for_level (self : t) (user_id level_id : Z) : Z :=
  ISNULL
    (sql_max
       (map Level_Attempts.stars_earned
            (filter (fun r => (Level_Attempts.user_id r =? user_id)
                              && (Level_Attempts.level_id r =? level_id))
                    (level_attempts self))))
    0.

(** One more row of a level in the running result of
    [GROUP BY level_id] with [MAX(stars_earned)]. *)
Fixpoint group_max (level stars : Z) (groups : list (Z * Z)) : list (Z * Z) :=
  match groups with
  | [] => [(level, stars)]
  | (l, m) :: rest =>
      if l =? level then (l, Z.max m stars) :: rest
      else (l, m) :: group_max level stars rest
  end.

(** [SELECT level_id, MAX(stars_earned) FROM Level_Attempts
     WHERE user_id = ? GROUP BY level_id], as the dictionary built from
     it: one entry per level, here in the order in which the levels first
     occur in the table (SQL fixes no order, and the callers use none). *)
Definition get_player_level_stars (self : t) (user_id : Z) : list (Z * Z) :=
  fold_left
    (fun groups r =>
       if Level_Attempts.user_id r =? user_id
       then group_max (Level_Attempts.level_id r) (Level_Attempts.stars_earned r) groups
       else groups)
    (level_attempts self) [].

Definition log_death (self : t) (level_id coord_x coord_y : Z) : t :=
  mk (players self) (level_attempts self)
     (deaths self ++ [Deaths.mk level_id coord_x coord_y]).

(** [UPDATE Players SET total_stars = total_stars + ? WHERE id = ?]. *)
Definition add_stars (delta user_id : Z) (r : Players.row) : Players.row :=
  if Players.id r =? user_id
  then Players.mk (Players.id r) (Players.username r) (Players.password_hash r)
                  (Players.name r) (Players.dob r) (Players.total_stars r + delta)
  else r.

Definition record_level_attempt (self : t) (user_id level_id attempts stars_earned : Z)
    : t :=
  let max_stars_old := _get_max_stars_for_level self user_id level_id in
  let star_delta := Z.max 0 (stars_earned - max_stars_old) in
  let attempts' :=
    level_attempts self
    ++ [Level_Attempts.mk user_id level_id attempts stars_earned] in
  if star_delta >? 0
  then mk (map (add_stars star_delta user_id) (players self)) attempts' (deaths self)
  else mk (players self) attempts' (deaths self).

(** [delete_user], both [DELETE] statements going through. *)
Definition delete_user (self : t) (user_id : Z) : t * bool :=
  (mk (filter (fun r => negb (Players.id r =? user_id)) (players self))
      (filter (fun r => negb (Level_Attempts.user_id r =? user_id))
              (level_attempts self))
      (deaths self),
   true).

End DatabaseManager.

End database_manager.

(** ** main.py *)

Module main.

Import pygame.
Import level_manager.

(** *** class Player

    The fields that only feed the renderer (squash and stretch, breathing
    and walking timers, the sprite) are left out. *)

Module Player.

Record t : Type := mk {
  spawn_point : Vector2;
  rect : Rect;
  vel : Vector2;
  on_ground : bool;
  coyote_timer : float;
  jump_buffer_timer : float;
  facing_right : bool;
  jumps_left : Z
}.

(** The keys [handle_input] reads from [pygame.key.get_pressed()]. *)
Record Keys : Type := mkKeys {
  K_a : bool; K_LEFT : bool; K_d : bool; K_RIGHT : bool
}.

Definition with_rect (self : t) (r : Rect) : t :=
  mk (spawn_point self) r (vel self) (on_ground self) (coyote_timer self)
     (jump_buffer_timer self) (facing_right self) (jumps_left self).

Definition with_vel (self : t) (v : Vector2) : t :=
  mk (spawn_point self) (rect self) v (on_ground self) (coyote_timer self)
     (jump_buffer_timer self) (facing_right self) (jumps_left self).

Definition with_on_ground (self : t) (b : bool) : t :=
  mk (spawn_point self) (rect self) (vel self) b (coyote_timer self)
     (jump_buffer_timer self) (facing_right self) (jumps_left self).

Definition with_timers (self : t) (coyote buffer : float) : t :=
  mk (spawn_point self) (rect self) (vel self) (on_ground self) coyote
     buffer (facing_right self) (jumps_left self).

Definition with_jumps_left (self : t) (n : Z) : t :=
  mk (spawn_point self) (rect self) (vel self) (on_ground self) (coyote_timer self)
     (jump_buffer_timer self) (facing_right self) n.

(** [pygame.Rect] built from float coordinates truncates them. *)
Definition __init__ (spawn_point : Vector2) : option t :=
  a <- Py.int (vx spawn_point) ;;
  b <- Py.int (vy spawn_point) ;;
  h <- Py.int (Py.float config.TILE_SIZE * 1.5)%float ;;
  Some (mk spawn_point (mkRect a b config.TILE_SIZE h) (mkVector2 0%float 0%float)
           false 0.0%float 0.0%float true 2).

Definition reset (self : t) : option t :=
  a <- Py.int (vx (spawn_point self)) ;;
  b <- Py.int (vy (spawn_point self)) ;;
  Some (mk (spawn_point self) (set_topleft (rect self) (a, b))
           (mkVector2 (Py.float 0) (Py.float 0)) false 0.0%float 0.0%float
           (facing_right self) 2).

Definition set_spawn (self : t) (spawn_point : Vector2) : option t :=
  reset (mk spawn_point (rect self) (vel self) (on_ground self) (coyote_timer self)
            (jump_buffer_timer self) (facing_right self) (jumps_left self)).

Definition handle_input (self : t) (keys : Keys) : t :=
  let s0 := with_vel self (mkVector2 (Py.float 0) (vy (vel self))) in
  let s1 :=
    if K_a keys || K_LEFT keys then
      mk (spawn_point s0) (rect s0)
         (mkVector2 (Py.float (- config.PLAYER_SPEED)) (vy (vel s0)))
         (on_ground s0) (coyote_timer s0) (jump_buffer_timer s0) false (jumps_left s0)
    else s0 in
  if K_d keys || K_RIGHT keys then
    mk (spawn_point s1) (rect s1)
       (mkVector2 (Py.float config.PLAYER_SPEED) (vy (vel s1)))
       (on_ground s1) (coyote_timer s1) (jump_buffer_timer s1) true (jumps_left s1)
  else s1.

Definition jump (self : t) : t :=
  with_timers self (coyote_timer self) config.JUMP_BUFFER_TIME.

Definition _consume_buffered_jump (self : t) : t * bool :=
  let can_jump := on_ground self || (0 <? coyote_timer self)%float in
  if (0 <? jump_buffer_timer self)%float then
    if can_jump then
      (mk (spawn_point self) (rect self)
          (mkVector2 (vx (vel self)) (Py.float config.JUMP_FORCE))
          false 0.0%float 0.0%float (facing_right self) 1, true)
    else if jumps_left self >? 0 then
      (mk (spawn_point self) (rect self)
          (mkVector2 (vx (vel self)) (Py.float config.JUMP_FORCE * 0.85)%float)
          (on_ground self) (coyote_timer self) 0.0%float (facing_right self)
          (jumps_left self - 1), true)
    else (self, false)
  else (self, false).

(** One iteration of the loop of [_resolve_collisions]. *)
Definition resolve_one (axis : string) (self : t) (plat : Rect) : t :=
  if colliderect (rect self) plat then
    if String.eqb axis "x" then
      let r :=
        if (0 <? vx (vel self))%float then set_right (rect self) (left plat)
        else if (vx (vel self) <? 0)%float then set_left (rect self) (right plat)
        else rect self in
      with_vel (with_rect self r) (mkVector2 (Py.float 0) (vy (vel self)))
    else
      if (0 <? vy (vel self))%float then
        with_on_ground
          (with_vel (with_rect self (set_bottom (rect self) (top plat)))
                    (mkVector2 (vx (vel self)) (Py.float 0)))
          true
      else if (vy (vel self) <? 0)%float then
        with_vel (with_rect self (set_top (rect self) (bottom plat)))
                 (mkVector2 (vx (vel self)) (Py.float 0))
      else self
  else self.

Definition _resolve_collisions (axis : string) (platforms : list Rect) (self : t) : t :=
  fold_left (resolve_one axis) platforms self.

(** The gravity step of [update]: [vel.y += GRAVITY] followed by
    [vel.y = min(vel.y, MAX_FALL_SPEED)]. *)
Definition gravity_step (vel_y : float) : float :=
  Py.fmin (vel_y + config.GRAVITY)%float (Py.float config.MAX_FALL_SPEED).

Definition update (self : t) (dt : float) (platforms : list Rect) (level_length : Z)
    : option (t * bool) :=
  let was_on_ground := on_ground self in
  let s1 :=
    with_timers self
      (Py.fmax 0.0%float (coyote_timer self - dt)%float)
      (Py.fmax 0.0%float (jump_buffer_timer self - dt)%float) in
  let s2 := with_vel s1 (mkVector2 (vx (vel s1)) (gravity_step (vy (vel s1)))) in
  dx <- Py.int (vx (vel s2)) ;;
  let s3 := with_rect s2 (set_x (rect s2) (x (rect s2) + dx)) in
  let s4 := _resolve_collisions "x" platforms s3 in
  let s5 :=
    with_rect s4
      (set_x (rect s4)
             (Z.max 0 (Z.min (x (rect s4)) (level_length - width (rect s4))))) in
  dy <- Py.int (vy (vel s5)) ;;
  let s6 := with_rect s5 (set_y (rect s5) (y (rect s5) + dy)) in
  let s7 := with_on_ground s6 false in
  let s8 := _resolve_collisions "y" platforms s7 in
  let s9 :=
    if on_ground s8 then
      with_timers (with_jumps_left s8 2) config.COYOTE_TIME (jump_buffer_timer s8)
    else if was_on_ground then
      with_timers s8 config.COYOTE_TIME (jump_buffer_timer s8)
    else s8 in
  Some (_consume_buffered_jump s9).

End Player.

(** *** class Game

    The calls that leave the simulation (sounds, particles, the dialogue
    box, the persistence layer) are recorded in a trace. *)

Module Game.

Inductive State : Type :=
  LOGIN | SIGNUP | MAP_MENU | PLAYING | DIALOGUE | DEATH_MENU | VICTORY.

Inductive Effect : Type :=
| JumpSound
| DeathSound
| LogDeath (level_id x y : Z)
| SpawnParticles (pos : Vector2) (count : Z)
| DialogueTrigger (n : Z)
| RecordLevelAttempt (user_id level_id attempts stars : Z)
| FlashMessage (duration_ms : Z).

Record User : Type := mkUser { user_id : Z; total_stars : Z }.

Record t : Type := mk {
  state : State;
  delta : float;
  screen_width : Z;
  current_user : option User;
  lm : LevelManager.t;
  player : Player.t;
  camera_x : float;
  map_progress : list (Z * Z);
  has_jump_sound : bool;
  has_death_sound : bool;
  last_victory_level : string;
  last_victory_stars : Z;
  trace : list Effect
}.

Definition with_world (self : t) (st : State) (l : LevelManager.t) (p : Player.t)
    (effects : list Effect) : t :=
  mk st (delta self) (screen_width self) (current_user self) l p (camera_x self)
     (map_progress self) (has_jump_sound self) (has_death_sound self)
     (last_victory_level self) (last_victory_stars self) (trace self ++ effects).

(** [LevelManager.log_death]: any exception, from [int] or from the
    database, is caught and printed. *)
Definition log_death (l : LevelManager.t) (world_pos : Vector2) : list Effect :=
  match Py.int (vx world_pos), Py.int (vy world_pos) with
  | Some a, Some b => [LogDeath (LevelManager.level_id l) a b]
  | _, _ => []
  end.

Definition handle_death (self : t) (reason_position : Vector2) : t :=
  let '(l, _) := LevelManager.increment_attempts (lm self) in
  let e1 := log_death l reason_position in
  let e2 := [SpawnParticles reason_position 15] in
  let e3 := if has_death_sound self then [DeathSound] else [] in
  if LevelManager.current_attempts l >? 20 then
    with_world self DEATH_MENU l (player self) (e1 ++ e2 ++ e3 ++ [DialogueTrigger 12])
  else
    with_world self DIALOGUE l (player self)
      (e1 ++ e2 ++ e3 ++ [DialogueTrigger (LevelManager.current_attempts l)]).

(** [sum(d.values())]. *)
Definition sum_values (d : list (Z * Z)) : Z :=
  fold_left (fun acc kv => acc + snd kv) d 0.

(** [db_reply] is what the persistence layer answers to
    [get_player_level_stars]; [None] stands for a [RuntimeError] raised by
    either database call. *)
Definition handle_victory (self : t) (db_reply : option (list (Z * Z))) : option t :=
  let stars := LevelManager.calculate_star_rating (lm self) in
  let '(user', progress', effects) :=
    match current_user self with
    | Some u =>
        let call := RecordLevelAttempt (user_id u) (LevelManager.level_id (lm self))
                      (LevelManager.current_attempts (lm self)) stars in
        match db_reply with
        | Some stars_by_level =>
            (Some (mkUser (user_id u) (sum_values stars_by_level)), stars_by_level, [call])
        | None => (Some u, map_progress self, [call; FlashMessage 4000])
        end
    | None => (None, map_progress self, [])
    end in
  level_name <- LevelManager.level_name (lm self) ;;
  Some (mk VICTORY (delta self) (screen_width self) user' (lm self) (player self)
           (camera_x self) progress' (has_jump_sound self) (has_death_sound self)
           level_name stars (trace self ++ effects)).

Definition _update_camera (self : t) : t :=
  let target :=
    (Py.float (centerx (Player.rect (player self)))
     - Py.float (screen_width self) * 0.35)%float in
  let max_scroll := Z.max 0 (LevelManager.level_length (lm self) - screen_width self) in
  let cam := (camera_x self + (target - camera_x self) * 0.12)%float in
  let cam' := Py.fmax (Py.float 0) (Py.fmin cam (Py.float max_scroll)) in
  mk (state self) (delta self) (screen_width self) (current_user self) (lm self)
     (player self) cam' (map_progress self) (has_jump_sound self)
     (has_death_sound self) (last_victory_level self) (last_victory_stars self)
     (trace self).

Section UpdateLoop.
Context {libm : math.Libm}.

(** The death test of [_update_play], evaluated on the world as it stands
    after the physics and hazard updates. *)
Definition death_check (l : LevelManager.t) (p : Player.t) : bool :=
  (top (Player.rect p) >? config.SCREEN_HEIGHT + 200)
  || LevelManager.check_hazard_collision l (Player.rect p).

(** The goal test of [_update_play]. *)
Definition goal_check (l : LevelManager.t) (p : Player.t) : bool :=
  match LevelManager.goal_rect l with
  | Some g => truthy g && colliderect (Player.rect p) (inflate g 25 25)
  | None => false
  end.

Definition _update_play (self : t) (keys : Player.Keys)
    (db_reply : option (list (Z * Z))) : option t :=
  let p0 := Player.handle_input (player self) keys in
  r <- Player.update p0 (delta self) (LevelManager.platforms (lm self))
                     (LevelManager.level_length (lm self)) ;;
  let '(p1, jumped) := r in
  let e1 := if jumped && has_jump_sound self then [JumpSound] else [] in
  l1 <- LevelManager.update_hazards (delta self) (Player.rect p1) (lm self) ;;
  let s1 := with_world self (state self) l1 p1 e1 in
  if death_check l1 p1 then
    Some (handle_death s1 (Vector2_ (center (Player.rect p1))))
  else if goal_check l1 p1 then
    handle_victory s1 db_reply
  else
    Some (_update_camera s1).

(** [Game.update]: outside the playing state only the dialogue box and
    the particles, which the model does not keep, are advanced. *)
Definition update (self : t) (keys : Player.Keys)
    (db_reply : option (list (Z * Z))) : option t :=
  match state self with
  | PLAYING => _update_play self keys db_reply
  | _ => Some self
  end.

End UpdateLoop.

(** [pygame] events, as far as the handlers below read them. *)
Inductive Key : Type := K_SPACE | K_UP | K_w | K_ESCAPE | K_other.

Inductive Event : Type :=
| MOUSEBUTTONDOWN (pos : Z * Z)
| KEYDOWN (key : Key)
| OtherEvent.

Definition with_camera_state (self : t) (st : State) (l : LevelManager.t)
    (p : Player.t) (cam : float) (effects : list Effect) : t :=
  mk st (delta self) (screen_width self) (current_user self) l p cam
     (map_progress self) (has_jump_sound self) (has_death_sound self)
     (last_victory_level self) (last_victory_stars self) (trace self ++ effects).

Definition _handle_play_event (self : t) (event : Event) : t :=
  match event with
  | KEYDOWN K_SPACE | KEYDOWN K_UP | KEYDOWN K_w =>
      with_world self (state self) (lm self) (Player.jump (player self))
        [SpawnParticles
           (Vector2_ (centerx (Player.rect (player self)),
                      bottom (Player.rect (player self)))) 5]
  | KEYDOWN K_ESCAPE => with_world self MAP_MENU (lm self) (player self) []
  | _ => self
  end.

(** [_handle_victory_event]; [screen_height] is the height of the window,
    which [Game.t] does not keep. *)
Definition _handle_victory_event (self : t) (event : Event) (screen_height : Z)
    : option t :=
  match event with
  | MOUSEBUTTONDOWN pos =>
      let w := screen_width self in
      let h := screen_height in
      let cont_rect := mkRect (w / 2 - 100) (h / 2 + 50) 200 50 in
      s1 <-
        (if collidepoint cont_rect pos then
           let l := LevelManager.reset_attempts (lm self) in
           p <- Player.set_spawn (player self) (LevelManager.spawn_point l) ;;
           Some (with_camera_state self MAP_MENU l p (Py.float 0) [])
         else Some self) ;;
      let replay_rect := mkRect (w / 2 - 100) (h / 2 + 120) 200 50 in
      if collidepoint replay_rect pos then
        let l := LevelManager.reset_attempts (lm s1) in
        p <- Player.set_spawn (player s1) (LevelManager.spawn_point l) ;;
        Some (with_camera_state s1 PLAYING l p (Py.float 0) [])
      else Some s1
  | _ => Some self
  end.

Definition _handle_death_menu_event (self : t) (event : Event) : option t :=
  match event with
  | MOUSEBUTTONDOWN pos =>
      let w := screen_width self in
      let retry_rect := mkRect (w / 2 - 60) 200 120 50 in
      s1 <-
        (if collidepoint retry_rect pos then
           p <- Player.reset (player self) ;;
           Some (with_camera_state self PLAYING (lm self) p (Py.float 0) [])
         else Some self) ;;
      let btn_rect := mkRect (w - 150) 20 120 50 in
      if collidepoint btn_rect pos then
        p <- Player.reset (player s1) ;;
        Some (with_camera_state s1 MAP_MENU (lm s1) p (camera_x s1) [])
      else Some s1
  | _ => Some self
  end.

(** [key in d] for the dictionary [map_progress]. *)
Definition has_key (key : Z) (d : list (Z * Z)) : bool :=
  existsb (fun kv => fst kv =? key) d.

(** [_is_level_unlocked]: the boss branch reads [self.current_user] and
    raises when nobody is logged in. *)
Definition _is_level_unlocked (self : t) (level_num : Z) : option bool :=
  if level_num =? 1 then Some true
  else if level_num <=? config.TOTAL_LEVELS then
    Some (has_key (level_num - 1) (map_progress self))
  else if level_num =? config.TOTAL_LEVELS + 1 then
    match current_user self with
    | Some u => Some (config.BOSS_UNLOCK_STARS <=? total_stars u)
    | None => None
    end
  else Some false.

(** What [get_player_rank] returns: a rank name with its colour, or, when
    no threshold is reached, the first entry of [config.RANKS] as it
    stands in the table (a threshold and a name). *)
Inductive RankResult : Type :=
| Rank (rank_name : string) (color : Z * Z * Z)
| TableEntry (threshold : Z) (rank_name : string).

(** The loop of [get_player_rank]: it stops at the first threshold above
    the total. *)
Fixpoint best_rank_from (total_stars : Z) (ranks : list (Z * string))
    (best_rank : RankResult) : RankResult :=
  match ranks with
  | [] => best_rank
  | (star_threshold, rank_name) :: rest =>
      if star_threshold <=? total_stars then
        best_rank_from total_stars rest
          (if 15 <=? star_threshold
           then Rank rank_name config.ACCENT_YELLOW
           else Rank rank_name config.PEACH_MED)
      else best_rank
  end.

Definition get_player_rank (self : t) : option RankResult :=
  match current_user self with
  | None => Some (Rank "Unranked" config.PEACH_DARK)
  | Some u =>
      first <- getitem config.RANKS 0 ;;
      Some (best_rank_from (total_stars u) config.RANKS
              (TableEntry (fst first) (snd first)))
  end.

End Game.

End main.

(** * Invariants *)

Module invariants.

Import pygame hazards main.

(** What an update of an oscillating hazard never touches: the base
    rectangle and the axis, the size of the current rectangle, and its
    coordinate across the axis. *)
Definition off_axis_frame (base : Rect) (a : string) (self : OscillatingHazard.t) : Prop :=
  OscillatingHazard.base_rect self = base
  /\ OscillatingHazard.axis self = a
  /\ width (OscillatingHazard.rect self) = width base
  /\ height (OscillatingHazard.rect self) = height base
  /\ (if String.eqb a "x"
      then y (OscillatingHazard.rect self) = y base
      else x (OscillatingHazard.rect self) = x base).



(** [n] calls of [advance_level] in a row. *)
Fixpoint advance_n (n : nat) (l : level_manager.LevelManager.t)
    : option level_manager.LevelManager.t :=
  match n with
  | O => Some l
  | S k =>
      match level_manager.LevelManager.advance_level l with
      | None => None
      | Some l' => advance_n k l'
      end
  end.

(** What [update_hazards] leaves alone in a level: everything except the
    platforms list and the inner state of the hazards, of which there
    remain as many of each kind. *)
Definition same_level_frame (a b : level_manager.LevelManager.t) : Prop :=
  level_manager.LevelManager.current_level_index b
    = level_manager.LevelManager.current_level_index a
  /\ level_manager.LevelManager.level_id b = level_manager.LevelManager.level_id a
  /\ level_manager.LevelManager.static_traps b
     = level_manager.LevelManager.static_traps a
  /\ level_manager.LevelManager.goal_rect b = level_manager.LevelManager.goal_rect a
  /\ level_manager.LevelManager.spawn_point b = level_manager.LevelManager.spawn_point a
  /\ level_manager.LevelManager.current_attempts b
     = level_manager.LevelManager.current_attempts a
  /\ level_manager.LevelManager.level_length b
     = level_manager.LevelManager.level_length a
  /\ List.length (level_manager.LevelManager.oscillators b)
     = List.length (level_manager.LevelManager.oscillators a)
  /\ List.length (level_manager.LevelManager.trigger_spikes b)
     = List.length (level_manager.LevelManager.trigger_spikes a)
  /\ List.length (level_manager.LevelManager.swing_axes b)
     = List.length (level_manager.LevelManager.swing_axes a)
  /\ List.length (level_manager.LevelManager.chasers b)
     = List.length (level_manager.LevelManager.chasers a)
  /\ List.length (level_manager.LevelManager.crushing_hazards b)
     = List.length (level_manager.LevelManager.crushing_hazards a)
  /\ List.length (level_manager.LevelManager.disappearing_platforms b)
     = List.length (level_manager.LevelManager.disappearing_platforms a).

(** Where the vertical pass can leave a player it marks as grounded: at
    rest vertically, its bottom on the top of a platform of the list. *)
Definition resting (platforms : list pygame.Rect) (self : main.Player.t) : Prop :=
  main.Player.on_ground self = true ->
  pygame.vy (main.Player.vel self) = Py.float 0
  /\ exists plat, In plat platforms
                  /\ pygame.bottom (main.Player.rect self) = pygame.top plat.

(** [d.get(level)] on a dictionary of stars by level. *)
Fixpoint stars_of (level : Z) (d : list (Z * Z)) : option Z :=
  match d with
  | [] => None
  | (l, m) :: rest => if l =? level then Some m else stars_of level rest
  end.

(** The stars ledger is consistent when the [total_stars] column of every
    player is the sum of that player's best ratings, one per level. *)
Definition ledger_consistent (db : database_manager.DatabaseManager.t) : Prop :=
  forall r : database_manager.Players.row,
    In r (database_manager.DatabaseManager.players db) ->
    database_manager.Players.total_stars r
    = main.Game.sum_values
        (database_manager.DatabaseManager.get_player_level_stars
           db (database_manager.Players.id r)).

(** The typing effect of a dialogue opened on [phrase] with the hint
    [hint]: the box is active, what is displayed is what the two cursors
    have passed, and the hint has not begun before the phrase is complete
    and the input lock released. *)
Definition typing (phrase hint : dialogue_manager.DialogueManager.str) (tier : Z)
    (d : dialogue_manager.DialogueManager.t) : Prop :=
  dialogue_manager.DialogueManager.active d = true
  /\ dialogue_manager.DialogueManager.current_phrase d = phrase
  /\ dialogue_manager.DialogueManager.hint_text d = hint
  /\ dialogue_manager.DialogueManager.current_tier d = tier
  /\ 0 <= dialogue_manager.DialogueManager.char_index d <= Z.of_nat (List.length phrase)
  /\ dialogue_manager.DialogueManager.displayed_text d
     = firstn (Z.to_nat (dialogue_manager.DialogueManager.char_index d)) phrase
  /\ 0 <= dialogue_manager.DialogueManager.hint_index d <= Z.of_nat (List.length hint)
  /\ dialogue_manager.DialogueManager.displayed_hint d
     = firstn (Z.to_nat (dialogue_manager.DialogueManager.hint_index d)) hint
  /\ (0 < dialogue_manager.DialogueManager.hint_index d ->
      dialogue_manager.DialogueManager.char_index d = Z.of_nat (List.length phrase)
      /\ dialogue_manager.DialogueManager.locked d = false).

(** Deaths in a row, one at each of the positions. *)
Definition die_at (positions : list pygame.Vector2) (self : main.Game.t) : main.Game.t :=
  fold_left main.Game.handle_death positions self.

(** The rectangles that can kill in a level: the static traps, the
    oscillators and axes, the spikes and chasers that are active, and the
    crushers. *)
Definition lethal_rects (l : level_manager.LevelManager.t) : list Rect :=
  level_manager.LevelManager.static_traps l
  ++ map OscillatingHazard.rect (level_manager.LevelManager.oscillators l)
  ++ map TriggerSpike.rect
       (filter TriggerSpike.active (level_manager.LevelManager.trigger_spikes l))
  ++ map SwingingAxe.rect (level_manager.LevelManager.swing_axes l)
  ++ map ChasingHazard.rect
       (filter ChasingHazard.is_active (level_manager.LevelManager.chasers l))
  ++ map CrushingHazard.rect (level_manager.LevelManager.crushing_hazards l).

(** A crusher built over [base] with the given slam height and speeds:
    it keeps its base rectangle, target, speeds, abscissa and size, stays
    between its base position and its target, and rests at the base
    position whenever it is idle. *)
Definition crusher_on_rail (base : Rect) (slam_height : Z) (speed return_speed : float)
    (c : CrushingHazard.t) : Prop :=
  CrushingHazard.base_rect c = base
  /\ CrushingHazard.target_y c = y base + slam_height
  /\ CrushingHazard.speed c = speed
  /\ CrushingHazard.return_speed c = return_speed
  /\ x (CrushingHazard.rect c) = x base
  /\ width (CrushingHazard.rect c) = width base
  /\ height (CrushingHazard.rect c) = height base
  /\ y base <= y (CrushingHazard.rect c) <= y base + slam_height
  /\ (CrushingHazard.state c = CrushingHazard.IDLE -> y (CrushingHazard.rect c) = y base).

(** A player rectangle, or none, that does not arm an idle crusher: no
    rectangle, an empty one, or one whose centre is 100 pixels or more away
    from the crusher's, horizontally. *)
Definition out_of_reach (c : CrushingHazard.t) (player_rect : option Rect) : Prop :=
  match player_rect with
  | None => True
  | Some pr =>
      truthy pr = false \/ 100 <= Z.abs (centerx pr - centerx (CrushingHazard.rect c))
  end.

End invariants.

(** * Sample frames

    Concrete worlds on which the model is run below. *)

Module samples.

Import pygame level_manager main.

(** A player running right, 5 pixels from the end of a level of length
    3840, standing on a platform. *)
Definition runner : Player.t :=
  Player.mk (mkVector2 80 580) (mkRect 3795 500 40 60) (mkVector2 8 0)
            true 0.0%float 0.0%float true 2.

Definition ground : list Rect := [mkRect 3000 560 840 40].

Definition runner_after : Player.t :=
  Player.mk (mkVector2 80 580) (mkRect 3800 500 40 60) (mkVector2 8 0.8)
            false 0.15%float 0.0%float true 2.

(** A player in mid-air with the given buffer timer, coyote timer and
    air-jumps. *)
Definition airborne (buffer coyote : float) (jumps : Z) : Player.t :=
  Player.mk (mkVector2 80 580) (mkRect 500 300 40 60) (mkVector2 0 3.2)
            false coyote buffer true jumps.

(** The oscillator of [test_oscillating_hazard_movement]. *)
Definition oscillator : hazards.OscillatingHazard.t :=
  hazards.OscillatingHazard.__init__ (100, 100, 50, 50) "y" 100 1.0%float.

Definition oscillator_after : hazards.OscillatingHazard.t :=
  hazards.OscillatingHazard.mk (mkRect 100 100 50 50) (mkRect 100 184 50 50)
    "y" 100 1.0%float 1.0%float.

(** The spike of [test_trigger_spike_activation] and the player rectangle
    that steps on its trigger. *)
Definition spike : hazards.TriggerSpike.t :=
  hazards.TriggerSpike.__init__ (100, 100, 50, 50) (100, 50, 50, 50)
    hazards.TriggerSpike.default_rise_pixels hazards.TriggerSpike.default_rise_speed.

Definition on_trigger : Rect := mkRect 110 110 10 10.

Definition spike_risen : hazards.TriggerSpike.t :=
  hazards.TriggerSpike.mk (mkRect 100 100 50 50) (mkRect 100 50 50 50)
    (mkRect 100 76 50 50) 90 50 140 true.

Definition spike_at_rest : hazards.TriggerSpike.t :=
  hazards.TriggerSpike.mk (mkRect 100 100 50 50) (mkRect 100 50 50 50)
    (mkRect 100 50 50 50) 90 50 140 true.

Definition spike_sunk : hazards.TriggerSpike.t :=
  hazards.TriggerSpike.mk (mkRect 100 100 50 50) (mkRect 100 50 50 50)
    (mkRect 100 216 50 50) 90 50 140 true.

(** The manager as [LevelManager(level_id=1)] creates it, and the first
    level loaded into it. *)
Definition fresh : LevelManager.t :=
  LevelManager.mk 0 1 [] [] None (mkVector2 0 0) 0 LEVEL_LENGTH [] [] [] [] [] [].

Definition level1 : LevelManager.t :=
  LevelManager.load_blueprint fresh 0 level_1.

(** The disappearing platform of level 1 and a player rectangle inside its
    trigger zone. *)
Definition ledge : hazards.DisappearingPlatform.t :=
  hazards.DisappearingPlatform.mk (mkRect 1400 460 80 80) (mkRect 1400 500 200 40) false.

Definition on_ledge : Rect := mkRect 1410 440 40 60.


(** A world in which the player touches a static trap and the goal in the
    same frame. *)
Definition trap_at_goal : LevelManager.t :=
  LevelManager.mk 0 1 [] [mkRect 3000 540 200 40] (Some (mkRect 3000 500 80 120))
                  (mkVector2 80 580) 0 LEVEL_LENGTH [] [] [] [] [] [].

Definition at_goal : Player.t :=
  Player.mk (mkVector2 80 580) (mkRect 3010 500 40 60) (mkVector2 0 0)
            false 0.0%float 0.0%float true 2.

Definition at_goal_after : Player.t :=
  Player.mk (mkVector2 80 580) (mkRect 3010 500 40 60) (mkVector2 0 0.8)
            false 0.0%float 0.0%float true 2.

Definition no_keys : Player.Keys := Player.mkKeys false false false false.

Definition game : Game.t :=
  Game.mk Game.PLAYING (1 / 60)%float 960 (Some (Game.mkUser 7 3)) trap_at_goal
          at_goal 0%float [] true true "" 0 [].

(** A chaser with a quarter of a second to live. *)
Definition chaser : hazards.ChasingHazard.t :=
  hazards.ChasingHazard.__init__ (100, 100) 100.0%float 0.25%float.

Definition chaser_expired : hazards.ChasingHazard.t :=
  hazards.ChasingHazard.mk (mkVector2 100 100) 100.0%float 0.25%float
    (0.25 - 0.3)%float false (mkRect 0 0 40 40).

(** The crusher of [test_crushing_hazard_slam] and the player rectangle
    under it. *)
Definition crusher : hazards.CrushingHazard.t :=
  hazards.CrushingHazard.__init__ (100, 0, 50, 50) 400
    hazards.CrushingHazard.default_speed hazards.CrushingHazard.default_return_speed.

Definition under_crusher : Rect := mkRect 120 100 10 10.

(** A player falling onto [ground], and the same player one frame
    later. *)
Definition lander : Player.t :=
  Player.mk (mkVector2 80 580) (mkRect 3100 495 40 60) (mkVector2 0 8)
            false 0.0%float 0.0%float true 1.

Definition lander_after : Player.t :=
  Player.mk (mkVector2 80 580) (mkRect 3100 500 40 60) (mkVector2 0 0)
            true 0.15%float 0.0%float true 2.

(** A database with one player, who holds three stars on level 1. *)
Definition db : database_manager.DatabaseManager.t :=
  database_manager.DatabaseManager.mk
    [database_manager.Players.mk 7 "ada" "" None None 3]
    [database_manager.Level_Attempts.mk 7 1 2 3]
    [].

End samples.

(** * Properties *)

Import pygame hazards level_manager main.

(** In a hypothesis [H : (x <- Py.int f ;; k) = Some r], the conversion
    [Py.int f] has returned. *)
Ltac int_returned H :=
  destruct (Py.int _) in H; [|discriminate]; cbn [Py.bind] in H.

(** The same for the list comprehensions of [update_hazards]. *)
Ltac loop_returned H :=
  destruct (Py.mapM _ _) in H; [|discriminate]; cbn [Py.bind] in H.

(** ** Star rating *)

Section StarRating.
Import LevelManager.

(** C1.  The star rating is a function of the attempt counter alone: it
    is 3 exactly when there were at most 3 attempts, 2 exactly for 4 or 5
    attempts and 1 exactly from 6 attempts on; it is always 1, 2 or 3. *)
Theorem calculate_star_rating_spec (self : LevelManager.t) :
  (calculate_star_rating self = 3 <-> current_attempts self <= 3)
  /\ (calculate_star_rating self = 2 <-> 4 <= current_attempts self <= 5)
  /\ (calculate_star_rating self = 1 <-> 6 <= current_attempts self)
  /\ (calculate_star_rating self = 1 \/ calculate_star_rating self = 2
      \/ calculate_star_rating self = 3)
  /\ (forall other : LevelManager.t,
        current_attempts other = current_attempts self ->
        calculate_star_rating other = calculate_star_rating self).
Proof.
  unfold calculate_star_rating.
  repeat split;
    try (intros other ->; reflexivity);
    destruct (Z.leb_spec (current_attempts self) 3);
    destruct (Z.leb_spec (current_attempts self) 5);
    intros; try lia; auto.
Qed.

End StarRating.

(** ** Level selection *)

Section LevelSelection.
Import LevelManager.

Lemma getitem_in_range {A : Type} (xs : list A) (i : Z) :
  0 <= i < Z.of_nat (List.length xs) ->
  exists a, getitem xs i = Some a /\ nth_error xs (Z.to_nat i) = Some a.
Proof.
  intros Hi. unfold getitem.
  destruct (Z.leb_spec 0 i); [|lia].
  destruct (Z.ltb_spec i (Z.of_nat (List.length xs))); [|lia].
  cbn [andb].
  destruct (nth_error xs (Z.to_nat i)) as [a|] eqn:E.
  - exists a. split; reflexivity.
  - apply nth_error_None in E. lia.
Qed.

(** C2.  Whatever integer index is passed, negative or beyond the last
    level, [load_level] succeeds: it loads the blueprint found at position
    [index mod 13] of the 13 blueprints and leaves the current level index
    in the range of the list. *)
Theorem load_level_wraps_index (i : Z) (self : LevelManager.t) :
  List.length LEVEL_BLUEPRINTS = 13%nat
  /\ exists blueprint,
       nth_error LEVEL_BLUEPRINTS (Z.to_nat (i mod 13)) = Some blueprint
       /\ load_level (Some i) self = Some (load_blueprint self (i mod 13) blueprint)
       /\ current_level_index (load_blueprint self (i mod 13) blueprint) = i mod 13
       /\ 0 <= current_level_index (load_blueprint self (i mod 13) blueprint) < 13
       /\ level_id (load_blueprint self (i mod 13) blueprint) = Blueprint.id blueprint.
Proof.
  split; [reflexivity|].
  assert (Hr : 0 <= i mod 13 < 13) by (apply Z.mod_pos_bound; lia).
  destruct (getitem_in_range LEVEL_BLUEPRINTS (i mod 13)) as [bp [Hg Hn]].
  { change (Z.of_nat (List.length LEVEL_BLUEPRINTS)) with 13. exact Hr. }
  exists bp. split; [exact Hn|].
  assert (Hidx : current_level_index (load_blueprint self (i mod 13) bp) = i mod 13).
  { unfold load_blueprint.
    destruct (fold_left add_disappearing (Blueprint.disappear bp) _).
    reflexivity. }
  repeat split.
  - unfold load_level, load_level_in, Py.mod_.
    change (Z.of_nat (List.length LEVEL_BLUEPRINTS)) with 13.
    cbn [Z.eqb Py.bind]. rewrite Hg. reflexivity.
  - exact Hidx.
  - rewrite Hidx; lia.
  - rewrite Hidx; lia.
  - unfold load_blueprint.
    destruct (fold_left add_disappearing (Blueprint.disappear bp) _).
    reflexivity.
Qed.

End LevelSelection.

(** ** Player physics *)

Section PlayerPhysics.
Import Player invariants.

Lemma resolve_one_size (axis : string) (self : Player.t) (plat : Rect) :
  width (rect (resolve_one axis self plat)) = width (rect self)
  /\ height (rect (resolve_one axis self plat)) = height (rect self).
Proof.
  unfold resolve_one.
  destruct (colliderect (rect self) plat); [|split; reflexivity].
  destruct (String.eqb axis "x").
  - destruct (0 <? vx (vel self))%float; [split; reflexivity|].
    destruct (vx (vel self) <? 0)%float; split; reflexivity.
  - destruct (0 <? vy (vel self))%float; [split; reflexivity|].
    destruct (vy (vel self) <? 0)%float; split; reflexivity.
Qed.

(** The vertical pass assigns [rect.bottom] and [rect.top] only. *)
Lemma resolve_one_vertical_keeps_x (self : Player.t) (plat : Rect) :
  x (rect (resolve_one "y" self plat)) = x (rect self).
Proof.
  unfold resolve_one.
  destruct (colliderect (rect self) plat); [|reflexivity].
  cbn [String.eqb Ascii.eqb Bool.eqb].
  destruct (0 <? vy (vel self))%float; [reflexivity|].
  destruct (vy (vel self) <? 0)%float; reflexivity.
Qed.

Lemma resolve_collisions_size (axis : string) (platforms : list Rect) :
  forall self : Player.t,
    width (rect (_resolve_collisions axis platforms self)) = width (rect self)
    /\ height (rect (_resolve_collisions axis platforms self)) = height (rect self).
Proof.
  unfold _resolve_collisions.
  induction platforms as [|plat rest IH]; intros self; cbn [fold_left].
  - split; reflexivity.
  - destruct (IH (resolve_one axis self plat)) as [Hw Hh].
    destruct (resolve_one_size axis self plat) as [Hw1 Hh1].
    split; congruence.
Qed.

Lemma resolve_collisions_width (axis : string) (platforms : list Rect)
    (self : Player.t) :
  width (rect (_resolve_collisions axis platforms self)) = width (rect self).
Proof. apply resolve_collisions_size. Qed.

Lemma resolve_collisions_vertical_keeps_x (platforms : list Rect) :
  forall self : Player.t,
    x (rect (_resolve_collisions "y" platforms self)) = x (rect self).
Proof.
  unfold _resolve_collisions.
  induction platforms as [|plat rest IH]; intros self; cbn [fold_left].
  - reflexivity.
  - rewrite IH. apply resolve_one_vertical_keeps_x.
Qed.

Lemma consume_buffered_jump_keeps_rect (self : Player.t) :
  rect (fst (_consume_buffered_jump self)) = rect self.
Proof.
  unfold _consume_buffered_jump.
  destruct (0 <? jump_buffer_timer self)%float; [|reflexivity].
  destruct (on_ground self || (0 <? coyote_timer self)%float); [reflexivity|].
  destruct (jumps_left self >? 0); reflexivity.
Qed.

(** The coyote step of [update] touches timers and air-jumps only. *)
Lemma coyote_step_keeps_rect (was_on_ground : bool) (self : Player.t) :
  rect (if on_ground self
        then with_timers (with_jumps_left self 2) config.COYOTE_TIME
                         (jump_buffer_timer self)
        else if was_on_ground
             then with_timers self config.COYOTE_TIME (jump_buffer_timer self)
             else self)
  = rect self.
Proof. destruct (on_ground self), was_on_ground; reflexivity. Qed.

Lemma resolve_collisions_horizontal_keeps_vy (platforms : list Rect) :
  forall self : Player.t,
    vy (vel (_resolve_collisions "x" platforms self)) = vy (vel self).
Proof.
  unfold _resolve_collisions.
  induction platforms as [|plat rest IH]; intros self; cbn [fold_left].
  - reflexivity.
  - rewrite IH. unfold resolve_one.
    destruct (colliderect (rect self) plat); reflexivity.
Qed.

(** [update] returns as soon as both velocity components can be turned
    into integers, that is, when they are finite. *)
Lemma update_returns (self : Player.t) (dt : float) (platforms : list Rect)
    (level_length dx dy : Z) :
  Py.int (vx (vel self)) = Some dx ->
  Py.int (gravity_step (vy (vel self))) = Some dy ->
  exists result, update self dt platforms level_length = Some result.
Proof.
  intros Hx Hy. unfold update.
  cbn [with_timers with_vel with_rect vel vx vy].
  rewrite Hx. cbn [Py.bind].
  rewrite resolve_collisions_horizontal_keeps_vy.
  cbn [with_timers with_vel with_rect vel vx vy].
  rewrite Hy. cbn [Py.bind].
  eexists. reflexivity.
Qed.

(** C3.  Whenever [update] returns, the player's [rect.x] lies between 0
    and [level_length - width], for every player state, time step and
    platform list, provided the level is at least as long as the player is
    wide. *)
Theorem update_keeps_player_inside_level
    (self : Player.t) (dt : float) (platforms : list Rect) (level_length : Z)
    (self' : Player.t) (jumped : bool) :
  width (rect self) <= level_length ->
  update self dt platforms level_length = Some (self', jumped) ->
  0 <= x (rect self') <= level_length - width (rect self').
Proof.
  intros Hlen Hupd. unfold update in Hupd.
  int_returned Hupd. int_returned Hupd.
  injection Hupd as Hupd.
  apply (f_equal fst) in Hupd. cbn [fst] in Hupd. subst self'.
  rewrite consume_buffered_jump_keeps_rect, coyote_step_keeps_rect.
  rewrite resolve_collisions_vertical_keeps_x.
  repeat first
    [ rewrite resolve_collisions_width
    | progress cbn [with_on_ground with_rect with_vel with_timers rect
                    set_y set_x x width] ].
  lia.
Qed.

Lemma update_keeps_player_inside_level_witness :
  update samples.runner (1 / 60)%float samples.ground 3840
    = Some (samples.runner_after, false)
  /\ 0 <= x (rect samples.runner_after) <= 3840 - width (rect samples.runner_after).
Proof.
  assert (Hrun : update samples.runner (1 / 60)%float samples.ground 3840
                 = Some (samples.runner_after, false))
    by (vm_compute; reflexivity).
  split; [exact Hrun|].
  apply (update_keeps_player_inside_level samples.runner (1 / 60)%float
           samples.ground 3840 samples.runner_after false).
  - vm_compute. discriminate.
  - exact Hrun.
Defined.

(** [update] hands its result over from [_consume_buffered_jump], applied
    to the player as the collision and coyote steps leave it. *)
Lemma update_ends_with_jump_resolution
    (self : Player.t) (dt : float) (platforms : list Rect) (level_length : Z)
    (result : Player.t * bool) :
  update self dt platforms level_length = Some result ->
  exists before : Player.t, result = _consume_buffered_jump before.
Proof.
  unfold update. intros H.
  int_returned H. int_returned H.
  injection H as <-. eexists. reflexivity.
Qed.

(** C4.  Jump resolution.  With the buffer armed and the player grounded
    or inside the coyote window, the vertical velocity becomes the full
    jump impulse, both timers are cleared, one air-jump is left and a jump
    is signalled.  Otherwise, with the buffer armed and an air-jump left,
    the velocity becomes 85% of the impulse, one air-jump is consumed and a
    jump is signalled.  In every other case, in particular with the buffer
    armed but no air-jump left in mid-air, the player is unchanged and no
    jump is signalled. *)
Theorem consume_buffered_jump_rule (self : Player.t) :
  let armed := (0 <? jump_buffer_timer self)%float = true in
  let can_jump := on_ground self = true \/ (0 <? coyote_timer self)%float = true in
  let after := fst (_consume_buffered_jump self) in
  let jumped := snd (_consume_buffered_jump self) in
  (armed /\ can_jump ->
     vy (vel after) = Py.float config.JUMP_FORCE
     /\ jump_buffer_timer after = 0.0%float
     /\ coyote_timer after = 0.0%float
     /\ jumps_left after = 1
     /\ jumped = true)
  /\ (armed /\ ~ can_jump /\ 0 < jumps_left self ->
     vy (vel after) = (Py.float config.JUMP_FORCE * 0.85)%float
     /\ jumps_left after = jumps_left self - 1
     /\ jumped = true)
  /\ (~ armed \/ (~ can_jump /\ jumps_left self <= 0) ->
     after = self /\ jumped = false).
Proof.
  cbv zeta. unfold _consume_buffered_jump.
  destruct (0 <? jump_buffer_timer self)%float;
    destruct (on_ground self);
    destruct (0 <? coyote_timer self)%float;
    destruct (Z.gtb_spec (jumps_left self) 0);
    cbn [orb fst snd vel vy jump_buffer_timer coyote_timer jumps_left];
    repeat split; intros; intuition (try congruence; try lia).
Qed.

(** The three cases of the rule on a player in mid-air: inside the coyote
    window, with an air-jump left, and with none. *)
Example coyote_jump_in_the_air :
  _consume_buffered_jump (samples.airborne 0.1 0.05 2)
  = (Player.mk (mkVector2 80 580) (mkRect 500 300 40 60) (mkVector2 0 (-22))
               false 0 0 true 1, true).
Proof. vm_compute. reflexivity. Qed.

Example air_jump_with_one_left :
  _consume_buffered_jump (samples.airborne 0.1 0 1)
  = (Player.mk (mkVector2 80 580) (mkRect 500 300 40 60)
               (mkVector2 0 (-18.7)) false 0 0 true 0, true).
Proof. vm_compute. reflexivity. Qed.

Example no_jump_without_air_jumps :
  _consume_buffered_jump (samples.airborne 0.1 0 0)
  = (samples.airborne 0.1 0 0, false).
Proof. vm_compute. reflexivity. Qed.

(** *** Gravity and the fall-speed cap *)









End PlayerPhysics.

(** ** Hazards *)

Section FloatSigns.

(** The product of two floats that compare at least 0 truncates to a
    non-negative integer, when it truncates at all. *)
Lemma int_of_nonneg_product (a b : float) (k : Z) :
  (0 <=? a)%float = true ->
  (0 <=? b)%float = true ->
  Py.int (a * b)%float = Some k ->
  0 <= k.
Proof.
  rewrite !leb_spec. unfold Py.int. rewrite mul_spec.
  change (Prim2SF 0%float) with (S754_zero false).
  destruct (Prim2SF a) as [sa| sa | |sa ma ea], (Prim2SF b) as [sb|sb| |sb mb eb];
    cbn [SFleb SFcompare SF64mul SFmul];
    try discriminate;
    try (intros _ _ H; injection H as <-; lia).
  destruct sa; [discriminate|]. destruct sb; [discriminate|].
  intros _ _. cbn [xorb]. unfold binary_round_aux.
  destruct (shr_fexp _ _ _ _ _) as [mrs' e'].
  destruct (shr_fexp _ _ _ _ _) as [mrs'' e''].
  destruct (shr_m mrs'') as [|m|m]; try discriminate.
  - intros H; injection H as <-; lia.
  - destruct (e'' <=? emax - prec); [|discriminate].
    intros H; injection H as <-. apply Z.shiftl_nonneg. lia.
Qed.

End FloatSigns.

Section TriggerSpikes.
Import TriggerSpike.

Lemma trigger_spike_update_frame (self self' : TriggerSpike.t) (dt : float)
    (player_rect : option Rect) :
  update self dt player_rect = Some self' ->
  target_y self' = target_y self
  /\ rise_speed self' = rise_speed self
  /\ (active self = true -> active self' = true).
Proof.
  unfold update. intros H.
  destruct (negb (active self) && player_in player_rect (trigger_rect self)) eqn:E.
  - cbn [andb] in H.
    destruct (y (rect self) >? target_y self).
    + int_returned H. injection H as <-. repeat split.
    + injection H as <-. repeat split.
  - destruct (active self && (y (rect self) >? target_y self)) eqn:E2.
    + int_returned H. injection H as <-. cbn. repeat split. intros; assumption.
    + injection H as <-. cbn. repeat split. intros; assumption.
Qed.

(** One update of an active spike, for a non-negative time step and rise
    speed: at or above its target the spike stays put, below it the spike
    rises without passing the target. *)
Lemma trigger_spike_update_rises (self self' : TriggerSpike.t) (dt : float)
    (player_rect : option Rect) :
  update self dt player_rect = Some self' ->
  active self = true ->
  (0 <=? rise_speed self)%float = true ->
  (0 <=? dt)%float = true ->
  (y (rect self) <= target_y self -> y (rect self') = y (rect self))
  /\ (target_y self <= y (rect self) ->
      target_y self <= y (rect self') <= y (rect self)).
Proof.
  unfold update. intros H Hact Hspeed Hdt. rewrite Hact in H.
  cbn [negb andb] in H.
  destruct (Z.gtb_spec (y (rect self)) (target_y self)) as [Hgt|Hle].
  - destruct (Py.int _) as [k|] eqn:Ek in H; [|discriminate]. cbn [Py.bind] in H.
    injection H as <-. cbn [rect set_y y].
    pose proof (int_of_nonneg_product _ _ _ Hspeed Hdt Ek).
    split; intros; lia.
  - injection H as <-. cbn [rect]. split; intros; lia.
Qed.

(** C5, as the code has it.  Over any sequence of updates that return,
    whatever the time steps and player rectangles (none included): an
    active spike stays active; an inactive spike collides with nothing;
    and when the rise speed and every time step are non-negative, an
    active spike at or above its target does not move, while one below
    its target ends between the target and where it started. *)
Theorem trigger_spike_latches_and_rises
    (calls : list (float * option Rect)) :
  forall self self' : TriggerSpike.t,
    run update calls self = Some self' ->
    (active self = true -> active self' = true)
    /\ (active self = false -> forall r : Rect, collides self r = false)
    /\ (active self = true ->
        (0 <=? rise_speed self)%float = true ->
        Forall (fun call => (0 <=? fst call)%float = true) calls ->
        (y (rect self) <= target_y self -> y (rect self') = y (rect self))
        /\ (target_y self <= y (rect self) ->
            target_y self <= y (rect self') <= y (rect self))).
Proof.
  induction calls as [|[dt player_rect] rest IH]; intros self self' Hrun;
    cbn [run] in Hrun.
  - injection Hrun as <-.
    split; [auto|]. split.
    + intros Hoff r. unfold collides. rewrite Hoff. reflexivity.
    + intros _ _ _. split; intros; lia.
  - destruct (update self dt player_rect) as [mid|] eqn:Hupd; [|discriminate].
    destruct (trigger_spike_update_frame _ _ _ _ Hupd) as [Htgt [Hspd Hlatch]].
    destruct (IH mid self' Hrun) as [IHact [_ IHrise]].
    split; [auto|]. split.
    + intros Hoff r. unfold collides. rewrite Hoff. reflexivity.
    + intros Hact Hspeed Hall.
      inversion Hall as [|call calls' Hdt Hrest]; subst. cbn [fst] in Hdt.
      destruct (trigger_spike_update_rises _ _ _ _ Hupd Hact Hspeed Hdt)
        as [Hstay Hrise].
      rewrite <- Hspd in Hspeed.
      destruct (IHrise (Hlatch Hact) Hspeed Hrest) as [IHstay IHrises].
      rewrite Htgt in IHstay, IHrises.
      split; intros; lia.
Qed.

(** Every spike of a loaded level rises at the default speed of 140
    pixels per second. *)
Lemma loaded_spikes_rise_speed (self : LevelManager.t) (k : Z) (bp : Blueprint.t) :
  Forall (fun spike => rise_speed spike = 140%float)
         (LevelManager.trigger_spikes (LevelManager.load_blueprint self k bp)).
Proof.
  unfold LevelManager.load_blueprint.
  destruct (fold_left LevelManager.add_disappearing _ _).
  cbn [LevelManager.trigger_spikes].
  apply Forall_forall. intros spike Hin.
  apply in_map_iff in Hin. destruct Hin as [entry [<- _]]. reflexivity.
Qed.

(** The scenario of [test_trigger_spike_activation], run on the model. *)
Example test_trigger_spike_activation :
  active samples.spike = false
  /\ update samples.spike 0.1%float (Some samples.on_trigger) = Some samples.spike_risen
  /\ active samples.spike_risen = true
  /\ collides samples.spike_risen samples.on_trigger = true.
Proof. vm_compute. repeat split. Qed.

Lemma trigger_spike_latches_and_rises_witness :
  run update [(0.1%float, Some samples.on_trigger); (0.1%float, None)]
      samples.spike_risen
    = Some samples.spike_at_rest
  /\ active samples.spike_at_rest = true
  /\ target_y samples.spike_risen <= y (rect samples.spike_at_rest)
     <= y (rect samples.spike_risen).
Proof.
  assert (Hrun : run update [(0.1%float, Some samples.on_trigger); (0.1%float, None)]
                     samples.spike_risen
                 = Some samples.spike_at_rest)
    by (vm_compute; reflexivity).
  destruct (trigger_spike_latches_and_rises _ _ _ Hrun) as [Hact [_ Hrise]].
  split; [exact Hrun|]. split; [apply Hact; reflexivity|].
  apply Hrise.
  - reflexivity.
  - vm_compute. reflexivity.
  - repeat constructor.
  - vm_compute. discriminate.
Defined.

(** With a negative time step an active spike moves away from its target:
    from y = 76 (target 50, hidden position 90) one update with dt = -1
    takes it to y = 216. *)
Lemma trigger_spike_sinks_on_negative_dt :
  ~ (forall (self self' : TriggerSpike.t) (dt : float) (player_rect : option Rect),
       active self = true ->
       update self dt player_rect = Some self' ->
       target_y self <= y (rect self) ->
       target_y self <= y (rect self') <= y (rect self)).
Proof.
  intros H.
  assert (Hupd : update samples.spike_risen (-1)%float None = Some samples.spike_sunk)
    by (vm_compute; reflexivity).
  specialize (H samples.spike_risen samples.spike_sunk (-1)%float None eq_refl Hupd).
  vm_compute in H.
  destruct H as [_ H]; [discriminate|]. apply H. reflexivity.
Qed.

End TriggerSpikes.

Section Oscillators.
Import OscillatingHazard invariants.
Context {libm : math.Libm}.

Lemma oscillator_update_frame (base : Rect) (a : string)
    (self self' : OscillatingHazard.t) (dt : float) (player_rect : option Rect) :
  off_axis_frame base a self ->
  update self dt player_rect = Some self' ->
  off_axis_frame base a self'.
Proof.
  unfold off_axis_frame, update.
  intros [Hbase [Haxis [Hw [Hh Hoff]]]] H.
  destruct (math.sin _) in H; [|discriminate]. cbn [Py.bind] in H.
  rewrite Haxis in H.
  destruct (String.eqb a "x"); int_returned H; injection H as <-; cbn; auto.
Qed.

Lemma oscillator_run_frame (base : Rect) (a : string)
    (calls : list (float * option Rect)) :
  forall self self' : OscillatingHazard.t,
    off_axis_frame base a self ->
    run update calls self = Some self' ->
    off_axis_frame base a self'.
Proof.
  induction calls as [|[dt player_rect] rest IH]; intros self self' Hinv Hrun;
    cbn [run] in Hrun.
  - injection Hrun as <-. exact Hinv.
  - destruct (update self dt player_rect) as [mid|] eqn:Hupd; [|discriminate].
    apply (IH mid self'); [|exact Hrun].
    apply (oscillator_update_frame base a self mid dt player_rect Hinv Hupd).
Qed.

(** C10.  An oscillating hazard built by [__init__] and updated any
    number of times, with any time steps and player rectangles, keeps its
    base rectangle; when its axis is "x" the y coordinate, width and height
    of its rectangle are those of the base rectangle, and for any other
    axis the x coordinate, width and height are. *)
Theorem oscillating_hazard_moves_along_its_axis_only
    (rect_tuple : RectTuple) (a : string) (amplitude : Z) (speed : float)
    (calls : list (float * option Rect)) (self' : OscillatingHazard.t) :
  run update calls (__init__ rect_tuple a amplitude speed) = Some self' ->
  base_rect self' = Rect_ rect_tuple
  /\ (a = "x"%string ->
      y (rect self') = y (Rect_ rect_tuple)
      /\ width (rect self') = width (Rect_ rect_tuple)
      /\ height (rect self') = height (Rect_ rect_tuple))
  /\ (a <> "x"%string ->
      x (rect self') = x (Rect_ rect_tuple)
      /\ width (rect self') = width (Rect_ rect_tuple)
      /\ height (rect self') = height (Rect_ rect_tuple)).
Proof.
  intros Hrun.
  assert (Hinit : off_axis_frame (Rect_ rect_tuple) a (__init__ rect_tuple a amplitude speed)).
  { unfold off_axis_frame, __init__. cbn [base_rect axis rect].
    repeat split. destruct (String.eqb a "x"); reflexivity. }
  destruct (oscillator_run_frame _ _ _ _ _ Hinit Hrun) as [Hbase [_ [Hw [Hh Hoff]]]].
  split; [exact Hbase|]. split.
  - intros ->. cbn in Hoff. auto.
  - intros Hne. apply String.eqb_neq in Hne. rewrite Hne in Hoff. auto.
Qed.

End Oscillators.

Lemma oscillating_hazard_moves_along_its_axis_only_witness :
  run (OscillatingHazard.update (libm := math.series))
      [(0.5%float, Some (mkRect 0 0 10 10)); (0.5%float, None)] samples.oscillator
    = Some samples.oscillator_after
  /\ x (OscillatingHazard.rect samples.oscillator_after) = 100
  /\ width (OscillatingHazard.rect samples.oscillator_after) = 50
  /\ height (OscillatingHazard.rect samples.oscillator_after) = 50.
Proof.
  assert (Hrun : run (OscillatingHazard.update (libm := math.series))
                   [(0.5%float, Some (mkRect 0 0 10 10)); (0.5%float, None)]
                   samples.oscillator
                 = Some samples.oscillator_after)
    by (vm_compute; reflexivity).
  split; [exact Hrun|].
  destruct (oscillating_hazard_moves_along_its_axis_only
              (100, 100, 50, 50) "y" 100 1.0%float _ _ Hrun) as [_ [_ Hy]].
  apply Hy. discriminate.
Defined.

(** ** Disappearing platforms *)

Section RectLists.

Lemma Rect_eqb_eq (r s : Rect) : Rect_eqb r s = true <-> r = s.
Proof.
  unfold Rect_eqb. destruct r as [a b c d], s as [a' b' c' d']. cbn [x y width height].
  rewrite !andb_true_iff, !Z.eqb_eq.
  split.
  - intros [[[-> ->] ->] ->]. reflexivity.
  - intros H. injection H as -> -> -> ->. auto.
Qed.

Lemma contains_In (r : Rect) (rs : list Rect) :
  Py.contains Rect_eqb r rs = true <-> In r rs.
Proof.
  induction rs as [|s rest IH]; cbn [Py.contains In].
  - split; [discriminate|tauto].
  - destruct (Rect_eqb s r) eqn:E.
    + apply Rect_eqb_eq in E. tauto.
    + rewrite IH. split; [tauto|].
      intros [->|H]; [|exact H].
      assert (Rect_eqb r r = true) by (apply Rect_eqb_eq; reflexivity). congruence.
Qed.

Lemma contains_false_not_In (r : Rect) (rs : list Rect) :
  Py.contains Rect_eqb r rs = false <-> ~ In r rs.
Proof.
  rewrite <- contains_In. destruct (Py.contains Rect_eqb r rs); split; congruence.
Qed.

Lemma distinct_NoDup (rs : list Rect) : distinct rs = true -> NoDup rs.
Proof.
  induction rs as [|r rest IH]; cbn [distinct]; intros H.
  - constructor.
  - apply andb_true_iff in H. destruct H as [Hr Hrest].
    apply negb_true_iff, contains_false_not_In in Hr.
    constructor; auto.
Qed.

Lemma remove_incl (r : Rect) (rs : list Rect) :
  incl (Py.remove Rect_eqb r rs) rs.
Proof.
  induction rs as [|s rest IH]; cbn [Py.remove].
  - apply incl_refl.
  - destruct (Rect_eqb s r).
    + apply incl_tl, incl_refl.
    + apply incl_cons; [left; reflexivity|]. apply incl_tl, IH.
Qed.

Lemma remove_NoDup (r : Rect) (rs : list Rect) :
  NoDup rs -> NoDup (Py.remove Rect_eqb r rs).
Proof.
  induction 1 as [|s rest Hs Hnd IH]; cbn [Py.remove].
  - constructor.
  - destruct (Rect_eqb s r); [exact Hnd|].
    constructor; [|exact IH].
    intros Hin. apply Hs. apply (remove_incl r rest). exact Hin.
Qed.

(** In a list without duplicates, [remove] leaves no rectangle equal to
    the one removed. *)
Lemma remove_NoDup_not_In (r : Rect) (rs : list Rect) :
  NoDup rs -> ~ In r (Py.remove Rect_eqb r rs).
Proof.
  induction 1 as [|s rest Hs Hnd IH]; cbn [Py.remove].
  - tauto.
  - destruct (Rect_eqb s r) eqn:E.
    + apply Rect_eqb_eq in E. subst. exact Hs.
    + intros [->|Hin]; [|exact (IH Hin)].
      assert (Rect_eqb r r = true) by (apply Rect_eqb_eq; reflexivity). congruence.
Qed.

Lemma colliderect_truthy (a b : Rect) :
  colliderect a b = true -> truthy a = true.
Proof.
  unfold colliderect, truthy.
  destruct (width a =? 0), (height a =? 0); cbn [orb negb andb]; congruence.
Qed.

End RectLists.

Section DisappearingPlatforms.
Import LevelManager.
Context {libm : math.Libm}.

(** A platform whose trigger the player rectangle touches is marked
    removed by its update, and a platform marked removed stays so. *)
Lemma disappearing_update_removed (dp : DisappearingPlatform.t) (dt : float)
    (player_rect : Rect) :
  DisappearingPlatform.trigger_rect (DisappearingPlatform.update dp dt (Some player_rect))
    = DisappearingPlatform.trigger_rect dp
  /\ DisappearingPlatform.target_platform_rect
       (DisappearingPlatform.update dp dt (Some player_rect))
     = DisappearingPlatform.target_platform_rect dp
  /\ (DisappearingPlatform.is_removed dp = true
      \/ colliderect player_rect (DisappearingPlatform.trigger_rect dp) = true ->
      DisappearingPlatform.is_removed (DisappearingPlatform.update dp dt (Some player_rect))
      = true).
Proof.
  unfold DisappearingPlatform.update, player_in.
  destruct (DisappearingPlatform.is_removed dp) eqn:Hrem; cbn [negb andb].
  - rewrite Hrem. auto.
  - destruct (truthy player_rect) eqn:Ht; cbn [andb].
    + destruct (colliderect player_rect (DisappearingPlatform.trigger_rect dp)) eqn:Hc;
        cbn [DisappearingPlatform.trigger_rect DisappearingPlatform.target_platform_rect
             DisappearingPlatform.is_removed].
      * auto.
      * rewrite Hrem. repeat split. intros [H|H]; discriminate.
    + rewrite Hrem. repeat split. intros [H|H]; [discriminate|].
      apply colliderect_truthy in H. congruence.
Qed.

(** The loop over the disappearing platforms only takes platforms away,
    keeps the list free of duplicates, and leaves no rectangle equal to the
    target of a platform that is marked removed after its update. *)
Lemma update_disappearing_loop (dt : float) (player_rect : Rect)
    (dps : list DisappearingPlatform.t) :
  forall (acc : list DisappearingPlatform.t) (plats : list Rect)
         (dps' : list DisappearingPlatform.t) (plats' : list Rect),
    fold_left (update_disappearing dt player_rect) dps (acc, plats) = (dps', plats') ->
    NoDup plats ->
    NoDup plats'
    /\ incl plats' plats
    /\ dps' = acc ++ map (fun dp => DisappearingPlatform.update dp dt (Some player_rect)) dps
    /\ forall dp,
         In dp dps ->
         DisappearingPlatform.is_removed
           (DisappearingPlatform.update dp dt (Some player_rect)) = true ->
         ~ In (DisappearingPlatform.target_platform_rect dp) plats'.
Proof.
  induction dps as [|dp rest IH]; intros acc plats dps' plats' Hfold Hnd;
    cbn [fold_left] in Hfold.
  - injection Hfold as <- <-. rewrite app_nil_r.
    repeat split; [exact Hnd|apply incl_refl|]. intros dp [].
  - destruct (disappearing_update_removed dp dt player_rect) as [_ [Htgt _]].
    set (dp1 := DisappearingPlatform.update dp dt (Some player_rect)) in *.
    assert (Hstep : exists plats1,
               update_disappearing dt player_rect (acc, plats) dp = (acc ++ [dp1], plats1)
               /\ NoDup plats1 /\ incl plats1 plats
               /\ (DisappearingPlatform.is_removed dp1 = true ->
                   ~ In (DisappearingPlatform.target_platform_rect dp) plats1)).
    { unfold update_disappearing. fold dp1.
      destruct (DisappearingPlatform.is_removed dp1) eqn:Hrem.
      - destruct (Py.contains Rect_eqb (DisappearingPlatform.target_platform_rect dp1) plats)
          eqn:Hin.
        + eexists. split; [reflexivity|]. rewrite Htgt.
          repeat split.
          * apply remove_NoDup, Hnd.
          * apply remove_incl.
          * intros _. apply remove_NoDup_not_In, Hnd.
        + eexists. split; [reflexivity|].
          repeat split; [exact Hnd|apply incl_refl|].
          intros _. rewrite <- Htgt. apply contains_false_not_In, Hin.
      - eexists. split; [reflexivity|].
        repeat split; [exact Hnd|apply incl_refl|discriminate]. }
    destruct Hstep as [plats1 [Hs [Hnd1 [Hincl1 Hgone1]]]].
    rewrite Hs in Hfold.
    destruct (IH _ _ _ _ Hfold Hnd1) as [Hnd' [Hincl' [Hdps' Hgone']]].
    repeat split.
    + exact Hnd'.
    + apply (incl_tran Hincl' Hincl1).
    + rewrite Hdps', <- app_assoc. reflexivity.
    + intros dp0 [<-|Hin0] Hrem0.
      * intros Hin. apply (Hgone1 Hrem0). apply Hincl'. exact Hin.
      * apply (Hgone' dp0 Hin0 Hrem0).
Qed.

(** One call of [update_hazards], seen from the platforms list. *)
Lemma update_hazards_platforms (dt : float) (player_rect : Rect)
    (self self' : LevelManager.t) :
  update_hazards dt player_rect self = Some self' ->
  NoDup (platforms self) ->
  NoDup (platforms self')
  /\ incl (platforms self') (platforms self)
  /\ forall dp,
       In dp (disappearing_platforms self) ->
       colliderect player_rect (DisappearingPlatform.trigger_rect dp) = true ->
       ~ In (DisappearingPlatform.target_platform_rect dp) (platforms self').
Proof.
  unfold update_hazards. intros H Hnd.
  do 5 loop_returned H.
  destruct (fold_left _ _ _) as [dps' plats'] eqn:Hfold.
  injection H as <-. cbn [platforms].
  destruct (update_disappearing_loop _ _ _ _ _ _ _ Hfold Hnd)
    as [Hnd' [Hincl [_ Hgone]]].
  repeat split; [exact Hnd'|exact Hincl|].
  intros dp Hin Hhit. apply (Hgone dp Hin).
  apply disappearing_update_removed. right. exact Hhit.
Qed.

Lemma run_hazards_platforms (calls : list (float * Rect)) :
  forall self self' : LevelManager.t,
    run_hazards calls self = Some self' ->
    NoDup (platforms self) ->
    NoDup (platforms self') /\ incl (platforms self') (platforms self).
Proof.
  induction calls as [|[dt player_rect] rest IH]; intros self self' Hrun Hnd;
    cbn [run_hazards] in Hrun.
  - injection Hrun as <-. split; [exact Hnd|apply incl_refl].
  - destruct (update_hazards dt player_rect self) as [mid|] eqn:Hupd; [|discriminate].
    destruct (update_hazards_platforms _ _ _ _ Hupd Hnd) as [Hnd1 [Hincl1 _]].
    destruct (IH _ _ Hrun Hnd1) as [Hnd' Hincl'].
    split; [exact Hnd'|]. apply (incl_tran Hincl' Hincl1).
Qed.

(** The platforms of a freshly loaded level: those of the blueprint,
    followed by the targets of its disappearing platforms that were not
    among them. *)
Lemma load_blueprint_platforms (self : LevelManager.t) (k : Z) (bp : Blueprint.t) :
  platforms (load_blueprint self k bp)
  = snd (fold_left add_disappearing (Blueprint.disappear bp)
                   ([], map Rect_ (Blueprint.platforms bp))).
Proof.
  unfold load_blueprint.
  destruct (fold_left add_disappearing _ _). reflexivity.
Qed.

Lemma getitem_In {A : Type} (xs : list A) (i : Z) (a : A) :
  getitem xs i = Some a -> In a xs.
Proof.
  unfold getitem.
  destruct ((0 <=? i) && (i <? Z.of_nat (List.length xs))).
  - apply nth_error_In.
  - destruct ((- Z.of_nat (List.length xs) <=? i) && (i <? 0)).
    + apply nth_error_In.
    + discriminate.
Qed.

(** Every one of the 13 levels starts without two equal platforms. *)
Lemma load_level_platforms_NoDup (index : option Z) (self self' : LevelManager.t) :
  load_level index self = Some self' -> NoDup (platforms self').
Proof.
  unfold load_level, load_level_in. intros H.
  destruct (match index with Some i => _ | None => _ end) as [k|]; [|discriminate].
  cbn [Py.bind] in H.
  destruct (getitem LEVEL_BLUEPRINTS k) as [bp|] eqn:Hget; [|discriminate].
  cbn [Py.bind] in H. injection H as <-.
  rewrite load_blueprint_platforms. apply distinct_NoDup.
  apply getitem_In in Hget.
  assert (Hall : forallb
            (fun bp => distinct (snd (fold_left add_disappearing (Blueprint.disappear bp)
                                         ([], map Rect_ (Blueprint.platforms bp)))))
            LEVEL_BLUEPRINTS = true) by (vm_compute; reflexivity).
  rewrite forallb_forall in Hall. apply Hall. exact Hget.
Qed.

(** C6.  In a level loaded by [load_level], and after any number of
    [update_hazards] calls: when the player rectangle passed to
    [update_hazards] intersects the trigger zone of a disappearing
    platform, no rectangle equal to its target is left in the platforms
    list when that call returns, nor after any number of further calls. *)
Theorem disappearing_platform_gone_for_good
    (index : Z) (fresh loaded : LevelManager.t)
    (before after : list (float * Rect)) (dt : float) (player_rect : Rect)
    (reached fired later : LevelManager.t) (dp : DisappearingPlatform.t) :
  load_level (Some index) fresh = Some loaded ->
  run_hazards before loaded = Some reached ->
  In dp (disappearing_platforms reached) ->
  colliderect player_rect (DisappearingPlatform.trigger_rect dp) = true ->
  update_hazards dt player_rect reached = Some fired ->
  run_hazards after fired = Some later ->
  Py.contains Rect_eqb (DisappearingPlatform.target_platform_rect dp) (platforms later)
  = false.
Proof.
  intros Hload Hbefore Hdp Hhit Hfire Hafter.
  pose proof (load_level_platforms_NoDup _ _ _ Hload) as Hnd0.
  destruct (run_hazards_platforms _ _ _ Hbefore Hnd0) as [Hnd1 _].
  destruct (update_hazards_platforms _ _ _ _ Hfire Hnd1) as [Hnd2 [_ Hgone]].
  destruct (run_hazards_platforms _ _ _ Hafter Hnd2) as [_ Hincl].
  apply contains_false_not_In. intros Hin.
  apply (Hgone dp Hdp Hhit). apply Hincl. exact Hin.
Qed.

End DisappearingPlatforms.

Lemma disappearing_platform_gone_for_good_witness :
  exists fired later : LevelManager.t,
    LevelManager.update_hazards (libm := math.series) (1 / 60)%float
      samples.on_ledge samples.level1 = Some fired
    /\ LevelManager.run_hazards (libm := math.series)
         [((1 / 60)%float, mkRect 80 580 40 60)] fired = Some later
    /\ Py.contains Rect_eqb (DisappearingPlatform.target_platform_rect samples.ledge)
         (LevelManager.platforms samples.level1) = true
    /\ Py.contains Rect_eqb (DisappearingPlatform.target_platform_rect samples.ledge)
         (LevelManager.platforms later) = false.
Proof.
  destruct (LevelManager.update_hazards (libm := math.series) (1 / 60)%float
              samples.on_ledge samples.level1) as [fired|] eqn:Hfire;
    [|vm_compute in Hfire; discriminate].
  destruct (LevelManager.run_hazards (libm := math.series)
              [((1 / 60)%float, mkRect 80 580 40 60)] fired) as [later|] eqn:Hafter.
  - exists fired, later.
    split; [reflexivity|]. split; [exact Hafter|].
    split; [vm_compute; reflexivity|].
    apply (disappearing_platform_gone_for_good (libm := math.series)
             0 samples.fresh samples.level1 [] [((1 / 60)%float, mkRect 80 580 40 60)]
             (1 / 60)%float samples.on_ledge samples.level1 fired later samples.ledge).
    + vm_compute. reflexivity.
    + reflexivity.
    + vm_compute. left. reflexivity.
    + vm_compute. reflexivity.
    + exact Hfire.
    + exact Hafter.
  - exfalso.
    assert (Hrun : LevelManager.run_hazards (libm := math.series)
                     [((1 / 60)%float, samples.on_ledge);
                      ((1 / 60)%float, mkRect 80 580 40 60)] samples.level1 = None)
      by (cbn [LevelManager.run_hazards]; rewrite Hfire; exact Hafter).
    vm_compute in Hrun. discriminate.
Defined.

(** ** Loading a blueprint *)

Section BlueprintLoading.
Import LevelManager.




End BlueprintLoading.

(** ** The playing update *)

Section PlayingUpdate.
Import Game.
Context {libm : math.Libm}.

Lemma update_hazards_keeps_attempts (dt : float) (player_rect : Rect)
    (self self' : LevelManager.t) :
  LevelManager.update_hazards dt player_rect self = Some self' ->
  LevelManager.current_attempts self' = LevelManager.current_attempts self.
Proof.
  unfold LevelManager.update_hazards. intros H.
  do 5 loop_returned H.
  destruct (fold_left _ _ _). injection H as <-. reflexivity.
Qed.

Lemma handle_death_outcome (self : Game.t) (reason_position : Vector2) :
  (state (handle_death self reason_position) = DIALOGUE
   \/ state (handle_death self reason_position) = DEATH_MENU)
  /\ LevelManager.current_attempts (lm (handle_death self reason_position))
     = LevelManager.current_attempts (lm self) + 1.
Proof.
  unfold handle_death, LevelManager.increment_attempts.
  cbn [LevelManager.with_attempts LevelManager.current_attempts].
  destruct (_ >? 20); cbn [with_world state lm LevelManager.current_attempts]; auto.
Qed.

(** C9.  Once the player and the hazards of a frame have been updated,
    the death test decides first: when it holds the frame ends in
    [handle_death] (one more attempt, the dialogue or death-menu state)
    whether or not the player also touches the goal; [handle_victory] is
    the outcome only when the death test fails and the goal test holds. *)
Theorem death_takes_priority_over_victory
    (self : Game.t) (keys : Player.Keys) (db_reply : option (list (Z * Z)))
    (moved : Player.t) (jumped : bool) (world : LevelManager.t) :
  Player.update (Player.handle_input (player self) keys) (delta self)
                (LevelManager.platforms (lm self))
                (LevelManager.level_length (lm self)) = Some (moved, jumped) ->
  LevelManager.update_hazards (delta self) (Player.rect moved) (lm self) = Some world ->
  let frame :=
    with_world self (state self) world moved
               (if jumped && has_jump_sound self then [JumpSound] else []) in
  (death_check world moved = true ->
     _update_play self keys db_reply
       = Some (handle_death frame (Vector2_ (center (Player.rect moved))))
     /\ (state (handle_death frame (Vector2_ (center (Player.rect moved)))) = DIALOGUE
         \/ state (handle_death frame (Vector2_ (center (Player.rect moved))))
            = DEATH_MENU)
     /\ LevelManager.current_attempts
          (lm (handle_death frame (Vector2_ (center (Player.rect moved)))))
        = LevelManager.current_attempts (lm self) + 1)
  /\ (death_check world moved = false ->
      goal_check world moved = true ->
      _update_play self keys db_reply = handle_victory frame db_reply).
Proof.
  intros Hmove Hworld frame.
  unfold _update_play. rewrite Hmove. cbn [Py.bind]. rewrite Hworld. cbn [Py.bind].
  fold frame. split.
  - intros Hdead. rewrite Hdead.
    destruct (handle_death_outcome frame (Vector2_ (center (Player.rect moved))))
      as [Hstate Hattempts].
    split; [reflexivity|]. split; [exact Hstate|].
    rewrite Hattempts. unfold frame. cbn [with_world lm].
    rewrite (update_hazards_keeps_attempts _ _ _ _ Hworld). reflexivity.
  - intros Halive Hgoal. rewrite Halive, Hgoal. reflexivity.
Qed.

End PlayingUpdate.

Lemma death_takes_priority_over_victory_witness :
  Game.goal_check samples.trap_at_goal samples.at_goal_after = true
  /\ exists after : Game.t,
       Game._update_play (libm := math.series) samples.game samples.no_keys None
         = Some after
       /\ Game.state after = Game.DIALOGUE
       /\ LevelManager.current_attempts (Game.lm after) = 1.
Proof.
  split; [vm_compute; reflexivity|].
  destruct (death_takes_priority_over_victory (libm := math.series)
              samples.game samples.no_keys None samples.at_goal_after false
              samples.trap_at_goal) as [Hdeath _].
  - vm_compute. reflexivity.
  - vm_compute. reflexivity.
  - destruct Hdeath as [Hplay [_ Hattempts]].
    + vm_compute. reflexivity.
    + eexists. split; [exact Hplay|]. split; [vm_compute; reflexivity|].
      exact Hattempts.
Defined.

(** ** The repository's tests, run on the model *)

Section RepositoryTests.
Import LevelManager.

(** [test_star_rating_logic]: 2, 4 and 6 attempts. *)
Example test_star_rating_logic :
  calculate_star_rating (with_attempts samples.fresh 2) = 3
  /\ calculate_star_rating (with_attempts samples.fresh 4) = 2
  /\ calculate_star_rating (with_attempts samples.fresh 6) = 1.
Proof. repeat split. Qed.

(** [test_level_loading]. *)
Example test_level_loading :
  LevelManager.__init__ 1 = Some samples.fresh
  /\ load_level (Some 0) samples.fresh = Some samples.level1
  /\ level_id samples.level1 = 1
  /\ (0 < List.length (platforms samples.level1))%nat
  /\ (0 < List.length (oscillators samples.level1))%nat.
Proof. vm_compute. repeat split; repeat constructor. Qed.

(** [test_hazard_collision_check]: a rectangle just inside the first
    static trap of level 1, as [inflate_ip(-5, -5)] shrinks it. *)
Example test_hazard_collision_check :
  check_hazard_collision samples.level1 (inflate (Rect_ (R 10 1 2 1)) (-5) (-5)) = true.
Proof. vm_compute. reflexivity. Qed.

(** [test_crushing_hazard_slam]: the first update arms the crusher, the
    second moves it down. *)
Example test_crushing_hazard_slam :
  exists slammed : CrushingHazard.t,
    run CrushingHazard.update
        [(0.1%float, Some (mkRect 120 100 10 10));
         (0.1%float, Some (mkRect 120 100 10 10))]
        (CrushingHazard.__init__ (100, 0, 50, 50) 400 CrushingHazard.default_speed
           CrushingHazard.default_return_speed)
      = Some slammed
    /\ y (CrushingHazard.rect slammed) = 60.
Proof. eexists. vm_compute. split; reflexivity. Qed.

(** [test_chasing_hazard_logic]: the chaser moves toward the player's
    horizontal centre, by at most [speed * dt]. *)
Example test_chasing_hazard_logic :
  exists chaser : ChasingHazard.t,
    ChasingHazard.update (ChasingHazard.__init__ (100, 100) 100.0%float 5.0%float)
                         0.1%float (Some (mkRect 200 200 10 10))
      = Some chaser
    /\ vx (ChasingHazard.pos chaser) = 110%float
    /\ ChasingHazard.rect chaser = mkRect 90 100 40 40.
Proof. eexists. vm_compute. repeat split. Qed.

End RepositoryTests.

(** * Further properties *)

(** ** Chasers and crushers *)

Section Chasers.
Import ChasingHazard.

Lemma chaser_update_expired (self : ChasingHazard.t) (dt : float)
    (player_rect : option Rect) :
  is_active self = false -> update self dt player_rect = Some self.
Proof. intros H. unfold update. rewrite H. reflexivity. Qed.

Lemma chaser_run_expired (calls : list (float * option Rect)) (self : ChasingHazard.t) :
  is_active self = false -> run update calls self = Some self.
Proof.
  intros H. induction calls as [|[dt player_rect] rest IH]; cbn [run].
  - reflexivity.
  - rewrite (chaser_update_expired self dt player_rect H). exact IH.
Qed.

(** After an update that leaves the countdown at zero or below, a chaser
    is expired: it is inactive, collides with nothing, and no later update,
    whatever its time step and player rectangle, changes it. *)
Theorem chaser_expires_for_good
    (self mid : ChasingHazard.t) (dt : float) (player_rect : option Rect)
    (calls : list (float * option Rect)) :
  update self dt player_rect = Some mid ->
  (timer mid <=? 0)%float = true ->
  is_active mid = false
  /\ run update calls mid = Some mid
  /\ forall r : Rect, collides mid r = false.
Proof.
  intros Hupd Htimer.
  assert (Hoff : is_active mid = false).
  { unfold update in Hupd.
    destruct (is_active self) eqn:Hact; cbn [negb] in Hupd.
    - destruct (timer self - dt <=? 0)%float eqn:Hexp.
      + injection Hupd as <-. reflexivity.
      + destruct player_rect as [pr|].
        * destruct (truthy pr).
          -- int_returned Hupd. int_returned Hupd. injection Hupd as <-.
             cbn [timer] in Htimer. congruence.
          -- injection Hupd as <-. cbn [timer] in Htimer. congruence.
        * injection Hupd as <-. cbn [timer] in Htimer. congruence.
    - injection Hupd as <-. exact Hact. }
  split; [exact Hoff|]. split.
  - apply chaser_run_expired, Hoff.
  - intros r. unfold collides. rewrite Hoff. reflexivity.
Qed.

Lemma chaser_expires_for_good_witness :
  update samples.chaser 0.3%float (Some samples.on_trigger) = Some samples.chaser_expired
  /\ is_active samples.chaser = true
  /\ is_active samples.chaser_expired = false
  /\ run update [(0.1%float, Some samples.on_trigger); (0.1%float, None)]
         samples.chaser_expired = Some samples.chaser_expired.
Proof.
  assert (Hupd : update samples.chaser 0.3%float (Some samples.on_trigger)
                 = Some samples.chaser_expired) by (vm_compute; reflexivity).
  assert (Htimer : (timer samples.chaser_expired <=? 0)%float = true)
    by (vm_compute; reflexivity).
  destruct (chaser_expires_for_good samples.chaser samples.chaser_expired 0.3%float
              (Some samples.on_trigger)
              [(0.1%float, Some samples.on_trigger); (0.1%float, None)] Hupd Htimer)
    as [Hoff [Hstay _]].
  split; [exact Hupd|]. split; [reflexivity|]. split; [exact Hoff|exact Hstay].
Defined.

End Chasers.

Section Crushers.
Import CrushingHazard invariants.

Lemma crusher_update_on_rail (base : Rect) (slam : Z) (sp rsp : float)
    (self self' : CrushingHazard.t) (dt : float) (player_rect : option Rect) :
  0 <= slam ->
  (0 <=? sp)%float = true ->
  (0 <=? rsp)%float = true ->
  (0 <=? dt)%float = true ->
  crusher_on_rail base slam sp rsp self ->
  update self dt player_rect = Some self' ->
  crusher_on_rail base slam sp rsp self'.
Proof.
  unfold crusher_on_rail.
  intros Hslam Hsp Hrsp Hdt [Hb [Ht [Hs [Hr [Hx [Hw [Hh [Hy Hidle]]]]]]]] Hupd.
  unfold update in Hupd.
  destruct (state self) eqn:Hstate.
  - assert (Hkeep : self' = self \/ self' = with_rect_state self (rect self) SLAMMING).
    { destruct player_rect as [pr|]; [|injection Hupd as <-; auto].
      destruct (truthy pr && _); injection Hupd as <-; auto. }
    destruct Hkeep as [-> | ->].
    + rewrite Hstate. auto 10.
    + cbn. repeat split; try assumption; try lia. discriminate.
  - destruct (Py.int _) as [k|] eqn:Hk in Hupd; [|discriminate]. cbn [Py.bind] in Hupd.
    rewrite Hs in Hk. pose proof (int_of_nonneg_product _ _ _ Hsp Hdt Hk) as Hk0.
    cbn [set_y y] in Hupd. rewrite Ht in Hupd.
    destruct (Z.geb_spec (y (rect self) + k) (y base + slam));
      injection Hupd as <-; cbn; repeat split; try assumption; try lia; discriminate.
  - destruct (Py.int _) as [k|] eqn:Hk in Hupd; [|discriminate]. cbn [Py.bind] in Hupd.
    rewrite Hr in Hk. pose proof (int_of_nonneg_product _ _ _ Hrsp Hdt Hk) as Hk0.
    cbn [set_y y] in Hupd. rewrite Hb in Hupd.
    destruct (Z.leb_spec (y (rect self) - k) (y base));
      injection Hupd as <-; cbn; repeat split; try assumption; try lia; discriminate.
Qed.

(** A crusher built by [__init__] with a non-negative slam height and
    non-negative speeds, updated any number of times with non-negative time
    steps, never leaves its rail: its base rectangle, abscissa and size are
    as built, its y stays between the base position and the base position
    plus the slam height, and whenever it is idle it is back at the base
    position. *)
Theorem crusher_stays_on_rail
    (rect_tuple : RectTuple) (slam : Z) (sp rsp : float)
    (calls : list (float * option Rect)) (last : CrushingHazard.t) :
  0 <= slam ->
  (0 <=? sp)%float = true ->
  (0 <=? rsp)%float = true ->
  Forall (fun call => (0 <=? fst call)%float = true) calls ->
  run update calls (__init__ rect_tuple slam sp rsp) = Some last ->
  crusher_on_rail (Rect_ rect_tuple) slam sp rsp last.
Proof.
  intros Hslam Hsp Hrsp Hcalls.
  assert (Hinit : crusher_on_rail (Rect_ rect_tuple) slam sp rsp
                    (__init__ rect_tuple slam sp rsp)).
  { unfold crusher_on_rail, __init__. cbn. repeat split; lia. }
  revert Hinit. generalize (__init__ rect_tuple slam sp rsp) as self.
  induction Hcalls as [|[dt player_rect] rest Hdt Hrest IH]; intros self Hinv Hrun;
    cbn [run] in Hrun.
  - injection Hrun as <-. exact Hinv.
  - destruct (update self dt player_rect) as [mid|] eqn:Hupd; [|discriminate].
    apply (IH mid); [|exact Hrun].
    apply (crusher_update_on_rail _ _ _ _ self mid dt player_rect); assumption.
Qed.

Lemma crusher_stays_on_rail_witness :
  exists last : CrushingHazard.t,
    run update [(0.1%float, Some samples.under_crusher);
                (0.5%float, Some samples.under_crusher);
                (0.5%float, None); (0.5%float, None)] samples.crusher = Some last
    /\ state last = RETURNING
    /\ 0 <= y (rect last) <= 400.
Proof.
  destruct (run update [(0.1%float, Some samples.under_crusher);
                        (0.5%float, Some samples.under_crusher);
                        (0.5%float, None); (0.5%float, None)] samples.crusher)
    as [last|] eqn:Hrun; [|vm_compute in Hrun; discriminate].
  exists last. split; [reflexivity|].
  assert (Hrail : crusher_on_rail (Rect_ (100, 0, 50, 50)) 400 default_speed
                    default_return_speed last).
  { apply (crusher_stays_on_rail (100, 0, 50, 50) 400 default_speed default_return_speed
             [(0.1%float, Some samples.under_crusher);
              (0.5%float, Some samples.under_crusher);
              (0.5%float, None); (0.5%float, None)] last).
    - lia.
    - vm_compute. reflexivity.
    - vm_compute. reflexivity.
    - repeat constructor.
    - exact Hrun. }
  split.
  - vm_compute in Hrun. injection Hrun as <-. reflexivity.
  - destruct Hrail as [_ [_ [_ [_ [_ [_ [_ [Hy _]]]]]]]]. exact Hy.
Defined.

(** An idle crusher that sees no player rectangle within 100 pixels of
    its centre, horizontally, is left exactly as it is, for any time
    steps; its update cannot fail. *)
Theorem crusher_waits_for_player
    (self : CrushingHazard.t) (calls : list (float * option Rect)) :
  state self = IDLE ->
  Forall (fun call => out_of_reach self (snd call)) calls ->
  run update calls self = Some self.
Proof.
  intros Hidle Hcalls.
  induction Hcalls as [|[dt player_rect] rest Hfar Hrest IH]; cbn [run].
  - reflexivity.
  - assert (Hupd : update self dt player_rect = Some self).
    { unfold update. rewrite Hidle. cbn [snd] in Hfar. unfold out_of_reach in Hfar.
      destruct player_rect as [pr|]; [|reflexivity].
      destruct Hfar as [Hempty|Hfar].
      - rewrite Hempty. reflexivity.
      - destruct (Z.ltb_spec (Z.abs (centerx pr - centerx (rect self))) 100); [lia|].
        rewrite andb_false_r. reflexivity. }
    rewrite Hupd. exact IH.
Qed.

Lemma crusher_waits_for_player_witness :
  run update [(0.1%float, None); (0.1%float, Some (mkRect 400 100 40 60))]
      samples.crusher
  = Some samples.crusher.
Proof.
  apply (crusher_waits_for_player samples.crusher).
  - reflexivity.
  - constructor; [exact I|]. constructor; [|constructor].
    right. vm_compute. discriminate.
Defined.

End Crushers.

(** ** The generous hitbox *)

Section GenerousHitbox.
Import LevelManager invariants.

(** Shrinking a rectangle of at least 8 by 8 pixels by 4 pixels on each
    side leaves it inside itself: what touches the shrunk rectangle
    touches the rectangle. *)
Lemma colliderect_inflate_generous (hazard r : Rect) :
  8 <= width r ->
  8 <= height r ->
  colliderect hazard (inflate r (-8) (-8)) = true ->
  colliderect hazard r = true.
Proof.
  unfold colliderect, inflate. cbn [x y width height].
  intros Hw Hh.
  change (Z.quot (-8) 2) with (-4).
  destruct (width hazard =? 0); [discriminate|].
  destruct (height hazard =? 0); [discriminate|].
  cbn [orb].
  destruct (Z.eqb_spec (width r + -8) 0); [discriminate|].
  destruct (Z.eqb_spec (height r + -8) 0); [discriminate|].
  destruct (Z.eqb_spec (width r) 0); [lia|].
  destruct (Z.eqb_spec (height r) 0); [lia|].
  cbn [orb]. rewrite !andb_true_iff, !Z.ltb_lt.
  intros [[[H1 H2] H3] H4]. repeat split; lia.
Qed.

Lemma existsb_In_map {A : Type} (hit : A -> bool) (rect_of : A -> Rect)
    (alive : A -> bool) (r : Rect) (xs : list A) :
  (forall a, hit a = true -> alive a = true /\ colliderect (rect_of a) r = true) ->
  existsb hit xs = true ->
  exists hz, In hz (map rect_of (filter alive xs)) /\ colliderect hz r = true.
Proof.
  intros Hhit Hex. apply existsb_exists in Hex. destruct Hex as [a [Hin Ha]].
  destruct (Hhit a Ha) as [Halive Hcol].
  exists (rect_of a). split; [|exact Hcol].
  apply in_map, filter_In. split; assumption.
Qed.

(** Whenever [check_hazard_collision] reports a hit on a rectangle of at
    least 8 by 8 pixels, the rectangle itself, not only its shrunk copy,
    overlaps a static trap, an oscillator, an axe, a crusher, an active
    spike or an active chaser: hidden spikes and expired chasers never
    kill, and the generous hitbox never reaches beyond the rectangle. *)
Theorem hazard_hit_touches_a_lethal_rect (self : LevelManager.t) (r : Rect) :
  8 <= width r ->
  8 <= height r ->
  check_hazard_collision self r = true ->
  exists hz : Rect, In hz (lethal_rects self) /\ colliderect hz r = true.
Proof.
  intros Hw Hh. unfold check_hazard_collision, lethal_rects.
  rewrite !orb_true_iff.
  intros [[[[[H|H]|H]|H]|H]|H].
  - apply existsb_exists in H. destruct H as [trap [Hin Hcol]].
    exists trap. split; [|exact Hcol]. apply in_or_app. left. exact Hin.
  - destruct (existsb_In_map _ OscillatingHazard.rect (fun _ => true) r _
                (fun a Ha => conj eq_refl
                   (colliderect_inflate_generous _ r Hw Hh Ha)) H) as [hz [Hin Hcol]].
    exists hz. split; [|exact Hcol].
    apply in_or_app; right. apply in_or_app; left.
    rewrite forallb_filter_id in Hin; [exact Hin|].
    apply forallb_forall. intros; reflexivity.
  - assert (Hspike : forall a, TriggerSpike.collides a r = true ->
                       TriggerSpike.active a = true
                       /\ colliderect (TriggerSpike.rect a) r = true).
    { intros a Ha. unfold TriggerSpike.collides in Ha.
      apply andb_true_iff in Ha. destruct Ha as [Hact Hcol]. split; [exact Hact|].
      apply (colliderect_inflate_generous _ r Hw Hh Hcol). }
    destruct (existsb_In_map _ TriggerSpike.rect TriggerSpike.active r _ Hspike H)
      as [hz [Hin Hcol]].
    exists hz. split; [|exact Hcol].
    do 2 (apply in_or_app; right). apply in_or_app; left. exact Hin.
  - destruct (existsb_In_map _ SwingingAxe.rect (fun _ => true) r _
                (fun a Ha => conj eq_refl
                   (colliderect_inflate_generous _ r Hw Hh Ha)) H) as [hz [Hin Hcol]].
    exists hz. split; [|exact Hcol].
    do 3 (apply in_or_app; right). apply in_or_app; left.
    rewrite forallb_filter_id in Hin; [exact Hin|].
    apply forallb_forall. intros; reflexivity.
  - assert (Hchaser : forall a, ChasingHazard.collides a r = true ->
                        ChasingHazard.is_active a = true
                        /\ colliderect (ChasingHazard.rect a) r = true).
    { intros a Ha. unfold ChasingHazard.collides in Ha.
      apply andb_true_iff in Ha. destruct Ha as [Hact Hcol]. split; [exact Hact|].
      apply (colliderect_inflate_generous _ r Hw Hh Hcol). }
    destruct (existsb_In_map _ ChasingHazard.rect ChasingHazard.is_active r _ Hchaser H)
      as [hz [Hin Hcol]].
    exists hz. split; [|exact Hcol].
    do 4 (apply in_or_app; right). apply in_or_app; left. exact Hin.
  - apply existsb_exists in H. destruct H as [crush [Hin Hcol]].
    exists (CrushingHazard.rect crush). split; [|exact Hcol].
    do 5 (apply in_or_app; right). apply in_map. exact Hin.
Qed.

Lemma hazard_hit_touches_a_lethal_rect_witness :
  exists hz : Rect,
    In hz (lethal_rects samples.level1)
    /\ colliderect hz (inflate (Rect_ (R 10 1 2 1)) (-5) (-5)) = true.
Proof.
  apply (hazard_hit_touches_a_lethal_rect samples.level1).
  - vm_compute. discriminate.
  - vm_compute. discriminate.
  - vm_compute. reflexivity.
Defined.

End GenerousHitbox.

(** ** The level life cycle *)

Section LevelLifeCycle.
Import LevelManager invariants.

Lemma add_disappearing_loop (entries : list DisEntry) :
  forall (dps : list DisappearingPlatform.t) (plats : list Rect),
    exists extra : list Rect,
      fold_left add_disappearing entries (dps, plats)
      = (dps ++ map (fun entry =>
                       DisappearingPlatform.mk (Rect_ (d_trigger entry))
                         (Rect_ (d_platform entry)) false) entries,
         plats ++ extra)
      /\ (forall entry, In entry entries -> In (Rect_ (d_platform entry)) (plats ++ extra))
      /\ incl extra (map (fun entry => Rect_ (d_platform entry)) entries).
Proof.
  induction entries as [|entry rest IH]; intros dps plats; cbn [fold_left map].
  - exists []. rewrite !app_nil_r. repeat split; [intros e []|apply incl_refl].
  - unfold add_disappearing at 2. cbn [DisappearingPlatform.__init__].
    destruct (Py.contains Rect_eqb (Rect_ (d_platform entry)) plats) eqn:Hin;
      cbn [negb].
    + destruct (IH (dps ++ [DisappearingPlatform.__init__ (d_trigger entry)
                              (Rect_ (d_platform entry))]) plats)
        as [extra [Hfold [Hall Hincl]]].
      exists extra. rewrite Hfold, <- app_assoc. repeat split.
      * intros e [<-|He]; [|apply Hall, He].
        apply in_or_app. left. apply contains_In, Hin.
      * apply incl_tl, Hincl.
    + destruct (IH (dps ++ [DisappearingPlatform.__init__ (d_trigger entry)
                              (Rect_ (d_platform entry))])
                   (plats ++ [Rect_ (d_platform entry)]))
        as [extra [Hfold [Hall Hincl]]].
      exists (Rect_ (d_platform entry) :: extra).
      rewrite Hfold, <- !app_assoc. cbn [app]. repeat split.
      * intros e [<-|He].
        -- apply in_or_app. right. left. reflexivity.
        -- specialize (Hall e He). rewrite <- app_assoc in Hall. exact Hall.
      * apply incl_cons; [left; reflexivity|apply incl_tl, Hincl].
Qed.

(** What [load_level] builds from a blueprint, whatever the blueprint:
    the platforms are the blueprint's, followed by disappearing targets
    only; every disappearing platform starts present, with its target
    among the platforms; there is one hazard per entry; spikes start
    inactive, 40 pixels below their target; chasers start active with
    their full time; crushers start idle at their base; and the attempt
    counter is the one the manager had. *)
Theorem load_blueprint_builds_level
    (self : LevelManager.t) (k : Z) (bp : Blueprint.t) :
  (exists extra : list Rect,
     platforms (load_blueprint self k bp) = map Rect_ (Blueprint.platforms bp) ++ extra
     /\ incl extra (map (fun entry => Rect_ (d_platform entry)) (Blueprint.disappear bp)))
  /\ List.length (disappearing_platforms (load_blueprint self k bp))
     = List.length (Blueprint.disappear bp)
  /\ Forall (fun dp => DisappearingPlatform.is_removed dp = false
                       /\ In (DisappearingPlatform.target_platform_rect dp)
                             (platforms (load_blueprint self k bp)))
            (disappearing_platforms (load_blueprint self k bp))
  /\ List.length (oscillators (load_blueprint self k bp))
     = List.length (Blueprint.oscillators bp)
  /\ List.length (swing_axes (load_blueprint self k bp))
     = List.length (Blueprint.axes bp)
  /\ List.length (trigger_spikes (load_blueprint self k bp))
     = List.length (Blueprint.triggers bp)
  /\ Forall (fun spike => TriggerSpike.active spike = false
                          /\ y (TriggerSpike.rect spike) = TriggerSpike.target_y spike + 40)
            (trigger_spikes (load_blueprint self k bp))
  /\ List.length (chasers (load_blueprint self k bp))
     = List.length (Blueprint.chasers bp)
  /\ Forall (fun chaser => ChasingHazard.is_active chaser = true
                           /\ ChasingHazard.timer chaser = ChasingHazard.max_time chaser)
            (chasers (load_blueprint self k bp))
  /\ List.length (crushing_hazards (load_blueprint self k bp))
     = List.length (Blueprint.crushers bp)
  /\ Forall (fun crush => CrushingHazard.state crush = CrushingHazard.IDLE
                          /\ CrushingHazard.rect crush = CrushingHazard.base_rect crush)
            (crushing_hazards (load_blueprint self k bp))
  /\ current_attempts (load_blueprint self k bp) = current_attempts self.
Proof.
  unfold load_blueprint.
  destruct (add_disappearing_loop (Blueprint.disappear bp) []
              (map Rect_ (Blueprint.platforms bp))) as [extra [Hfold [Hall Hincl]]].
  rewrite Hfold.
  cbn [platforms disappearing_platforms oscillators swing_axes trigger_spikes chasers
       crushing_hazards current_attempts app].
  rewrite !length_map.
  repeat split.
  - exists extra. split; [reflexivity|exact Hincl].
  - apply Forall_forall. intros dp Hdp. apply in_map_iff in Hdp.
    destruct Hdp as [entry [<- Hentry]]. split; [reflexivity|]. apply Hall, Hentry.
  - apply Forall_forall. intros spike Hs. apply in_map_iff in Hs.
    destruct Hs as [entry [<- _]]. split; reflexivity.
  - apply Forall_forall. intros chaser Hc. apply in_map_iff in Hc.
    destruct Hc as [entry [<- _]]. split; reflexivity.
  - apply Forall_forall. intros crush Hc. apply in_map_iff in Hc.
    destruct Hc as [entry [<- _]]. split; reflexivity.
Qed.

Lemma load_blueprint_attempts_only (s1 s2 : LevelManager.t) (k : Z) (bp : Blueprint.t) :
  current_attempts s1 = current_attempts s2 ->
  load_blueprint s1 k bp = load_blueprint s2 k bp.
Proof.
  intros H. unfold load_blueprint.
  destruct (fold_left add_disappearing _ _). rewrite H. reflexivity.
Qed.

Lemma load_blueprint_index (self : LevelManager.t) (k : Z) (bp : Blueprint.t) :
  current_level_index (load_blueprint self k bp) = k
  /\ current_attempts (load_blueprint self k bp) = current_attempts self.
Proof.
  unfold load_blueprint.
  destruct (fold_left add_disappearing _ _). split; reflexivity.
Qed.

(** A loaded level, spelled out: the blueprint at its own index, loaded
    with its own attempt counter. *)
Lemma load_level_loaded (index : option Z) (self loaded : LevelManager.t) :
  load_level index self = Some loaded ->
  exists bp,
    getitem LEVEL_BLUEPRINTS (current_level_index loaded) = Some bp
    /\ loaded = load_blueprint loaded (current_level_index loaded) bp
    /\ current_attempts loaded = current_attempts self.
Proof.
  unfold load_level, load_level_in. intros H.
  destruct (match index with Some i => _ | None => _ end) as [k|]; [|discriminate].
  cbn [Py.bind] in H.
  destruct (getitem LEVEL_BLUEPRINTS k) as [bp|] eqn:Hget; [|discriminate].
  cbn [Py.bind] in H. injection H as <-.
  destruct (load_blueprint_index self k bp) as [Hk Ha].
  exists bp. rewrite Hk. split; [exact Hget|]. split; [|exact Ha].
  apply load_blueprint_attempts_only. symmetry. exact Ha.
Qed.

Lemma mapM_length {A B : Type} (f : A -> option B) (xs : list A) :
  forall ys, Py.mapM f xs = Some ys -> List.length ys = List.length xs.
Proof.
  induction xs as [|a rest IH]; cbn [Py.mapM]; intros ys H.
  - injection H as <-. reflexivity.
  - destruct (f a); [|discriminate].
    destruct (Py.mapM f rest) as [ys'|]; [|discriminate].
    injection H as <-. cbn [List.length]. rewrite (IH ys' eq_refl). reflexivity.
Qed.

Lemma update_disappearing_loop_frame {libm : math.Libm} (dt : float) (player_rect : Rect)
    (dps : list DisappearingPlatform.t) :
  forall (acc : list DisappearingPlatform.t) (plats : list Rect)
         (dps' : list DisappearingPlatform.t) (plats' : list Rect),
    fold_left (update_disappearing dt player_rect) dps (acc, plats) = (dps', plats') ->
    incl plats' plats
    /\ (List.length plats' <= List.length plats)%nat
    /\ List.length dps' = (List.length acc + List.length dps)%nat.
Proof.
  induction dps as [|dp rest IH]; intros acc plats dps' plats' Hfold;
    cbn [fold_left] in Hfold.
  - injection Hfold as <- <-. repeat split; [apply incl_refl|lia|cbn; lia].
  - unfold update_disappearing at 2 in Hfold.
    destruct (DisappearingPlatform.is_removed _);
      [destruct (Py.contains Rect_eqb _ plats) eqn:Hin|];
      destruct (IH _ _ _ _ Hfold) as [Hincl [Hlen Hdps]];
      rewrite length_app in Hdps; cbn [List.length] in Hdps |- *;
      repeat split; try lia; try exact Hincl.
    + apply (incl_tran Hincl), remove_incl.
    + assert (Hrm : forall r rs, Py.contains Rect_eqb r rs = true ->
                 S (List.length (Py.remove Rect_eqb r rs)) = List.length rs).
      { intros r rs. induction rs as [|q qs IHq]; cbn [Py.contains Py.remove];
          [discriminate|].
        destruct (Rect_eqb q r); [reflexivity|].
        intros Hc. cbn [List.length]. rewrite (IHq Hc). reflexivity. }
      specialize (Hrm _ _ Hin). lia.
Qed.

Lemma update_hazards_frame {libm : math.Libm} (dt : float) (player_rect : Rect)
    (self self' : LevelManager.t) :
  update_hazards dt player_rect self = Some self' ->
  same_level_frame self self'
  /\ incl (platforms self') (platforms self)
  /\ (List.length (platforms self') <= List.length (platforms self))%nat.
Proof.
  unfold update_hazards. intros H.
  destruct (Py.mapM _ (oscillators self)) as [o|] eqn:Ho; [|discriminate].
  cbn [Py.bind] in H.
  destruct (Py.mapM _ (trigger_spikes self)) as [t|] eqn:Ht; [|discriminate].
  cbn [Py.bind] in H.
  destruct (Py.mapM _ (swing_axes self)) as [a|] eqn:Ha; [|discriminate].
  cbn [Py.bind] in H.
  destruct (Py.mapM _ (chasers self)) as [c|] eqn:Hc; [|discriminate].
  cbn [Py.bind] in H.
  destruct (Py.mapM _ (crushing_hazards self)) as [k|] eqn:Hk; [|discriminate].
  cbn [Py.bind] in H.
  destruct (fold_left _ _ _) as [dps' plats'] eqn:Hfold.
  injection H as <-.
  destruct (update_disappearing_loop_frame _ _ _ _ _ _ _ Hfold) as [Hincl [Hlen Hdps]].
  unfold same_level_frame.
  cbn [current_level_index level_id static_traps goal_rect spawn_point current_attempts
       level_length oscillators trigger_spikes swing_axes chasers crushing_hazards
       disappearing_platforms platforms].
  rewrite (mapM_length _ _ _ Ho), (mapM_length _ _ _ Ht), (mapM_length _ _ _ Ha),
    (mapM_length _ _ _ Hc), (mapM_length _ _ _ Hk).
  repeat split; try assumption; try exact Hdps.
Qed.

(** Over any number of [update_hazards] calls a level keeps its index,
    id, static traps, goal, spawn point, length and attempt counter, and
    as many hazards of each kind; the platforms list never gains a
    rectangle. *)
Theorem update_hazards_keeps_the_level {libm : math.Libm}
    (calls : list (float * Rect)) :
  forall self last : LevelManager.t,
    run_hazards calls self = Some last ->
    same_level_frame self last
    /\ incl (platforms last) (platforms self)
    /\ (List.length (platforms last) <= List.length (platforms self))%nat.
Proof.
  induction calls as [|[dt player_rect] rest IH]; intros self last Hrun;
    cbn [run_hazards] in Hrun.
  - injection Hrun as <-. unfold same_level_frame.
    repeat split; [apply incl_refl|lia].
  - destruct (update_hazards dt player_rect self) as [mid|] eqn:Hupd; [|discriminate].
    destruct (update_hazards_frame _ _ _ _ Hupd) as [Hf1 [Hi1 Hl1]].
    destruct (IH _ _ Hrun) as [Hf2 [Hi2 Hl2]].
    split; [|split; [apply (incl_tran Hi2 Hi1)|lia]].
    unfold same_level_frame in *.
    repeat match goal with H : _ /\ _ |- _ => destruct H end.
    repeat split; congruence.
Qed.

Lemma update_hazards_keeps_the_level_witness :
  exists last : LevelManager.t,
    run_hazards (libm := math.series)
      [((1 / 60)%float, samples.on_ledge); ((1 / 60)%float, mkRect 80 580 40 60)]
      samples.level1 = Some last
    /\ level_id last = 1
    /\ (List.length (platforms last) <= 7)%nat.
Proof.
  destruct (run_hazards (libm := math.series)
              [((1 / 60)%float, samples.on_ledge); ((1 / 60)%float, mkRect 80 580 40 60)]
              samples.level1) as [last|] eqn:Hrun;
    [|vm_compute in Hrun; discriminate].
  exists last. split; [reflexivity|].
  destruct (update_hazards_keeps_the_level (libm := math.series) _ _ _ Hrun)
    as [Hframe [_ Hlen]].
  destruct Hframe as [_ [Hid _]].
  split; [rewrite Hid; reflexivity|exact Hlen].
Defined.

Lemma run_hazards_keeps_index {libm : math.Libm} (calls : list (float * Rect)) :
  forall self last : LevelManager.t,
    run_hazards calls self = Some last ->
    current_level_index last = current_level_index self
    /\ current_attempts last = current_attempts self.
Proof.
  induction calls as [|[dt player_rect] rest IH]; intros self last Hrun;
    cbn [run_hazards] in Hrun.
  - injection Hrun as <-. split; reflexivity.
  - destruct (update_hazards dt player_rect self) as [mid|] eqn:Hupd; [|discriminate].
    destruct (update_hazards_frame _ _ _ _ Hupd) as [Hframe _].
    destruct Hframe as [Hidx [_ [_ [_ [_ [Hatt _]]]]]].
    destruct (IH _ _ Hrun) as [Hidx' Hatt']. split; congruence.
Qed.

(** Reloading restores the level: after [load_level(index=i)] and any
    number of [update_hazards] calls, [load_level()] returns exactly the
    level as it was first loaded, vanished platforms and hazard positions
    included. *)
Theorem reload_restores_the_level {libm : math.Libm}
    (i : Z) (self loaded last : LevelManager.t) (calls : list (float * Rect)) :
  load_level (Some i) self = Some loaded ->
  run_hazards calls loaded = Some last ->
  load_level None last = Some loaded.
Proof.
  intros Hload Hrun.
  destruct (load_level_loaded _ _ _ Hload) as [bp [Hget [Heq _]]].
  destruct (run_hazards_keeps_index _ _ _ Hrun) as [Hidx Hatt].
  unfold load_level, load_level_in. cbn [Py.bind].
  rewrite Hidx, Hget. cbn [Py.bind].
  rewrite Heq at 2. f_equal. apply load_blueprint_attempts_only. exact Hatt.
Qed.

Lemma reload_restores_the_level_witness :
  exists last : LevelManager.t,
    run_hazards (libm := math.series) [((1 / 60)%float, samples.on_ledge)] samples.level1
      = Some last
    /\ platforms last <> platforms samples.level1
    /\ load_level None last = Some samples.level1.
Proof.
  destruct (run_hazards (libm := math.series) [((1 / 60)%float, samples.on_ledge)]
              samples.level1) as [last|] eqn:Hrun;
    [|vm_compute in Hrun; discriminate].
  exists last. split; [reflexivity|]. split.
  - vm_compute in Hrun. injection Hrun as <-. vm_compute. discriminate.
  - apply (reload_restores_the_level (libm := math.series) 0 samples.fresh
             samples.level1 last [((1 / 60)%float, samples.on_ledge)]).
    + vm_compute. reflexivity.
    + exact Hrun.
Defined.

Lemma advance_level_loads_next (self : LevelManager.t) :
  exists bp,
    getitem LEVEL_BLUEPRINTS ((current_level_index self + 1) mod 13) = Some bp
    /\ advance_level self
       = Some (load_blueprint self ((current_level_index self + 1) mod 13) bp).
Proof.
  assert (Hr : 0 <= (current_level_index self + 1) mod 13 < 13)
    by (apply Z.mod_pos_bound; lia).
  destruct (getitem_in_range LEVEL_BLUEPRINTS _ Hr) as [bp [Hget _]].
  exists bp. split; [exact Hget|].
  unfold advance_level, load_level, load_level_in.
  change len_blueprints with 13.
  cbn [Py.bind current_level_index]. rewrite Hget. cbn [Py.bind].
  apply (f_equal Some). apply load_blueprint_attempts_only. reflexivity.
Qed.

Lemma advance_n_index (n : nat) :
  forall self : LevelManager.t,
    exists bp,
      getitem LEVEL_BLUEPRINTS ((current_level_index self + Z.of_nat n) mod 13) = Some bp
      /\ (n <> O ->
          advance_n n self
          = Some (load_blueprint self ((current_level_index self + Z.of_nat n) mod 13) bp)).
Proof.
  induction n as [|n IH]; intros self.
  - assert (Hr : 0 <= (current_level_index self + Z.of_nat 0) mod 13 < 13)
      by (apply Z.mod_pos_bound; lia).
    destruct (getitem_in_range LEVEL_BLUEPRINTS _ Hr) as [bp [Hget _]].
    exists bp. split; [exact Hget|]. congruence.
  - destruct (advance_level_loads_next self) as [bp1 [Hget1 Hadv]].
    destruct (IH (load_blueprint self ((current_level_index self + 1) mod 13) bp1))
      as [bp [Hget Hrest]].
    destruct (load_blueprint_index self ((current_level_index self + 1) mod 13) bp1)
      as [Hidx Hatt].
    rewrite Hidx in Hget, Hrest.
    assert (Hmod : ((current_level_index self + 1) mod 13 + Z.of_nat n) mod 13
                   = (current_level_index self + Z.of_nat (S n)) mod 13).
    { rewrite Zplus_mod_idemp_l. f_equal. lia. }
    rewrite Hmod in Hget, Hrest.
    exists bp. split; [exact Hget|]. intros _.
    cbn [advance_n]. rewrite Hadv.
    destruct n as [|n'].
    + cbn [advance_n]. change (Z.of_nat 1) with 1 in Hget |- *.
      rewrite Hget1 in Hget. injection Hget as <-. reflexivity.
    + rewrite Hrest by discriminate. apply (f_equal Some).
      apply load_blueprint_attempts_only. exact Hatt.
Qed.

(** [advance_level] walks the 13 levels in a circle: one call loads the
    level at the next index modulo 13, whose id is that index plus one,
    and 13 calls in a row bring a loaded level back exactly as it was
    loaded. *)
Theorem advance_level_cycles (i : Z) (self loaded : LevelManager.t) :
  load_level (Some i) self = Some loaded ->
  (exists next : LevelManager.t,
     advance_level loaded = Some next
     /\ current_level_index next = (current_level_index loaded + 1) mod 13
     /\ level_id next = current_level_index next + 1
     /\ current_attempts next = current_attempts loaded)
  /\ advance_n 13 loaded = Some loaded.
Proof.
  intros Hload.
  destruct (load_level_loaded _ _ _ Hload) as [bp0 [Hget0 [Heq0 _]]].
  split.
  - destruct (advance_level_loads_next loaded) as [bp [Hget Hadv]].
    destruct (load_blueprint_index loaded ((current_level_index loaded + 1) mod 13) bp)
      as [Hidx Hatt].
    eexists. split; [exact Hadv|]. split; [exact Hidx|]. split; [|exact Hatt].
    rewrite Hidx.
    assert (Hid : level_id (load_blueprint loaded
                              ((current_level_index loaded + 1) mod 13) bp)
                  = Blueprint.id bp).
    { unfold load_blueprint. destruct (fold_left add_disappearing _ _). reflexivity. }
    rewrite Hid.
    assert (Hr : 0 <= (current_level_index loaded + 1) mod 13 < 13)
      by (apply Z.mod_pos_bound; lia).
    revert Hget. generalize ((current_level_index loaded + 1) mod 13) Hr.
    intros k Hk Hget.
    assert (Hcases : k = 0 \/ k = 1 \/ k = 2 \/ k = 3 \/ k = 4 \/ k = 5 \/ k = 6
                     \/ k = 7 \/ k = 8 \/ k = 9 \/ k = 10 \/ k = 11 \/ k = 12) by lia.
    repeat (destruct Hcases as [->|Hcases];
            [vm_compute in Hget; injection Hget as <-; reflexivity|]).
    subst k. vm_compute in Hget. injection Hget as <-. reflexivity.
  - destruct (advance_n_index 13 loaded) as [bp [Hget Hrun]].
    rewrite Hrun by discriminate.
    assert (Hk : (current_level_index loaded + Z.of_nat 13) mod 13
                 = current_level_index loaded).
    { assert (Hin : 0 <= current_level_index loaded < 13).
      { clear - Hload.
        unfold load_level, load_level_in, Py.mod_ in Hload.
        change (Z.of_nat (List.length LEVEL_BLUEPRINTS)) with 13 in Hload.
        change (13 =? 0) with false in Hload. cbn [Py.bind] in Hload.
        destruct (getitem LEVEL_BLUEPRINTS (i mod 13)) as [bp|]; [|discriminate].
        cbn [Py.bind] in Hload. injection Hload as <-.
        destruct (load_blueprint_index self (i mod 13) bp) as [Hidx _].
        rewrite Hidx. apply Z.mod_pos_bound. lia. }
      replace (Z.of_nat 13) with (1 * 13) by lia.
      rewrite Z_mod_plus_full. apply Z.mod_small. exact Hin. }
    rewrite Hk in Hget |- *. rewrite Hget0 in Hget. injection Hget as <-.
    apply (f_equal Some). symmetry. exact Heq0.
Qed.

Lemma advance_level_cycles_witness :
  (exists next : LevelManager.t,
     advance_level samples.level1 = Some next
     /\ current_level_index next = 1
     /\ level_id next = 2
     /\ current_attempts next = 0)
  /\ advance_n 13 samples.level1 = Some samples.level1.
Proof.
  destruct (advance_level_cycles 0 samples.fresh samples.level1) as [[next Hnext] Hcycle].
  - vm_compute. reflexivity.
  - split; [|exact Hcycle].
    exists next. destruct Hnext as [Hadv [Hidx [Hid Hatt]]].
    split; [exact Hadv|].
    assert (Hone : current_level_index next = 1) by (rewrite Hidx; reflexivity).
    split; [exact Hone|]. split; [rewrite Hid, Hone; reflexivity|].
    rewrite Hatt. reflexivity.
Defined.

End LevelLifeCycle.

(** ** The player's frame *)

Section PlayerFrame.
Import Player invariants.

Lemma float_ltb_leb (a b : float) :
  (a <? b)%float = true -> (a <=? b)%float = true.
Proof.
  rewrite ltb_spec, leb_spec. unfold SFltb, SFleb.
  destruct (SFcompare (Prim2SF a) (Prim2SF b)) as [[| |]|]; congruence.
Qed.

Lemma fmax_zero_nonneg (v : float) : (0 <=? Py.fmax 0.0 v)%float = true.
Proof.
  unfold Py.fmax. destruct (0.0 <? v)%float eqn:Hv.
  - apply float_ltb_leb, Hv.
  - reflexivity.
Qed.

Lemma resolve_one_keeps_timers (axis : string) (self : Player.t) (plat : Rect) :
  coyote_timer (resolve_one axis self plat) = coyote_timer self
  /\ jump_buffer_timer (resolve_one axis self plat) = jump_buffer_timer self
  /\ jumps_left (resolve_one axis self plat) = jumps_left self.
Proof.
  unfold resolve_one.
  destruct (colliderect (rect self) plat); [|repeat split].
  destruct (String.eqb axis "x"); [repeat split|].
  destruct (0 <? vy (vel self))%float; [repeat split|].
  destruct (vy (vel self) <? 0)%float; repeat split.
Qed.

Lemma resolve_collisions_keeps_timers (axis : string) (platforms : list Rect) :
  forall self : Player.t,
    coyote_timer (_resolve_collisions axis platforms self) = coyote_timer self
    /\ jump_buffer_timer (_resolve_collisions axis platforms self)
       = jump_buffer_timer self
    /\ jumps_left (_resolve_collisions axis platforms self) = jumps_left self.
Proof.
  unfold _resolve_collisions.
  induction platforms as [|plat rest IH]; intros self; cbn [fold_left].
  - repeat split.
  - destruct (IH (resolve_one axis self plat)) as [Hc [Hb Hj]].
    destruct (resolve_one_keeps_timers axis self plat) as [Hc1 [Hb1 Hj1]].
    repeat split; congruence.
Qed.

Lemma resolve_one_resting (platforms : list Rect) (self : Player.t) (plat : Rect) :
  In plat platforms ->
  resting platforms self ->
  resting platforms (resolve_one "y" self plat).
Proof.
  intros Hin Hrest. unfold resolve_one.
  destruct (colliderect (rect self) plat); [|exact Hrest].
  cbn [String.eqb Ascii.eqb Bool.eqb].
  destruct (0 <? vy (vel self))%float eqn:Hdown.
  - intros _. split; [reflexivity|].
    exists plat. split; [exact Hin|].
    unfold with_on_ground, with_vel, with_rect, set_bottom, set_y, bottom, top.
    cbn [rect y height]. lia.
  - destruct (vy (vel self) <? 0)%float eqn:Hup; [|exact Hrest].
    intros Hground. cbn [with_vel with_rect on_ground] in Hground.
    destruct (Hrest Hground) as [Hvy _].
    rewrite Hvy in Hup. vm_compute in Hup. discriminate.
Qed.

Lemma resolve_collisions_resting (platforms : list Rect) :
  forall (rest : list Rect) (self : Player.t),
    incl rest platforms ->
    resting platforms self ->
    resting platforms (_resolve_collisions "y" rest self).
Proof.
  unfold _resolve_collisions.
  induction rest as [|plat rest IH]; intros self Hincl Hrest; cbn [fold_left].
  - exact Hrest.
  - apply IH.
    + intros q Hq. apply Hincl. right. exact Hq.
    + apply resolve_one_resting; [apply Hincl; left; reflexivity|exact Hrest].
Qed.

(** A player that [update] leaves on the ground stands exactly on top of
    one of the platforms, at rest vertically, with both jumps and the
    coyote window restored; no jump started in that frame. *)
Theorem update_lands_on_a_platform
    (self self' : Player.t) (dt : float) (platforms : list Rect) (level_length : Z)
    (jumped : bool) :
  update self dt platforms level_length = Some (self', jumped) ->
  on_ground self' = true ->
  jumped = false
  /\ vy (vel self') = Py.float 0
  /\ jumps_left self' = 2
  /\ coyote_timer self' = config.COYOTE_TIME
  /\ exists plat, In plat platforms /\ bottom (rect self') = top plat.
Proof.
  unfold update. intros H Hground.
  int_returned H. int_returned H.
  match type of H with
  | context [_resolve_collisions "y" platforms ?s7] =>
      pose proof (resolve_collisions_resting platforms platforms s7 (incl_refl _)) as Hrest;
      set (s8 := _resolve_collisions "y" platforms s7) in *
  end.
  assert (Hstart : resting platforms s8).
  { apply Hrest. intros Habs. cbn [with_on_ground on_ground] in Habs. discriminate. }
  clear Hrest.
  destruct (on_ground s8) eqn:Hs8.
  - destruct (Hstart Hs8) as [Hvy Hplat].
    unfold _consume_buffered_jump in H.
    cbn [with_timers with_jumps_left jump_buffer_timer on_ground coyote_timer
         jumps_left] in H.
    rewrite Hs8 in H. cbn [orb] in H.
    destruct (0 <? jump_buffer_timer s8)%float.
    + injection H as <- <-. cbn [on_ground] in Hground. discriminate.
    + injection H as <- <-.
      cbn [with_timers with_jumps_left vel rect jumps_left coyote_timer].
      repeat split; assumption.
  - exfalso.
    assert (Hoff : forall s : Player.t,
               on_ground s = false -> on_ground (fst (_consume_buffered_jump s)) = false).
    { intros s Hs. unfold _consume_buffered_jump.
      destruct (0 <? jump_buffer_timer s)%float; [|exact Hs].
      destruct (on_ground s || (0 <? coyote_timer s)%float); [reflexivity|].
      destruct (jumps_left s >? 0); exact Hs. }
    destruct (on_ground self);
      injection H as H; apply (f_equal fst) in H; cbn [fst] in H;
      rewrite <- H, Hoff in Hground; try discriminate; exact Hs8.
Qed.

Lemma update_lands_on_a_platform_witness :
  update samples.lander (1 / 60)%float samples.ground 3840
    = Some (samples.lander_after, false)
  /\ bottom (rect samples.lander_after) = 560.
Proof.
  assert (Hupd : update samples.lander (1 / 60)%float samples.ground 3840
                 = Some (samples.lander_after, false)) by (vm_compute; reflexivity).
  split; [exact Hupd|].
  destruct (update_lands_on_a_platform _ _ _ _ _ _ Hupd eq_refl)
    as [_ [_ [_ [_ [plat [Hin Hbottom]]]]]].
  destruct Hin as [<-|[]]. exact Hbottom.
Defined.

Lemma consume_buffered_jump_frame (self : Player.t) :
  (0 <=? coyote_timer self)%float = true ->
  (0 <=? jump_buffer_timer self)%float = true ->
  (0 <=? coyote_timer (fst (_consume_buffered_jump self)))%float = true
  /\ (0 <=? jump_buffer_timer (fst (_consume_buffered_jump self)))%float = true
  /\ (0 <= jumps_left self <= 2 ->
      0 <= jumps_left (fst (_consume_buffered_jump self)) <= 2)
  /\ (snd (_consume_buffered_jump self) = true ->
      on_ground (fst (_consume_buffered_jump self)) = false
      /\ jump_buffer_timer (fst (_consume_buffered_jump self)) = 0.0%float).
Proof.
  intros Hc Hb. unfold _consume_buffered_jump.
  destruct (0 <? jump_buffer_timer self)%float;
    [|cbn [fst snd]; repeat split; try assumption; try lia; discriminate].
  destruct (on_ground self) eqn:Hg; cbn [orb].
  - cbn [fst snd coyote_timer jump_buffer_timer jumps_left on_ground].
    repeat split; try reflexivity; lia.
  - destruct (0 <? coyote_timer self)%float.
    + cbn [fst snd coyote_timer jump_buffer_timer jumps_left on_ground].
      repeat split; try reflexivity; lia.
    + destruct (Z.gtb_spec (jumps_left self) 0).
      * cbn [fst snd coyote_timer jump_buffer_timer jumps_left on_ground].
        repeat split; try assumption; try reflexivity; lia.
      * cbn [fst snd]. repeat split; try assumption; try lia; discriminate.
Qed.

(** Whatever the player's state and the time step (negative, infinite or
    NaN included), after [update] both timers are non-negative numbers,
    a jump budget within 0..2 stays within 0..2, and a frame in which a
    jump started leaves the player airborne with the buffer cleared. *)
Theorem update_keeps_timers_and_jump_budget
    (self self' : Player.t) (dt : float) (platforms : list Rect) (level_length : Z)
    (jumped : bool) :
  update self dt platforms level_length = Some (self', jumped) ->
  (0 <=? coyote_timer self')%float = true
  /\ (0 <=? jump_buffer_timer self')%float = true
  /\ (0 <= jumps_left self <= 2 -> 0 <= jumps_left self' <= 2)
  /\ (jumped = true ->
      on_ground self' = false /\ jump_buffer_timer self' = 0.0%float).
Proof.
  unfold update. intros H.
  int_returned H. int_returned H.
  match type of H with
  | context [_resolve_collisions "y" platforms ?s7] =>
      destruct (resolve_collisions_keeps_timers "y" platforms s7) as [Hc8 [Hb8 Hj8]];
      set (s8 := _resolve_collisions "y" platforms s7) in *
  end.
  cbn [with_on_ground with_rect coyote_timer jump_buffer_timer jumps_left] in Hc8, Hb8, Hj8.
  match type of Hc8 with
  | context [_resolve_collisions "x" platforms ?s3] =>
      destruct (resolve_collisions_keeps_timers "x" platforms s3) as [Hc4 [Hb4 Hj4]]
  end.
  cbn [with_vel with_rect with_timers coyote_timer jump_buffer_timer jumps_left]
    in Hc4, Hb4, Hj4.
  rewrite Hc4 in Hc8. rewrite Hb4 in Hb8. rewrite Hj4 in Hj8.
  assert (Hb : (0 <=? jump_buffer_timer s8)%float = true)
    by (rewrite Hb8; apply fmax_zero_nonneg).
  assert (Hc : (0 <=? coyote_timer s8)%float = true)
    by (rewrite Hc8; apply fmax_zero_nonneg).
  match type of H with
  | Some (_consume_buffered_jump ?s9) = _ =>
      assert (Hs9 : (0 <=? coyote_timer s9)%float = true
                    /\ (0 <=? jump_buffer_timer s9)%float = true
                    /\ (0 <= jumps_left self <= 2 -> 0 <= jumps_left s9 <= 2));
      [|destruct Hs9 as [Hc9 [Hb9 Hj9]];
        destruct (consume_buffered_jump_frame s9 Hc9 Hb9) as [Hc' [Hb' [Hj' Hjump]]];
        injection H as H; rewrite H in Hc', Hb', Hj', Hjump;
        cbn [fst snd] in Hc', Hb', Hj', Hjump;
        repeat split; try assumption; try (apply Hj', Hj9; assumption);
        try (apply Hjump; assumption)]
  end.
  destruct (on_ground s8); [|destruct (on_ground self)];
    cbn [with_timers with_jumps_left coyote_timer jump_buffer_timer jumps_left];
    repeat split; try assumption; try reflexivity; try lia.
Qed.

Lemma update_keeps_timers_and_jump_budget_witness :
  exists (after : Player.t) (jumped : bool),
    update (jump (samples.airborne 0.0 0.0 2)) (1 / 60)%float samples.ground 3840
      = Some (after, jumped)
    /\ jumped = true
    /\ 0 <= jumps_left after <= 2
    /\ on_ground after = false.
Proof.
  destruct (update (jump (samples.airborne 0.0 0.0 2)) (1 / 60)%float samples.ground 3840)
    as [[after jumped]|] eqn:Hupd; [|vm_compute in Hupd; discriminate].
  exists after, jumped. split; [reflexivity|].
  destruct (update_keeps_timers_and_jump_budget _ _ _ _ _ _ Hupd)
    as [_ [_ [Hbudget Hjump]]].
  assert (Hj : jumped = true) by (vm_compute in Hupd; congruence).
  split; [exact Hj|]. split.
  - apply Hbudget. vm_compute. split; discriminate.
  - apply Hjump, Hj.
Defined.

(** A jump asked for on the ground takes off: when the player was on the
    ground before the frame and the jump buffer outlasts the frame's
    time step, [update] starts a full jump, whether or not the vertical
    pass finds the player on a platform again: the velocity is
    [JUMP_FORCE], the player is airborne, one air jump is left and both
    timers are cleared. *)
Theorem grounded_jump_takes_off
    (self self' : Player.t) (dt : float) (platforms : list Rect) (level_length : Z)
    (jumped : bool) :
  on_ground self = true ->
  (0 <? Py.fmax 0.0 (jump_buffer_timer self - dt))%float = true ->
  update self dt platforms level_length = Some (self', jumped) ->
  jumped = true
  /\ vy (vel self') = Py.float config.JUMP_FORCE
  /\ on_ground self' = false
  /\ jumps_left self' = 1
  /\ coyote_timer self' = 0.0%float
  /\ jump_buffer_timer self' = 0.0%float.
Proof.
  intros Hground Harmed. unfold update. intros H.
  int_returned H. int_returned H.
  match type of H with
  | context [_resolve_collisions "y" platforms ?s7] =>
      destruct (resolve_collisions_keeps_timers "y" platforms s7) as [_ [Hb8 _]];
      set (s8 := _resolve_collisions "y" platforms s7) in *
  end.
  cbn [with_on_ground with_rect jump_buffer_timer] in Hb8.
  match type of Hb8 with
  | context [_resolve_collisions "x" platforms ?s3] =>
      destruct (resolve_collisions_keeps_timers "x" platforms s3) as [_ [Hb4 _]]
  end.
  cbn [with_vel with_rect with_timers jump_buffer_timer] in Hb4.
  rewrite Hb4 in Hb8. rewrite <- Hb8 in Harmed.
  rewrite Hground in H.
  unfold _consume_buffered_jump in H.
  destruct (on_ground s8) eqn:Hs8;
    cbn [with_timers with_jumps_left jump_buffer_timer on_ground coyote_timer] in H;
    rewrite Harmed in H; try rewrite Hs8 in H;
    change (0 <? config.COYOTE_TIME)%float with true in H; cbn [orb] in H;
    injection H as <- <-; repeat split.
Qed.

Lemma grounded_jump_takes_off_witness :
  exists after : Player.t,
    update (jump samples.runner) (1 / 60)%float samples.ground 3840 = Some (after, true)
    /\ vy (vel after) = (-22)%float
    /\ jumps_left after = 1.
Proof.
  destruct (update (jump samples.runner) (1 / 60)%float samples.ground 3840)
    as [[after jumped]|] eqn:Hupd; [|vm_compute in Hupd; discriminate].
  destruct (grounded_jump_takes_off (jump samples.runner) after (1 / 60)%float
              samples.ground 3840 jumped) as [-> [Hvy [_ [Hleft _]]]].
  - reflexivity.
  - vm_compute. reflexivity.
  - exact Hupd.
  - exists after. split; [reflexivity|]. split; [|exact Hleft].
    rewrite Hvy. vm_compute. reflexivity.
Defined.

End PlayerFrame.

(** ** The game's transitions *)

Section GameTransitions.
Import Game invariants.

Lemma SFcompare_antisym (a b : spec_float) (c : comparison) :
  SFcompare a b = Some c -> SFcompare b a = Some (CompOpp c).
Proof.
  destruct a as [sa|sa| |sa ma ea], b as [sb|sb| |sb mb eb]; cbn;
    try (intros H; injection H as <-; reflexivity); try discriminate;
    try (destruct sa, sb; intros H; injection H as <-; reflexivity);
    try (destruct sa; intros H; injection H as <-; reflexivity);
    try (destruct sb; intros H; injection H as <-; reflexivity).
  pose proof (Pos.compare_cont_antisym ma mb Eq) as Hm. cbn [CompOpp] in Hm.
  change PosDef.Pos.compare_cont with Pos.compare_cont.
  rewrite (Z.compare_antisym ea eb), <- Hm.
  intros H; injection H as <-.
  destruct sa, sb, (ea ?= eb), (Pos.compare_cont Eq ma mb); reflexivity.
Qed.

Lemma SFcompare_number_r (a b : spec_float) (c : comparison) :
  SFcompare a b = Some c -> SFcompare b b = Some Eq.
Proof.
  intros H.
  destruct b as [sb|sb| |sb mb eb].
  - reflexivity.
  - destruct sb; reflexivity.
  - destruct a as [sa|sa| |sa ma ea]; discriminate.
  - cbn. change PosDef.Pos.compare_cont with Pos.compare_cont.
    rewrite Z.compare_refl, Pos.compare_cont_refl. destruct sb; reflexivity.
Qed.

(** A float compared with something is a number, and a number is no
    greater than itself. *)
Lemma float_ltb_number_r (a b : float) :
  (a <? b)%float = true -> (b <=? b)%float = true.
Proof.
  rewrite ltb_spec, leb_spec. unfold SFltb, SFleb.
  destruct (SFcompare (Prim2SF a) (Prim2SF b)) as [c|] eqn:Hc; [|discriminate].
  rewrite (SFcompare_number_r _ _ _ Hc). reflexivity.
Qed.

Lemma float_leb_number_r (a b : float) :
  (a <=? b)%float = true -> (b <=? b)%float = true.
Proof.
  rewrite !leb_spec. unfold SFleb.
  destruct (SFcompare (Prim2SF a) (Prim2SF b)) as [c|] eqn:Hc; [|discriminate].
  rewrite (SFcompare_number_r _ _ _ Hc). reflexivity.
Qed.

Lemma float_not_ltb_leb (a b : float) :
  (a <=? a)%float = true -> (b <=? b)%float = true ->
  (a <? b)%float = false -> (b <=? a)%float = true.
Proof.
  rewrite ltb_spec, !leb_spec. unfold SFltb, SFleb.
  destruct (SFcompare (Prim2SF a) (Prim2SF b)) as [c|] eqn:Hc.
  - rewrite (SFcompare_antisym _ _ _ Hc). destruct c; cbn; congruence.
  - destruct (Prim2SF a) as [sa|sa| |sa ma ea], (Prim2SF b) as [sb|sb| |sb mb eb];
      cbn in *; congruence.
Qed.

(** Whatever the camera was before (NaN and infinities included),
    [_update_camera] leaves it between 0 and the maximal scroll, the
    latter being a non-negative float. *)
Theorem update_camera_stays_in_range (self : Game.t) :
  (0 <=? Py.float (Z.max 0 (LevelManager.level_length (lm self) - screen_width self)))%float
    = true ->
  (0 <=? camera_x (_update_camera self))%float = true
  /\ (camera_x (_update_camera self)
      <=? Py.float (Z.max 0 (LevelManager.level_length (lm self) - screen_width self)))%float
     = true.
Proof.
  intros Hmax. unfold _update_camera. cbn [camera_x].
  set (top_scroll :=
         Py.float (Z.max 0 (LevelManager.level_length (lm self) - screen_width self))) in *.
  set (cam := (camera_x self + _)%float).
  change (Py.float 0) with 0%float.
  unfold Py.fmax.
  destruct (0 <? Py.fmin cam top_scroll)%float eqn:Hpos.
  - split; [apply float_ltb_leb, Hpos|].
    pose proof (float_ltb_number_r _ _ Hpos) as Hnum.
    unfold Py.fmin in *.
    destruct (top_scroll <? cam)%float eqn:Hover.
    + exact Hnum.
    + apply float_not_ltb_leb; [apply (float_leb_number_r _ _ Hmax)|exact Hnum|exact Hover].
  - split; [reflexivity|exact Hmax].
Qed.

Lemma update_camera_stays_in_range_witness :
  (0 <=? camera_x (_update_camera samples.game))%float = true
  /\ (camera_x (_update_camera samples.game) <=? 2880)%float = true.
Proof.
  apply (update_camera_stays_in_range samples.game). vm_compute. reflexivity.
Defined.

Lemma die_at_attempts (positions : list Vector2) :
  forall self : Game.t,
    LevelManager.current_attempts (lm (die_at positions self))
    = LevelManager.current_attempts (lm self) + Z.of_nat (List.length positions)
    /\ LevelManager.current_level_index (lm (die_at positions self))
       = LevelManager.current_level_index (lm self).
Proof.
  unfold die_at.
  induction positions as [|pos rest IH]; intros self; cbn [fold_left List.length].
  - split; [lia|reflexivity].
  - destruct (IH (handle_death self pos)) as [Ha Hi]. rewrite Ha, Hi.
    destruct (handle_death_outcome self pos) as [_ Hone]. rewrite Hone.
    split; [lia|].
    unfold handle_death, LevelManager.increment_attempts.
    cbn [LevelManager.with_attempts LevelManager.current_attempts].
    destruct (_ >? 20); reflexivity.
Qed.

(** Deaths are what the rating counts: after any deaths on a level, a
    victory is rated 3 stars when the attempt counter, one more per
    death, is at most 3, 2 stars when it is at most 5, and 1 star
    otherwise, whatever the persistence layer answers. *)
Theorem victory_after_deaths_rating
    (self : Game.t) (positions : list Vector2) (db_reply : option (list (Z * Z)))
    (name : string) :
  LevelManager.level_name (lm self) = Some name ->
  exists won : Game.t,
    handle_victory (die_at positions self) db_reply = Some won
    /\ state won = VICTORY
    /\ last_victory_level won = name
    /\ last_victory_stars won
       = (if LevelManager.current_attempts (lm self)
             + Z.of_nat (List.length positions) <=? 3 then 3
          else if LevelManager.current_attempts (lm self)
                  + Z.of_nat (List.length positions) <=? 5 then 2
          else 1).
Proof.
  intros Hname.
  destruct (die_at_attempts positions self) as [Ha Hi].
  unfold handle_victory.
  assert (Hname' : LevelManager.level_name (lm (die_at positions self)) = Some name).
  { unfold LevelManager.level_name in *. rewrite Hi. exact Hname. }
  rewrite Hname'.
  unfold LevelManager.calculate_star_rating. rewrite Ha.
  destruct (current_user (die_at positions self)) as [u|]; [destruct db_reply|];
    cbn [Py.bind]; eexists; (split; [reflexivity|]); repeat split.
Qed.

Lemma victory_after_deaths_rating_witness :
  exists won : Game.t,
    handle_victory
      (die_at [mkVector2 10 10; mkVector2 20 20; mkVector2 30 30; mkVector2 40 40]
              samples.game) None = Some won
    /\ last_victory_stars won = 2.
Proof.
  destruct (victory_after_deaths_rating samples.game
              [mkVector2 10 10; mkVector2 20 20; mkVector2 30 30; mkVector2 40 40]
              None "Level 1: The Descent")
    as [won [Hwon [_ [_ Hstars]]]].
  - vm_compute. reflexivity.
  - exists won. split; [exact Hwon|]. rewrite Hstars. reflexivity.
Defined.

Ltac rank_reached threshold rank_name :=
  exists threshold, rank_name;
  split; [reflexivity|];
  split; [cbn [In]; tauto|];
  split; [lia|];
  let Hin := fresh "Hin" in
  intros ? ? Hin ?; cbn [In] in Hin;
  repeat (destruct Hin as [Hin|Hin]; [injection Hin as <- <-; lia|]);
  destruct Hin.

(** For a logged-in player with a non-negative total, [get_player_rank]
    names the rank with the highest threshold the total reaches, in
    yellow from 15 stars on; with a negative total it returns the first
    entry of the rank table itself, a threshold and a name, not a name and
    a colour. *)
Theorem get_player_rank_highest_reached (self : Game.t) (u : User) :
  current_user self = Some u ->
  (0 <= total_stars u ->
   exists (threshold : Z) (rank_name : string),
     get_player_rank self
     = Some (Rank rank_name
                  (if 15 <=? threshold then config.ACCENT_YELLOW else config.PEACH_MED))
     /\ In (threshold, rank_name) config.RANKS
     /\ threshold <= total_stars u
     /\ forall (other : Z) (other_name : string),
          In (other, other_name) config.RANKS ->
          other <= total_stars u -> other <= threshold)
  /\ (total_stars u < 0 ->
      get_player_rank self = Some (TableEntry 0 "Noob (Pure Shame)")).
Proof.
  intros Huser. unfold get_player_rank. rewrite Huser.
  change (getitem config.RANKS 0) with (Some (0, "Noob (Pure Shame)"%string)).
  cbn [Py.bind fst snd]. unfold config.RANKS. cbn [best_rank_from].
  split.
  - intros Hpos.
    destruct (Z.leb_spec 0 (total_stars u)); [|lia].
    destruct (Z.leb_spec 5 (total_stars u));
      [|rank_reached 0 "Noob (Pure Shame)"%string].
    destruct (Z.leb_spec 10 (total_stars u));
      [|rank_reached 5 "Amateur (Just Stop)"%string].
    destruct (Z.leb_spec 15 (total_stars u));
      [|rank_reached 10 "Rookie (Barely Competent)"%string].
    destruct (Z.leb_spec 22 (total_stars u));
      [|rank_reached 15 "Veteran (Moderately Hated)"%string].
    destruct (Z.leb_spec 28 (total_stars u));
      [|rank_reached 22 "Elite (Toxic Master)"%string].
    rank_reached 28 "GOD (The Narrator's Equal)"%string.
  - intros Hneg. destruct (Z.leb_spec 0 (total_stars u)); [lia|reflexivity].
Qed.

Lemma get_player_rank_highest_reached_witness :
  get_player_rank samples.game
  = Some (Rank "Noob (Pure Shame)" config.PEACH_MED).
Proof.
  destruct (get_player_rank_highest_reached samples.game (mkUser 7 3) eq_refl)
    as [Hrank _].
  destruct Hrank as [threshold [rank_name [Hget _]]]; [cbn; lia|].
  reflexivity.
Defined.

(** A click fires at most one button: on the victory screen Continue
    leads to the map and Replay to the level, each with the player at
    the spawn point, the camera at 0 and the attempt counter at 0; in the
    death menu Retry leads back to the level with the attempt counter
    untouched.  A second button never overrides the first. *)
Theorem menu_click_fires_one_button
    (self : Game.t) (pos : Z * Z) (screen_height : Z) (spawned respawned : Player.t) :
  Player.set_spawn (player self) (LevelManager.spawn_point (lm self)) = Some spawned ->
  Player.reset (player self) = Some respawned ->
  (collidepoint (mkRect (screen_width self / 2 - 100) (screen_height / 2 + 50) 200 50) pos
   = true ->
   _handle_victory_event self (MOUSEBUTTONDOWN pos) screen_height
   = Some (with_camera_state self MAP_MENU (LevelManager.reset_attempts (lm self))
             spawned (Py.float 0) []))
  /\ (collidepoint (mkRect (screen_width self / 2 - 100) (screen_height / 2 + 120) 200 50)
                   pos = true ->
      _handle_victory_event self (MOUSEBUTTONDOWN pos) screen_height
      = Some (with_camera_state self PLAYING (LevelManager.reset_attempts (lm self))
                spawned (Py.float 0) []))
  /\ (collidepoint (mkRect (screen_width self / 2 - 60) 200 120 50) pos = true ->
      _handle_death_menu_event self (MOUSEBUTTONDOWN pos)
      = Some (with_camera_state self PLAYING (lm self) respawned (Py.float 0) [])).
Proof.
  intros Hspawn Hreset.
  destruct pos as [px py].
  unfold _handle_victory_event, _handle_death_menu_event, collidepoint,
    LevelManager.reset_attempts, LevelManager.with_attempts.
  cbn [x y width height fst snd LevelManager.spawn_point].
  repeat split; intros Hhit;
    apply andb_prop in Hhit; destruct Hhit as [Hhit Hy2];
    apply andb_prop in Hhit; destruct Hhit as [Hhit Hy1];
    apply andb_prop in Hhit; destruct Hhit as [Hx1 Hx2];
    apply Z.leb_le in Hx1, Hy1; apply Z.ltb_lt in Hx2, Hy2.
  - rewrite (proj2 (Z.leb_le _ _) Hx1), (proj2 (Z.ltb_lt _ _) Hx2),
      (proj2 (Z.leb_le _ _) Hy1), (proj2 (Z.ltb_lt _ _) Hy2).
    cbn [andb]. rewrite Hspawn. cbn [Py.bind with_camera_state screen_width].
    destruct (Z.leb_spec (screen_height / 2 + 120) py); [lia|].
    rewrite ?andb_false_r; cbn [andb]. reflexivity.
  - destruct (Z.ltb_spec py (screen_height / 2 + 50 + 50)); [lia|].
    rewrite ?andb_false_r; cbn [andb]. cbn [Py.bind].
    rewrite (proj2 (Z.leb_le _ _) Hx1), (proj2 (Z.ltb_lt _ _) Hx2),
      (proj2 (Z.leb_le _ _) Hy1), (proj2 (Z.ltb_lt _ _) Hy2).
    cbn [andb]. rewrite Hspawn. reflexivity.
  - rewrite (proj2 (Z.leb_le _ _) Hx1), (proj2 (Z.ltb_lt _ _) Hx2),
      (proj2 (Z.leb_le _ _) Hy1), (proj2 (Z.ltb_lt _ _) Hy2).
    cbn [andb]. rewrite Hreset. cbn [Py.bind with_camera_state screen_width].
    destruct (Z.ltb_spec py (20 + 50)); [lia|].
    rewrite ?andb_false_r; cbn [andb]. reflexivity.
Qed.

Lemma menu_click_fires_one_button_witness :
  exists replayed : Game.t,
    _handle_victory_event samples.game (MOUSEBUTTONDOWN (480, 480)) 700 = Some replayed
    /\ state replayed = PLAYING
    /\ LevelManager.current_attempts (lm replayed) = 0.
Proof.
  destruct (Player.set_spawn (player samples.game)
              (LevelManager.spawn_point (lm samples.game))) as [spawned|] eqn:Hspawn;
    [|vm_compute in Hspawn; discriminate].
  destruct (Player.reset (player samples.game)) as [respawned|] eqn:Hreset;
    [|vm_compute in Hreset; discriminate].
  destruct (menu_click_fires_one_button samples.game (480, 480) 700 spawned respawned
              Hspawn Hreset) as [_ [Hreplay _]].
  eexists. split; [apply Hreplay; vm_compute; reflexivity|].
  split; reflexivity.
Defined.

End GameTransitions.

(** ** The dialogue box *)

Section Dialogue.
Import dialogue_manager.DialogueManager invariants.

Lemma firstn_snoc {A : Type} (l : list A) :
  forall (n : nat) (a : A),
    nth_error l n = Some a -> firstn (S n) l = firstn n l ++ [a].
Proof.
  induction l as [|b rest IH]; intros [|n] a H; cbn in H; try discriminate.
  - injection H as <-. reflexivity.
  - cbn [firstn app]. f_equal. apply IH, H.
Qed.

Lemma char_at_in_range (text : str) (i : Z) :
  0 <= i < Z.of_nat (List.length text) ->
  exists char, char_at text i = Some char
               /\ firstn (Z.to_nat (i + 1)) text = firstn (Z.to_nat i) text ++ [char].
Proof.
  intros Hi. unfold char_at.
  destruct (Z.leb_spec 0 i); [|lia].
  destruct (Z.ltb_spec i (Z.of_nat (List.length text))); [|lia].
  cbn [andb].
  destruct (nth_error text (Z.to_nat i)) as [char|] eqn:Hnth.
  - exists char. split; [reflexivity|].
    replace (Z.to_nat (i + 1)) with (S (Z.to_nat i)) by lia.
    apply firstn_snoc, Hnth.
  - apply nth_error_None in Hnth. lia.
Qed.

(** One frame of the typing effect: it never raises, keeps the display
    consistent, and blips only when it types a character. *)
Lemma update_typing (phrase hint : str) (tier : Z) (d : t) (dt : float) (now : Z) :
  typing phrase hint tier d ->
  exists (d' : t) (blip : bool),
    update d dt now = Some (d', blip)
    /\ typing phrase hint tier d'
    /\ char_index d + hint_index d + (if blip then 1 else 0)
       <= char_index d' + hint_index d'.
Proof.
  intros [Hact [Hphrase [Hhint [Htier [Hci [Htext [Hhi [Hshown Hlate]]]]]]]].
  unfold update. rewrite Hact, Hphrase, Hhint.
  set (locked' := if locked d && (end_time d <=? now) then false else locked d).
  assert (Hlock : locked d = false -> locked' = false).
  { intros Hl. unfold locked'. rewrite Hl. reflexivity. }
  destruct (Z.ltb_spec (char_index d) (Z.of_nat (List.length phrase))) as [Hmore|Hdone];
    cbn [andb].
  - destruct (typing_speed d <=? text_timer d + dt)%float.
    + destruct (char_at_in_range phrase (char_index d)) as [char [Hchar Hfirst]]; [lia|].
      rewrite Hchar. cbn [Py.bind].
      eexists. eexists. split; [reflexivity|].
      split.
      * unfold typing.
        cbn [active current_phrase hint_text current_tier char_index displayed_text
             hint_index displayed_hint locked].
        rewrite Hfirst, Htext.
        repeat split; try assumption; try reflexivity; try lia.
        all: intros Hpos; destruct (Hlate Hpos); lia.
      * cbn [char_index hint_index]. destruct (negb (char =? 32) && has_sound d); lia.
    + rewrite andb_false_r. cbn [andb].
      eexists. eexists. split; [reflexivity|].
      split; [|cbn [char_index hint_index]; lia].
      unfold typing.
      cbn [active current_phrase hint_text current_tier char_index displayed_text
           hint_index displayed_hint locked].
      repeat split; try assumption; try lia.
      all: intros Hpos; destruct (Hlate Hpos); lia.
  - assert (Hfull : char_index d = Z.of_nat (List.length phrase)) by lia.
    destruct locked' eqn:Hl'; cbn [negb andb].
    + eexists. eexists. split; [reflexivity|].
      split; [|cbn [char_index hint_index]; lia].
      unfold typing.
      cbn [active current_phrase hint_text current_tier char_index displayed_text
           hint_index displayed_hint locked].
      repeat split; try assumption; try lia.
      match goal with
      | Hpos : 0 < hint_index d |- _ => destruct (Hlate Hpos) as [_ Hfree]
      end.
      exact (Hlock Hfree).
    + destruct (Z.ltb_spec (hint_index d) (Z.of_nat (List.length hint))) as [Hh|Hh];
        cbn [andb].
      * destruct (typing_speed d <=? text_timer d + dt)%float.
        -- destruct (char_at_in_range hint (hint_index d)) as [char [Hchar Hfirst]];
             [lia|].
           rewrite Hchar. cbn [Py.bind].
           eexists. eexists. split; [reflexivity|].
           split.
           ++ unfold typing.
              cbn [active current_phrase hint_text current_tier char_index
                   displayed_text hint_index displayed_hint locked].
              rewrite Hfirst, Hshown.
              repeat split; try assumption; try reflexivity; try lia.
           ++ cbn [char_index hint_index].
              destruct (negb (char =? 32) && has_sound d); lia.
        -- eexists. eexists. split; [reflexivity|].
           split; [|cbn [char_index hint_index]; lia].
           unfold typing.
           cbn [active current_phrase hint_text current_tier char_index displayed_text
                hint_index displayed_hint locked].
           repeat split; try assumption; try lia.
      * eexists. eexists. split; [reflexivity|].
        split; [|cbn [char_index hint_index]; lia].
        unfold typing.
        cbn [active current_phrase hint_text current_tier char_index displayed_text
             hint_index displayed_hint locked].
        repeat split; try assumption; try lia.
Qed.

Lemma run_typing (phrase hint : str) (tier : Z) (frames : list (float * Z)) :
  forall d : t,
    typing phrase hint tier d ->
    exists (last : t) (blips : nat),
      run frames d = Some (last, blips)
      /\ typing phrase hint tier last
      /\ char_index d + hint_index d + Z.of_nat blips
         <= char_index last + hint_index last.
Proof.
  induction frames as [|[dt now] rest IH]; intros d Hd; cbn [run].
  - exists d, O. split; [reflexivity|]. split; [exact Hd|lia].
  - destruct (update_typing phrase hint tier d dt now Hd) as [d' [blip [Hupd [Hd' Hcount]]]].
    rewrite Hupd.
    destruct (IH d' Hd') as [last [blips [Hrun [Hlast Hsum]]]].
    rewrite Hrun. eexists. eexists. split; [reflexivity|].
    split; [exact Hlast|]. destruct blip; lia.
Qed.

(** After [trigger], whatever the frames that follow, [update] never
    raises; the text displayed is the part of the phrase the cursor has
    passed and the hint displayed the part of the hint its cursor has
    passed; the hint does not begin before the phrase is complete and the
    input lock released; the tier stays the one of the trigger; and no
    more blips are played than characters typed. *)
Theorem dialogue_types_phrase_then_hint
    (self : t) (attempts : Z) (phrase : str) (now : Z) (frames : list (float * Z)) :
  exists (last : t) (blips : nat),
    run frames (fst (trigger self attempts phrase now)) = Some (last, blips)
    /\ typing phrase (hint_text self) (_determine_tier attempts) last
    /\ Z.of_nat blips <= char_index last + hint_index last.
Proof.
  destruct (run_typing phrase (hint_text self) (_determine_tier attempts) frames
              (fst (trigger self attempts phrase now)))
    as [last [blips [Hrun [Hlast Hsum]]]].
  - unfold trigger, typing.
    cbn [fst active current_phrase hint_text current_tier char_index displayed_text
         hint_index displayed_hint locked Z.to_nat firstn].
    repeat split; try reflexivity; try lia.
  - exists last, blips. split; [exact Hrun|]. split; [exact Hlast|].
    cbn [trigger fst char_index hint_index] in Hsum. lia.
Qed.

Lemma determine_tier_cases (attempts : Z) :
  (1 <= attempts < 4 /\ _determine_tier attempts = 1)
  \/ (4 <= attempts < 7 /\ _determine_tier attempts = 2)
  \/ (7 <= attempts < 11 /\ _determine_tier attempts = 3)
  \/ ((attempts <= 0 \/ 11 <= attempts) /\ _determine_tier attempts = 4).
Proof.
  unfold _determine_tier, TOXIC_TIERS, in_range, config.MAX_TOXICITY_TIER.
  cbn [find fst snd].
  destruct (Z.leb_spec 1 attempts); cbn [andb]; [|right; right; right].
  - destruct (Z.ltb_spec attempts 4); [left; lia|].
    destruct (Z.leb_spec 4 attempts); [|lia]. cbn [andb].
    destruct (Z.ltb_spec attempts 7); [right; left; lia|].
    destruct (Z.leb_spec 7 attempts); [|lia]. cbn [andb].
    destruct (Z.ltb_spec attempts 11); [right; right; left; lia|].
    destruct (Z.leb_spec 11 attempts); [|lia]. cbn [andb].
    destruct (Z.ltb_spec attempts 10000); right; right; right; split; (lia || reflexivity).
  - destruct (Z.leb_spec 4 attempts); [lia|].
    destruct (Z.leb_spec 7 attempts); [lia|].
    destruct (Z.leb_spec 11 attempts); [lia|].
    cbn [andb]. split; [lia|reflexivity].
Qed.

(** From the first death on, the tier of the insults never goes down as
    the attempts go up, and it stays within 1..4 (also past the last
    range, where the fallback is the top tier). *)
Theorem determine_tier_escalates (attempts later : Z) :
  1 <= attempts <= later ->
  1 <= _determine_tier attempts
  /\ _determine_tier attempts <= _determine_tier later
  /\ _determine_tier later <= config.MAX_TOXICITY_TIER.
Proof.
  intros H. unfold config.MAX_TOXICITY_TIER.
  destruct (determine_tier_cases attempts) as [[? ->]|[[? ->]|[[? ->]|[? ->]]]];
    destruct (determine_tier_cases later) as [[? ->]|[[? ->]|[[? ->]|[? ->]]]];
    lia.
Qed.

Lemma determine_tier_escalates_witness :
  1 <= _determine_tier 3
  /\ _determine_tier 3 <= _determine_tier 10000
  /\ _determine_tier 10000 <= 4.
Proof. apply (determine_tier_escalates 3 10000). lia. Defined.

End Dialogue.

(** ** The stars ledger *)

Section Ledger.
Import database_manager database_manager.DatabaseManager invariants.

Lemma sum_values_from (d : list (Z * Z)) :
  forall acc : Z,
    fold_left (fun acc kv => acc + snd kv) d acc = acc + Game.sum_values d.
Proof.
  unfold Game.sum_values.
  induction d as [|kv rest IH]; intros acc; cbn [fold_left].
  - lia.
  - rewrite IH, (IH (0 + snd kv)). lia.
Qed.

Lemma sum_values_cons (kv : Z * Z) (d : list (Z * Z)) :
  Game.sum_values (kv :: d) = snd kv + Game.sum_values d.
Proof.
  unfold Game.sum_values at 1. cbn [fold_left]. rewrite sum_values_from. lia.
Qed.

Lemma sum_values_group_max (level stars : Z) (groups : list (Z * Z)) :
  Game.sum_values (group_max level stars groups)
  = Game.sum_values groups
    + match stars_of level groups with
      | Some best => Z.max best stars - best
      | None => stars
      end.
Proof.
  induction groups as [|[l m] rest IH]; cbn [group_max stars_of].
  - rewrite sum_values_cons. cbn [snd]. unfold Game.sum_values. cbn [fold_left]. lia.
  - destruct (l =? level).
    + rewrite !sum_values_cons. cbn [snd]. lia.
    + rewrite !sum_values_cons, IH. cbn [snd]. lia.
Qed.

Lemma stars_of_group_max (level stars other : Z) (groups : list (Z * Z)) :
  stars_of other (group_max level stars groups)
  = if other =? level
    then Some match stars_of level groups with
              | Some best => Z.max best stars
              | None => stars
              end
    else stars_of other groups.
Proof.
  induction groups as [|[l m] rest IH]; cbn [group_max stars_of].
  - rewrite (Z.eqb_sym level other). reflexivity.
  - destruct (Z.eqb_spec l level) as [->|Hl]; cbn [stars_of].
    + rewrite (Z.eqb_sym level other). destruct (other =? level); reflexivity.
    + rewrite IH.
      destruct (Z.eqb_spec l other) as [->|Ho].
      * destruct (Z.eqb_spec other level); [contradiction|reflexivity].
      * reflexivity.
Qed.

Lemma has_key_stars_of (level : Z) (d : list (Z * Z)) :
  Game.has_key level d = true <-> stars_of level d <> None.
Proof.
  unfold Game.has_key.
  induction d as [|[l m] rest IH]; cbn [existsb stars_of fst].
  - split; [discriminate|congruence].
  - destruct (l =? level); cbn [orb]; [split; [discriminate|reflexivity]|exact IH].
Qed.

Lemma sql_max_snoc (values : list Z) (v : Z) :
  sql_max (values ++ [v])
  = Some match sql_max values with
         | Some best => Z.max best v
         | None => v
         end.
Proof.
  destruct values as [|a rest]; cbn [sql_max app]; [reflexivity|].
  rewrite fold_left_app. reflexivity.
Qed.

(** The result of the [GROUP BY] query after one more row. *)
Lemma get_player_level_stars_snoc (ps : list Players.row) (rows : list Level_Attempts.row)
    (ds : list Deaths.row) (r : Level_Attempts.row) (user : Z) :
  get_player_level_stars (mk ps (rows ++ [r]) ds) user
  = if Level_Attempts.user_id r =? user
    then group_max (Level_Attempts.level_id r) (Level_Attempts.stars_earned r)
                   (get_player_level_stars (mk ps rows ds) user)
    else get_player_level_stars (mk ps rows ds) user.
Proof.
  unfold get_player_level_stars. cbn [level_attempts].
  rewrite fold_left_app. reflexivity.
Qed.

(** The two queries agree: the best rating of a level, as
    [_get_max_stars_for_level] selects it, is the entry of the level in
    the dictionary of [get_player_level_stars]. *)
Lemma stars_of_get_player_level_stars (ps : list Players.row) (ds : list Deaths.row)
    (user level : Z) (rows : list Level_Attempts.row) :
  stars_of level (get_player_level_stars (mk ps rows ds) user)
  = sql_max (map Level_Attempts.stars_earned
               (filter (fun r => (Level_Attempts.user_id r =? user)
                                 && (Level_Attempts.level_id r =? level)) rows)).
Proof.
  induction rows as [|r rows IH] using rev_ind.
  - reflexivity.
  - rewrite get_player_level_stars_snoc, filter_app, map_app.
    cbn [filter].
    destruct (Level_Attempts.user_id r =? user); cbn [andb].
    + rewrite stars_of_group_max, (Z.eqb_sym level).
      destruct (Z.eqb_spec (Level_Attempts.level_id r) level) as [->|Hl].
      * cbn [map]. rewrite sql_max_snoc, <- IH. reflexivity.
      * cbn [map]. rewrite app_nil_r. exact IH.
    + cbn [map]. rewrite app_nil_r. exact IH.
Qed.

Lemma add_stars_id (delta user : Z) (r : Players.row) :
  Players.id (add_stars delta user r) = Players.id r.
Proof. unfold add_stars. destruct (Players.id r =? user); reflexivity. Qed.

(** What [record_level_attempt] does to one player's row and
    dictionary. *)
Lemma record_level_attempt_row (db : DatabaseManager.t)
    (user level attempts stars : Z) (r' : Players.row) :
  0 <= stars ->
  In r' (players (record_level_attempt db user level attempts stars)) ->
  exists r : Players.row,
    In r (players db)
    /\ Players.id r' = Players.id r
    /\ Players.total_stars r' - Players.total_stars r
       = Game.sum_values
           (get_player_level_stars
              (record_level_attempt db user level attempts stars) (Players.id r))
         - Game.sum_values (get_player_level_stars db (Players.id r))
    /\ 0 <= Players.total_stars r' - Players.total_stars r.
Proof.
  intros Hstars Hin.
  destruct db as [ps rows ds].
  assert (Hgroups : forall who,
             get_player_level_stars
               (record_level_attempt (mk ps rows ds) user level attempts stars) who
             = if user =? who
               then group_max level stars (get_player_level_stars (mk ps rows ds) who)
               else get_player_level_stars (mk ps rows ds) who).
  { intros who. unfold record_level_attempt. cbn [level_attempts players deaths].
    destruct (_ >? 0);
      unfold get_player_level_stars at 1; cbn [level_attempts];
      rewrite fold_left_app; reflexivity. }
  assert (Hdelta : Z.max 0 (stars - _get_max_stars_for_level (mk ps rows ds) user level)
                   = match stars_of level (get_player_level_stars (mk ps rows ds) user)
                     with
                     | Some best => Z.max best stars - best
                     | None => stars
                     end).
  { unfold _get_max_stars_for_level. cbn [level_attempts].
    rewrite <- (stars_of_get_player_level_stars ps ds).
    destruct (stars_of level _); cbn [ISNULL]; lia. }
  assert (Hrow : exists r, In r ps
                   /\ (r' = r \/ r' = add_stars
                                        (Z.max 0 (stars - _get_max_stars_for_level
                                                            (mk ps rows ds) user level))
                                        user r)
                   /\ (r' = r ->
                       Z.max 0 (stars - _get_max_stars_for_level
                                          (mk ps rows ds) user level) = 0
                       \/ Players.id r <> user)).
  { unfold record_level_attempt in Hin. cbn [level_attempts players deaths] in Hin.
    destruct (Z.gtb_spec (Z.max 0 (stars - _get_max_stars_for_level
                                              (mk ps rows ds) user level)) 0) as [Hgt|Hle];
      cbn [players] in Hin.
    - apply in_map_iff in Hin. destruct Hin as [r [<- Hr]].
      exists r. split; [exact Hr|]. split; [right; reflexivity|].
      unfold add_stars. destruct (Z.eqb_spec (Players.id r) user); [|right; assumption].
      intros Heq. apply (f_equal Players.total_stars) in Heq.
      cbn [Players.total_stars] in Heq. lia.
    - exists r'. split; [exact Hin|]. split; [left; reflexivity|]. intros _. left. lia. }
  destruct Hrow as [r [Hr [Hshape Hsame]]].
  exists r. split; [exact Hr|].
  rewrite Hgroups.
  destruct Hshape as [->| ->].
  - split; [reflexivity|].
    destruct (Hsame eq_refl) as [Hzero|Hother].
    + destruct (Z.eqb_spec user (Players.id r)) as [<-|_]; [|lia].
      rewrite sum_values_group_max, <- Hdelta, Hzero. lia.
    + destruct (Z.eqb_spec user (Players.id r)) as [Heq|_]; [congruence|lia].
  - rewrite add_stars_id. split; [reflexivity|].
    unfold add_stars.
    destruct (Z.eqb_spec (Players.id r) user) as [<-|Hother]; cbn [Players.total_stars].
    + rewrite Z.eqb_refl, sum_values_group_max, <- Hdelta. lia.
    + destruct (Z.eqb_spec user (Players.id r)) as [Heq|_]; [congruence|lia].
Qed.

(** Recording a finished level keeps the ledger consistent: when the
    rating recorded is not negative and every player's [total_stars] was
    the sum of the player's best ratings per level, it still is
    afterwards.  A replay with a lower rating changes no total. *)
Theorem record_level_attempt_keeps_ledger (db : DatabaseManager.t)
    (user level attempts stars : Z) :
  0 <= stars ->
  ledger_consistent db ->
  ledger_consistent (record_level_attempt db user level attempts stars).
Proof.
  intros Hstars Hdb r' Hin.
  destruct (record_level_attempt_row db user level attempts stars r' Hstars Hin)
    as [r [Hr [Hid [Hdiff _]]]].
  rewrite Hid. specialize (Hdb r Hr). lia.
Qed.

Lemma record_level_attempt_keeps_ledger_witness :
  ledger_consistent (record_level_attempt samples.db 7 1 5 2)
  /\ map Players.total_stars (players (record_level_attempt samples.db 7 1 5 2)) = [3].
Proof.
  split; [|reflexivity].
  apply record_level_attempt_keeps_ledger; [lia|].
  intros r [<-|[]]. reflexivity.
Defined.

Lemma fold_left_filter_users (user gone : Z) (rows : list Level_Attempts.row) :
  forall groups : list (Z * Z),
    fold_left
      (fun groups r =>
         if Level_Attempts.user_id r =? user
         then group_max (Level_Attempts.level_id r) (Level_Attempts.stars_earned r) groups
         else groups)
      (filter (fun r => negb (Level_Attempts.user_id r =? gone)) rows) groups
    = if user =? gone then groups
      else fold_left
             (fun groups r =>
                if Level_Attempts.user_id r =? user
                then group_max (Level_Attempts.level_id r)
                               (Level_Attempts.stars_earned r) groups
                else groups)
             rows groups.
Proof.
  induction rows as [|r rest IH]; intros groups; cbn [filter fold_left].
  - destruct (user =? gone); reflexivity.
  - destruct (Z.eqb_spec (Level_Attempts.user_id r) gone) as [Hgone|Hstay]; cbn [negb].
    + rewrite IH.
      destruct (Z.eqb_spec user gone) as [->|Hother]; [reflexivity|].
      destruct (Z.eqb_spec (Level_Attempts.user_id r) user); [congruence|reflexivity].
    + cbn [fold_left]. rewrite IH.
      destruct (Z.eqb_spec user gone) as [->|Hother]; [|reflexivity].
      destruct (Z.eqb_spec (Level_Attempts.user_id r) gone); [contradiction|reflexivity].
Qed.

(** [delete_user] removes the player and the player's attempts, and
    nothing else: no row of that id is left, the player's stars
    dictionary is empty, every other player keeps row and dictionary,
    the recorded deaths stay, and a consistent ledger stays consistent. *)
Theorem delete_user_removes_one_player (db : DatabaseManager.t) (user : Z) :
  snd (delete_user db user) = true
  /\ (forall r, In r (players (fst (delete_user db user))) <->
                In r (players db) /\ Players.id r <> user)
  /\ (forall r, In r (level_attempts (fst (delete_user db user))) <->
                In r (level_attempts db) /\ Level_Attempts.user_id r <> user)
  /\ get_player_level_stars (fst (delete_user db user)) user = []
  /\ (forall other, other <> user ->
        get_player_level_stars (fst (delete_user db user)) other
        = get_player_level_stars db other)
  /\ deaths (fst (delete_user db user)) = deaths db
  /\ (ledger_consistent db -> ledger_consistent (fst (delete_user db user))).
Proof.
  assert (Hothers : forall other, other <> user ->
            get_player_level_stars (fst (delete_user db user)) other
            = get_player_level_stars db other).
  { intros other Hother. unfold delete_user, get_player_level_stars.
    cbn [fst level_attempts]. rewrite fold_left_filter_users.
    destruct (Z.eqb_spec other user); [contradiction|reflexivity]. }
  assert (Hplayers : forall r, In r (players (fst (delete_user db user))) <->
                               In r (players db) /\ Players.id r <> user).
  { intros r. unfold delete_user. cbn [fst players]. rewrite filter_In.
    destruct (Z.eqb_spec (Players.id r) user); cbn [negb]; intuition congruence. }
  split; [reflexivity|]. split; [exact Hplayers|]. split.
  { intros r. unfold delete_user. cbn [fst level_attempts]. rewrite filter_In.
    destruct (Z.eqb_spec (Level_Attempts.user_id r) user); cbn [negb];
      intuition congruence. }
  split.
  { unfold delete_user, get_player_level_stars. cbn [fst level_attempts].
    rewrite fold_left_filter_users, Z.eqb_refl. reflexivity. }
  split; [exact Hothers|]. split; [reflexivity|].
  intros Hdb r Hr. apply Hplayers in Hr. destruct Hr as [Hr Hid].
  rewrite (Hothers _ Hid). apply Hdb, Hr.
Qed.

(** Winning unlocks the next level: when the persistence layer answers a
    victory with the dictionary it holds after recording the attempt, the
    level that follows the one just won, up to level 12, is unlocked on
    the map, and the total shown for the player is the one the ledger
    holds, provided the ledger was consistent. *)
Theorem victory_unlocks_next_level
    (self won : Game.t) (u : Game.User) (db : DatabaseManager.t) :
  Game.current_user self = Some u ->
  Game.handle_victory self
    (Some (get_player_level_stars
             (record_level_attempt db (Game.user_id u)
                (LevelManager.level_id (Game.lm self))
                (LevelManager.current_attempts (Game.lm self))
                (LevelManager.calculate_star_rating (Game.lm self)))
             (Game.user_id u))) = Some won ->
  LevelManager.level_id (Game.lm self) + 1 <= config.TOTAL_LEVELS ->
  Game._is_level_unlocked won (LevelManager.level_id (Game.lm self) + 1) = Some true
  /\ (ledger_consistent db ->
      forall r,
        In r (players (record_level_attempt db (Game.user_id u)
                         (LevelManager.level_id (Game.lm self))
                         (LevelManager.current_attempts (Game.lm self))
                         (LevelManager.calculate_star_rating (Game.lm self)))) ->
        Players.id r = Game.user_id u ->
        Game.current_user won = Some (Game.mkUser (Players.id r) (Players.total_stars r))).
Proof.
  intros Huser Hwon Hlevel.
  unfold Game.handle_victory in Hwon. rewrite Huser in Hwon.
  destruct (LevelManager.level_name (Game.lm self)) as [name|]; [|discriminate].
  cbn [Py.bind] in Hwon. injection Hwon as <-.
  split.
  - unfold Game._is_level_unlocked. cbn [Game.map_progress].
    destruct (Z.eqb_spec (LevelManager.level_id (Game.lm self) + 1) 1); [reflexivity|].
    destruct (Z.leb_spec (LevelManager.level_id (Game.lm self) + 1) config.TOTAL_LEVELS);
      [|lia].
    f_equal. apply has_key_stars_of.
    replace (LevelManager.level_id (Game.lm self) + 1 - 1)
      with (LevelManager.level_id (Game.lm self)) by lia.
    destruct db as [ps rows ds].
    assert (Hgroups :
              get_player_level_stars
                (record_level_attempt (mk ps rows ds) (Game.user_id u)
                   (LevelManager.level_id (Game.lm self))
                   (LevelManager.current_attempts (Game.lm self))
                   (LevelManager.calculate_star_rating (Game.lm self)))
                (Game.user_id u)
              = group_max (LevelManager.level_id (Game.lm self))
                          (LevelManager.calculate_star_rating (Game.lm self))
                          (get_player_level_stars (mk ps rows ds) (Game.user_id u))).
    { unfold record_level_attempt. cbn [level_attempts players deaths].
      destruct (_ >? 0);
        unfold get_player_level_stars at 1; cbn [level_attempts];
        rewrite fold_left_app; cbn [fold_left Level_Attempts.user_id
                                    Level_Attempts.level_id Level_Attempts.stars_earned];
        rewrite Z.eqb_refl; reflexivity. }
    rewrite Hgroups, stars_of_group_max, Z.eqb_refl. discriminate.
  - intros Hdb r Hr Hid. cbn [Game.current_user].
    assert (Hstars : 0 <= LevelManager.calculate_star_rating (Game.lm self)).
    { unfold LevelManager.calculate_star_rating.
      destruct (_ <=? 3); [lia|]. destruct (_ <=? 5); lia. }
    destruct (record_level_attempt_row db _ _ _ _ r Hstars Hr)
      as [before [Hbefore [Hsame [Hdiff _]]]].
    specialize (Hdb before Hbefore).
    assert (Htotal : Players.total_stars r
                     = Game.sum_values
                         (get_player_level_stars
                            (record_level_attempt db (Game.user_id u)
                               (LevelManager.level_id (Game.lm self))
                               (LevelManager.current_attempts (Game.lm self))
                               (LevelManager.calculate_star_rating (Game.lm self)))
                            (Game.user_id u))).
    { assert (Hwho : Players.id before = Game.user_id u) by congruence.
      rewrite Hwho in Hdiff, Hdb. lia. }
    rewrite Htotal, Hid. reflexivity.
Qed.

Lemma victory_unlocks_next_level_witness :
  exists won : Game.t,
    Game.handle_victory samples.game
      (Some (get_player_level_stars (record_level_attempt samples.db 7 1 0 3) 7))
    = Some won
    /\ Game._is_level_unlocked won 2 = Some true.
Proof.
  destruct (Game.handle_victory samples.game
              (Some (get_player_level_stars (record_level_attempt samples.db 7 1 0 3) 7)))
    as [won|] eqn:Hwon; [|vm_compute in Hwon; discriminate].
  exists won. split; [reflexivity|].
  apply (victory_unlocks_next_level samples.game won (Game.mkUser 7 3) samples.db).
  - reflexivity.
  - exact Hwon.
  - vm_compute. discriminate.
Defined.

End Ledger.
